(** * Ramblaa sandbox automation pipeline: a shallow embedding

    The development follows [backend/services/sandboxAIService.js]: the
    class [SandboxAIService] that summarises inbound guest messages, answers
    them, creates staff tasks, evaluates follow-ups and detects escalations.

    - JavaScript strings are [string]; [===] on strings is [String.eqb].
    - PostgreSQL tables are fields of [Store]: tables with a primary key that
      the queries join on ([sandbox_sessions], [properties]) are [gmap]s,
      the tables the pipeline appends to are lists in insertion order.
    - [async] methods are computations in the monad [M]: they thread the
      [World] (store, clock, pending database faults) and either return a
      value or throw.
    - The content of a completion goes through [JSON.parse] and is used
      unchecked: it may be [null], and its [keyInformation] may be no
      array; reading them throws a [TypeError]. *)

From Stdlib Require Import ZArith QArith Qround Lqa Ascii String List Sorting.Sorted Permutation.
From stdpp Require Import base decidable option list sorting gmap strings pretty.

Open Scope string_scope.
Open Scope Z_scope.
Open Scope list_scope.

(** ** JavaScript strings

    String concatenation is written [+:+]. *)

Notation "a === b" := (String.eqb a b) (at level 70, no associativity).

(** [String.prototype.startsWith] at position 0. *)
Fixpoint startsWith (s pat : string) : bool :=
  match pat, s with
  | EmptyString, _ => true
  | String _ _, EmptyString => false
  | String p pat', String c s' => Ascii.eqb p c && startsWith s' pat'
  end.

(** [String.prototype.includes]: the pattern occurs at some position. *)
Fixpoint includes (s pat : string) : bool :=
  startsWith s pat ||
  match s with
  | EmptyString => false
  | String _ s' => includes s' pat
  end.

(** [Array.prototype.includes] on an array of strings ([===] per element). *)
Definition Array_includes (arr : list string) (x : string) : bool :=
  existsb (fun y => y === x) arr.

(** [Array.prototype.join] on an array of strings. *)
Fixpoint join (sep : string) (arr : list string) : string :=
  match arr with
  | [] => ""
  | [x] => x
  | x :: rest => x +:+ sep +:+ join sep rest
  end.

(** The line feed of a template literal. *)
Definition newline : string := String (ascii_of_nat 10) EmptyString.

(** Truthiness of a string: only the empty string is falsy. *)
Definition truthy (s : string) : bool :=
  match s with EmptyString => false | _ => true end.

(** [a || b] on strings. *)
Definition or_else (a b : string) : string := if truthy a then a else b.

(** What the JavaScript engine supplies: the Unicode case mapping of
    [String.prototype.toLowerCase] and the text that
    [Math.random().toString(36).substr(2, 9)] yields at the n-th draw. *)
Class Engine := {
  toLowerCase : string -> string;
  random_suffix : nat -> string
}.

(** On ASCII text [toLowerCase] maps [A]-[Z] to [a]-[z] and keeps every other
    character. *)
Definition ascii_lower (c : ascii) : ascii :=
  let n := nat_of_ascii c in
  if (Nat.leb 65 n && Nat.leb n 90)%bool then ascii_of_nat (n + 32) else c.

Fixpoint ascii_toLowerCase (s : string) : string :=
  match s with
  | EmptyString => EmptyString
  | String c s' => String (ascii_lower c) (ascii_toLowerCase s')
  end.

(** ** What [JSON.parse] returns

    [generateMessageSummary] and [generateAiResponse] return
    [JSON.parse(completion.choices[0].message.content)] as it is. The value
    is [null] (the content ["null"], or a [null] content), on which every
    property read throws a [TypeError], or it is read as an object: its
    fields are taken to be present with the types that the prompt asks
    for, except [keyInformation], which is an array of strings or a value
    that has no method [join]. *)

Module Parsed.
Inductive t (A : Type) :=
| object (fields : A)
| null.
Arguments object {A} fields.
Arguments null {A}.
End Parsed.

Module KeyInformation.
Inductive t :=
| array (items : list string)
| not_an_array.
End KeyInformation.

(** ** Objects passed between the stages *)

Module Summary.
Record t := mk {
  language : string;
  sentiment : string;
  tone : string;
  actionRequired : bool;
  actionTitle : string;
  category : string;
  priority : string;
  keyInformation : KeyInformation.t;
  suggestedResponse : string
}.
End Summary.

Module Response.
Record t := mk {
  message : string;
  requiresFollowUp : bool;
  escalationNeeded : bool;
  taskType : string
}.
End Response.

Section Fallbacks.
Context `{Engine}.

(** [getMockSummary(messageText)] *)
Definition getMockSummary (messageText : string) : Summary.t :=
  let message := toLowerCase messageText in
  let '(category, actionRequired, priority, sentiment, actionTitle) :=
    if includes message "key" || includes message "check in"
       || includes message "access"
    then ("check-in", true, "high", "neutral", "Help with property access")
    else if includes message "wifi" || includes message "broken"
            || includes message "fix"
    then ("maintenance", true, "medium", "neutral", "Maintenance request")
    else if includes message "noise" || includes message "complaint"
            || includes message "problem"
    then ("complaint", true, "high", "negative", "Address guest complaint")
    else if includes message "clean"
    then ("cleaning", true, "medium", "neutral", "Cleaning request")
    else ("general", false, "medium", "neutral", "Message received") in
  {| Summary.language := "en";
     Summary.sentiment := sentiment;
     Summary.tone :=
       if sentiment === "negative" then "frustrated" else "friendly";
     Summary.actionRequired := actionRequired;
     Summary.actionTitle := actionTitle;
     Summary.category := category;
     Summary.priority := priority;
     Summary.keyInformation := KeyInformation.array [actionTitle];
     Summary.suggestedResponse :=
       if actionRequired
       then "Thank you for letting me know. I'll take care of this right away."
       else "Thank you for your message. Is there anything I can help you with?"
  |}.
End Fallbacks.

(** [getMockResponse(summary)] *)
Definition getMockResponse (summary : Summary.t) : Response.t :=
  let message := "Thank you for your message! " in
  let '(message, taskType, escalationNeeded) :=
    if Summary.category summary === "check-in" then
      (message +:+ "The door code is 1234. You can find detailed check-in instructions in your booking confirmation.",
       "none", false)
    else if Summary.category summary === "maintenance" then
      (message +:+ "I'm sorry to hear about this issue. I'll send someone to take a look at it right away.",
       "maintenance", false)
    else if Summary.category summary === "cleaning" then
      (message +:+ "I'll arrange for housekeeping to address this immediately.",
       "cleaning", false)
    else if Summary.category summary === "complaint" then
      (message +:+ "I sincerely apologize for this inconvenience. I'm taking immediate action to resolve this issue.",
       "none", true)
    else
      (message +:+ "Is there anything specific I can help you with during your stay?",
       "none", false) in
  {| Response.message := message;
     Response.requiresFollowUp := Summary.priority summary === "high";
     Response.escalationNeeded := escalationNeeded;
     Response.taskType := taskType |}.

(** ** Rows of the persistent store *)

Module scenario_data.
(** The JSON object [sandbox_sessions.scenario_data]; an absent key is
    [None], so [message.scenario_data || {}] reads the same fields. *)
Record t := mk {
  property_id : option Z;
  guest_name : option string;
  check_in_date : option string;
  check_out_date : option string
}.
End scenario_data.

Module sandbox_sessions.
(** Keyed by the primary key [id]. *)
Record row := mk {
  account_id : Z;
  scenario_data : scenario_data.t
}.
End sandbox_sessions.

Module properties.
(** Keyed by the primary key [id]; the columns the pipeline reads. *)
Record row := mk {
  property_title : option string;
  property_location : option string;
  check_in_time : option string;
  check_out_time : option string
}.
End properties.

Module faqs.
Record row := mk {
  property_id : Z;
  question : string;
  answer : string
}.
End faqs.

Module message_log.
Record row := mk {
  account_id : option Z;
  message_uuid : string;
  timestamp : Z;
  from_number : string;
  to_number : string;
  message_body : string;
  message_type : string;
  requestor_role : option string;
  is_sandbox : bool;
  sandbox_session_id : option string;
  (** [{generated_from, summary}] on replies *)
  sandbox_metadata : option (string * Summary.t)
}.
End message_log.

Module Message.
(** A row of [messagesQuery]: [ml.*] with the joined session and property
    columns. *)
Record t := mk {
  ml : message_log.row;
  scenario_data : scenario_data.t;
  property_name : option string;
  property_address : option string;
  check_in_time : option string;
  check_out_time : option string
}.
Definition message_uuid (m : t) := message_log.message_uuid (ml m).
Definition message_body (m : t) := message_log.message_body (ml m).
Definition timestamp (m : t) := message_log.timestamp (ml m).
Definition from_number (m : t) := message_log.from_number (ml m).
End Message.

Module HistoryRow.
(** A row of [historyQuery]. *)
Record t := mk {
  message_body : string;
  message_type : string;
  timestamp : Z
}.
End HistoryRow.

Module HistoryEntry.
Record t := mk {
  text : string;
  type : string;
  timestamp : Z
}.
End HistoryEntry.

Module Context.
Record property_t := mk_property {
  id : option Z;
  name : option string;
  address : option string;
  property_checkIn : option string;
  property_checkOut : option string
}.
Record bookingDates_t := mk_bookingDates {
  checkIn : option string;
  checkOut : option string
}.
Record guest_t := mk_guest {
  guest_name : string;
  phone : string;
  bookingDates : bookingDates_t
}.
Record t := mk {
  property : property_t;
  guest : guest_t;
  conversationHistory : list HistoryEntry.t
}.
End Context.

Module SummaryItem.
(** The objects pushed by [processSummarizeMessages];
    [original_message] is [message.message_body], a string. As pushed,
    [summary] is what [generateMessageSummary] returned ([pushed]); once a
    stage has read a property of [summary.summary] without a [TypeError],
    the summary is an object ([t]). *)
Record item (S : Type) := mk {
  message_uuid : string;
  original_message : string;
  summary : S
}.
Arguments mk {S} message_uuid original_message summary.
Arguments message_uuid {S} i.
Arguments original_message {S} i.
Arguments summary {S} i.

Definition pushed : Type := item (Parsed.t Summary.t).
Definition t : Type := item Summary.t.

(** The pushed object as a read of [summary.summary.x] finds it. *)
Definition parsed (summary : pushed) : Parsed.t t :=
  match SummaryItem.summary summary with
  | Parsed.object fields =>
      Parsed.object
        (mk (message_uuid summary) (original_message summary) fields)
  | Parsed.null => Parsed.null
  end.

(** The pushed object whose summary is the given object. *)
Definition push (i : t) : pushed :=
  mk (message_uuid i) (original_message i) (Parsed.object (summary i)).
End SummaryItem.

Module PropertyData.
(** [result.rows[0] || {}] of [getPropertyData], with [faqs] forced to an
    array. *)
Record t := mk {
  session : option sandbox_sessions.row;
  property : option (Z * properties.row);
  faqs : list faqs.row
}.
End PropertyData.

Module ResponseItem.
Record t := mk {
  message_uuid : string;
  response : string;
  metadata : Response.t
}.
End ResponseItem.

Module TaskDetails.
Record t := mk {
  title : string;
  description : string;
  type : string;
  assignee_name : string;
  assignee_role : string
}.
End TaskDetails.

Module Task.
(** [{task_uuid: taskUuid, ...taskDetails}] *)
Record t := mk {
  task_uuid : string;
  details : TaskDetails.t
}.
End Task.

Module FollowUp.
Record t := mk {
  task_uuid : string;
  message : string;
  type : string
}.
End FollowUp.

Module Escalation.
Record t := mk {
  message_uuid : string;
  reason : string;
  summary : Summary.t;
  recommended_action : string
}.
End Escalation.

Module PipelineResult.
Record t := mk {
  summaries : list SummaryItem.pushed;
  responses : list ResponseItem.t;
  tasks : list Task.t;
  followUps : list FollowUp.t;
  escalations : list Escalation.t;
  success : bool
}.
End PipelineResult.

Module sandbox_ai_processing.
Inductive input :=
| summarization_input (message : string) (context : Context.t)
| response_input (summary : Summary.t).
Inductive output :=
| summary_output (summary : Parsed.t Summary.t)
| response_output (response : Response.t).
Record row := mk {
  sandbox_session_id : string;
  message_uuid : string;
  processing_type : string;
  input_data : input;
  output_data : output;
  ai_model : string;
  processing_status : string;
  processed_at : Z
}.
End sandbox_ai_processing.

Module sandbox_tasks.
Record row := mk {
  sandbox_session_id : string;
  task_uuid : string;
  task_type : string;
  title : string;
  description : string;
  property_id : option string;
  assignee_name : string;
  assignee_role : string;
  status : string;
  priority : string;
  created_from_message_uuid : string;
  metadata : Summary.t;
  created_at : Z
}.
End sandbox_tasks.

Record Store := mkStore {
  sandbox_sessions_table : gmap string sandbox_sessions.row;
  properties_table : gmap Z properties.row;
  faqs_table : list faqs.row;
  message_log_table : list message_log.row;
  sandbox_ai_processing_table : list sandbox_ai_processing.row;
  sandbox_tasks_table : list sandbox_tasks.row
}.

(** ** The world an [async] method runs in *)

Record World := mkWorld {
  db : Store;
  (** [Date.now()] and the store's [NOW()], in milliseconds; the clock is
      read, never advanced, by the methods: within one call every reading
      is the same *)
  clock : Z;
  (** number of [Math.random()] draws so far *)
  draws : nat;
  (** number of completion requests so far *)
  completions : nat;
  (** for each coming store operation, whether it fails; none fails once
      the list is used up *)
  faults : list bool;
  (** clients checked out of the pool *)
  clients : nat
}.

Inductive exn := DatabaseError | TypeError.

Inductive Result (A : Type) :=
| Ok (a : A)
| Throw (e : exn).
Arguments Ok {A} a.
Arguments Throw {A} e.

Definition M (A : Type) : Type := World -> Result A * World.

Definition ret {A} (a : A) : M A := fun w => (Ok a, w).

Definition bind {A B} (m : M A) (k : A -> M B) : M B :=
  fun w =>
    match m w with
    | (Ok a, w') => k a w'
    | (Throw e, w') => (Throw e, w')
    end.

Definition throw {A} (e : exn) : M A := fun w => (Throw e, w).

Notation "x <- m ;; k" := (bind m (fun x => k))
  (at level 100, m at next level, right associativity).
Notation "m ;;; k" := (bind m (fun _ => k))
  (at level 100, right associativity).

(** [try { body } finally { fin }] with a handler that cannot throw. *)
Definition try_finally {A} (body : M A) (fin : World -> World) : M A :=
  fun w => let '(r, w') := body w in (r, fin w').

(** [try { body } catch (error) { handler(error) }] *)
Definition try_catch {A} (body : M A) (handler : exn -> M A) : M A :=
  fun w =>
    match body w with
    | (Ok a, w') => (Ok a, w')
    | (Throw e, w') => handler e w'
    end.

Definition set_db (s : Store) (w : World) : World :=
  mkWorld s (clock w) (draws w) (completions w) (faults w) (clients w).
Definition set_faults (f : list bool) (w : World) : World :=
  mkWorld (db w) (clock w) (draws w) (completions w) f (clients w).
Definition set_clients (n : nat) (w : World) : World :=
  mkWorld (db w) (clock w) (draws w) (completions w) (faults w) n.

(** Every store operation first consults the fault list. *)
Definition store_operation : M unit :=
  fun w =>
    match faults w with
    | [] => (Ok tt, w)
    | false :: rest => (Ok tt, set_faults rest w)
    | true :: rest => (Throw DatabaseError, set_faults rest w)
    end.

(** [await pool.connect()] *)
Definition pool_connect : M unit :=
  store_operation ;;; fun w => (Ok tt, set_clients (S (clients w)) w).

(** [client.release()] *)
Definition client_release (w : World) : World :=
  set_clients (Nat.pred (clients w)) w.

(** [await client.query(...)] of a [SELECT] *)
Definition client_select {A} (q : Store -> A) : M A :=
  store_operation ;;; fun w => (Ok (q (db w)), w).

(** [await client.query(...)] of an [INSERT]; the statement may read the
    store's [NOW()]. *)
Definition client_insert (q : Z -> Store -> Store) : M unit :=
  store_operation ;;; fun w => (Ok tt, set_db (q (clock w) (db w)) w).

(** A property read [value.x] on what [JSON.parse] returned: on [null] it
    throws a [TypeError]. *)
Definition read {A} (value : Parsed.t A) : M A :=
  match value with
  | Parsed.object fields => ret fields
  | Parsed.null => throw TypeError
  end.

(** A call that returns or throws without touching the world. *)
Definition lift {A} (r : Result A) : M A := fun w => (r, w).

(** [Date.now()] *)
Definition Date_now : M Z := fun w => (Ok (clock w), w).

(** [Math.random().toString(36).substr(2, 9)] *)
Definition Math_random_suffix `{Engine} : M string :=
  fun w =>
    (Ok (random_suffix (draws w)),
     mkWorld (db w) (clock w) (S (draws w)) (completions w) (faults w)
             (clients w)).

(** ** The service object *)

Module OpenAI.
(** The completion client as the two requests of the service see it: the
    n-th request either yields what [JSON.parse] makes of the completion's
    content, or [None] when [chat.completions.create] or [JSON.parse]
    throws. The prompt is a function of the arguments given here; the
    prompt of [generateAiResponse] reads [summary.summary.tone], so the
    summary is an object when the request is made. *)
Record t := mk {
  summary_completion :
    nat -> Context.t -> Message.t -> option (Parsed.t Summary.t);
  response_completion :
    nat -> SummaryItem.t -> PropertyData.t -> option (Parsed.t Response.t)
}.
End OpenAI.

Record SandboxAIService := mkService {
  openai : option OpenAI.t;
  model : string
}.

(** [constructor()]: [apiKey] is [process.env.OPENAI_API_KEY] and
    [new_client] stands for [new OpenAI({apiKey})]. *)
Definition constructor (apiKey : option string)
    (new_client : string -> OpenAI.t) : SandboxAIService :=
  let apiKey := default "" apiKey in
  if negb (truthy apiKey) || (apiKey === "your-openai-api-key-here")
  then mkService None "gpt-4o-mini"
  else mkService (Some (new_client apiKey)) "gpt-4o-mini".

(** The n-th completion request: the counter advances with each call. *)
Definition next_completion : M nat :=
  fun w =>
    (Ok (completions w),
     mkWorld (db w) (clock w) (draws w) (S (completions w)) (faults w)
             (clients w)).

(** ** Queries *)

Definition option_string_eqb (a : option string) (b : string) : bool :=
  match a with Some x => x === b | None => false end.

(** The [NOT EXISTS] sub-query of [messagesQuery]: a [completed] record of
    type [summarization] for this session and message. *)
Definition is_completed_summarization (sessionId uuid : string)
    (sap : sandbox_ai_processing.row) : bool :=
  (sandbox_ai_processing.sandbox_session_id sap === sessionId)
  && (sandbox_ai_processing.message_uuid sap === uuid)
  && (sandbox_ai_processing.processing_type sap === "summarization")
  && (sandbox_ai_processing.processing_status sap === "completed").

Definition summarization_completed (s : Store) (sessionId uuid : string)
  : bool :=
  existsb (is_completed_summarization sessionId uuid)
          (sandbox_ai_processing_table s).

(** The first three conditions of the [WHERE] clause of [messagesQuery]:
    an inbound sandbox message of the session. *)
Definition is_inbound (sessionId : string) (ml : message_log.row) : bool :=
  option_string_eqb (message_log.sandbox_session_id ml) sessionId
  && message_log.is_sandbox ml
  && (message_log.message_type ml === "Inbound").

(** The [WHERE] clause of [messagesQuery]. *)
Definition messagesQuery_where (s : Store) (sessionId : string)
    (ml : message_log.row) : bool :=
  is_inbound sessionId ml
  && negb (summarization_completed s sessionId (message_log.message_uuid ml)).

(** [JOIN sandbox_sessions ss] and [LEFT JOIN properties p]: both join on a
    primary key, so a message row yields at most one joined row. *)
Definition messagesQuery_join (s : Store) (sessionId : string)
    (ml : message_log.row) : option Message.t :=
  match sandbox_sessions_table s !! sessionId with
  | None => None
  | Some ss =>
      let sd := sandbox_sessions.scenario_data ss in
      let p :=
        match scenario_data.property_id sd with
        | Some pid => properties_table s !! pid
        | None => None
        end in
      Some {| Message.ml := ml;
              Message.scenario_data := sd;
              Message.property_name := p ≫= properties.property_title;
              Message.property_address := p ≫= properties.property_location;
              Message.check_in_time := p ≫= properties.check_in_time;
              Message.check_out_time := p ≫= properties.check_out_time |}
  end.

Definition timestamp_asc (a b : Message.t) : Prop :=
  Message.timestamp a <= Message.timestamp b.
#[export] Instance timestamp_asc_dec : RelDecision timestamp_asc :=
  fun a b => Z_le_dec (Message.timestamp a) (Message.timestamp b).

(** [messagesQuery]: [ORDER BY ml.timestamp ASC] is a merge sort. *)
Definition messagesQuery (sessionId : string) (s : Store) : list Message.t :=
  merge_sort timestamp_asc
    (omap (messagesQuery_join s sessionId)
          (List.filter (messagesQuery_where s sessionId)
                       (message_log_table s))).

Definition timestamp_desc (a b : HistoryRow.t) : Prop :=
  HistoryRow.timestamp b <= HistoryRow.timestamp a.
#[export] Instance timestamp_desc_dec : RelDecision timestamp_desc :=
  fun a b => Z_le_dec (HistoryRow.timestamp b) (HistoryRow.timestamp a).

Definition historyQuery_where (sessionId : string) (before : Z)
    (ml : message_log.row) : bool :=
  option_string_eqb (message_log.sandbox_session_id ml) sessionId
  && (message_log.timestamp ml <? before).

Definition historyQuery_select (ml : message_log.row) : HistoryRow.t :=
  {| HistoryRow.message_body := message_log.message_body ml;
     HistoryRow.message_type := message_log.message_type ml;
     HistoryRow.timestamp := message_log.timestamp ml |}.

(** [historyQuery]: [ORDER BY timestamp DESC LIMIT 10]. *)
Definition historyQuery (sessionId : string) (before : Z) (s : Store)
  : list HistoryRow.t :=
  take 10
    (merge_sort timestamp_desc
       (map historyQuery_select
            (List.filter (historyQuery_where sessionId before)
                         (message_log_table s)))).

Definition insert_sandbox_ai_processing
    (r : Z -> sandbox_ai_processing.row) (now : Z) (s : Store) : Store :=
  mkStore (sandbox_sessions_table s) (properties_table s) (faqs_table s)
          (message_log_table s)
          (sandbox_ai_processing_table s ++ [r now])
          (sandbox_tasks_table s).

Definition insert_message_log
    (r : Z -> Store -> message_log.row) (now : Z) (s : Store) : Store :=
  mkStore (sandbox_sessions_table s) (properties_table s) (faqs_table s)
          (message_log_table s ++ [r now s])
          (sandbox_ai_processing_table s)
          (sandbox_tasks_table s).

Definition insert_sandbox_tasks
    (r : Z -> sandbox_tasks.row) (now : Z) (s : Store) : Store :=
  mkStore (sandbox_sessions_table s) (properties_table s) (faqs_table s)
          (message_log_table s)
          (sandbox_ai_processing_table s)
          (sandbox_tasks_table s ++ [r now]).

(** ** Summarizer *)

(** The function mapped over [history] in [buildMessageContext]:
    [h => ({text: h.message_body, type: h.message_type,
    timestamp: h.timestamp})]. *)
Definition history_entry (h : HistoryRow.t) : HistoryEntry.t :=
  {| HistoryEntry.text := HistoryRow.message_body h;
     HistoryEntry.type := HistoryRow.message_type h;
     HistoryEntry.timestamp := HistoryRow.timestamp h |}.

(** [buildMessageContext(message, history)] *)
Definition buildMessageContext (message : Message.t)
    (history : list HistoryRow.t) : Context.t :=
  let scenarioData := Message.scenario_data message in
  {| Context.property :=
       {| Context.id := scenario_data.property_id scenarioData;
          Context.name := Message.property_name message;
          Context.address := Message.property_address message;
          Context.property_checkIn := Message.check_in_time message;
          Context.property_checkOut := Message.check_out_time message |};
     Context.guest :=
       {| Context.guest_name :=
            or_else (default "" (scenario_data.guest_name scenarioData))
                    "Guest";
          Context.phone := Message.from_number message;
          Context.bookingDates :=
            {| Context.checkIn := scenario_data.check_in_date scenarioData;
               Context.checkOut := scenario_data.check_out_date scenarioData
            |} |};
     Context.conversationHistory := map history_entry history |}.

Section Service.
Context `{Engine}.
Variable this : SandboxAIService.

(** [generateMessageSummary(context, message)] *)
Definition generateMessageSummary (context : Context.t)
    (message : Message.t) : M (Parsed.t Summary.t) :=
  match openai this with
  | None =>
      ret (Parsed.object (getMockSummary (Message.message_body message)))
  | Some client =>
      n <- next_completion ;;
      match OpenAI.summary_completion client n context message with
      | Some parsed => ret parsed
      | None =>
          ret (Parsed.object (getMockSummary (Message.message_body message)))
      end
  end.

(** The record written for a summary. *)
Definition summarization_record (sessionId : string) (message : Message.t)
    (context : Context.t) (summary : Parsed.t Summary.t) (now : Z)
  : sandbox_ai_processing.row :=
  {| sandbox_ai_processing.sandbox_session_id := sessionId;
     sandbox_ai_processing.message_uuid := Message.message_uuid message;
     sandbox_ai_processing.processing_type := "summarization";
     sandbox_ai_processing.input_data :=
       sandbox_ai_processing.summarization_input
         (Message.message_body message) context;
     sandbox_ai_processing.output_data :=
       sandbox_ai_processing.summary_output summary;
     sandbox_ai_processing.ai_model := model this;
     sandbox_ai_processing.processing_status := "completed";
     sandbox_ai_processing.processed_at := now |}.

(** The body of [for (const message of messages.rows)]; [summaries] is the
    array built so far. *)
Fixpoint summarize_rows (sessionId : string) (rows : list Message.t)
    (summaries : list SummaryItem.pushed) : M (list SummaryItem.pushed) :=
  match rows with
  | [] => ret summaries
  | message :: rest =>
      history <- client_select
                   (historyQuery sessionId (Message.timestamp message)) ;;
      let context := buildMessageContext message history in
      summary <- generateMessageSummary context message ;;
      client_insert
        (insert_sandbox_ai_processing
           (summarization_record sessionId message context summary)) ;;;
      summarize_rows sessionId rest
        (summaries ++
         [ {| SummaryItem.message_uuid := Message.message_uuid message;
              SummaryItem.original_message := Message.message_body message;
              SummaryItem.summary := summary |} ])
  end.

(** [processSummarizeMessages(sessionId, accountId)] *)
Definition processSummarizeMessages (sessionId : string) (accountId : Z)
  : M (list SummaryItem.pushed) :=
  pool_connect ;;;
  try_finally
    (messages <- client_select (messagesQuery sessionId) ;;
     summarize_rows sessionId messages [])
    client_release.

(** ** Responder *)

(** [getPropertyData(sessionId, client)] *)
Definition propertyQuery (sessionId : string) (s : Store) : PropertyData.t :=
  match sandbox_sessions_table s !! sessionId with
  | None => PropertyData.mk None None []
  | Some ss =>
      match scenario_data.property_id (sandbox_sessions.scenario_data ss)
      with
      | None => PropertyData.mk (Some ss) None []
      | Some pid =>
          match properties_table s !! pid with
          | None => PropertyData.mk (Some ss) None []
          | Some p =>
              PropertyData.mk (Some ss) (Some (pid, p))
                (List.filter (fun f => faqs.property_id f =? pid)
                             (faqs_table s))
          end
      end
  end.

Definition getPropertyData (sessionId : string) : M PropertyData.t :=
  client_select (propertyQuery sessionId).

(** [generateAiResponse(summary, propertyData)]: without a client,
    [getMockResponse(summary.summary)] reads [summary.category]; with one,
    the prompt reads [summary.summary.tone] before the [try]. *)
Definition generateAiResponse (summary : SummaryItem.pushed)
    (propertyData : PropertyData.t) : M (Parsed.t Response.t) :=
  match openai this with
  | None =>
      item <- read (SummaryItem.parsed summary) ;;
      ret (Parsed.object (getMockResponse (SummaryItem.summary item)))
  | Some client =>
      item <- read (SummaryItem.parsed summary) ;;
      n <- next_completion ;;
      match OpenAI.response_completion client n item propertyData with
      | Some parsed => ret parsed
      | None =>
          ret (Parsed.object (getMockResponse (SummaryItem.summary item)))
      end
  end.

(** The read [original_message.from_number]: [original_message] is a
    string primitive, which has no own property of that name, and
    [String.prototype] defines none, so the read yields [undefined]. *)
Definition from_number_of_string (original_message : string)
  : option string := None.

(** The outbound row written for a reply. *)
Definition response_message (sessionId messageUuid : string)
    (summary : SummaryItem.t) (response : Response.t) (now : Z) (s : Store)
  : message_log.row :=
  {| message_log.account_id :=
       sandbox_sessions.account_id <$> sandbox_sessions_table s !! sessionId;
     message_log.message_uuid := messageUuid;
     message_log.timestamp := now;
     message_log.from_number := "System";
     message_log.to_number :=
       or_else
         (default ""
            (from_number_of_string (SummaryItem.original_message summary)))
         "Guest";
     message_log.message_body := Response.message response;
     message_log.message_type := "Outbound";
     message_log.requestor_role := Some "ai";
     message_log.is_sandbox := true;
     message_log.sandbox_session_id := Some sessionId;
     message_log.sandbox_metadata :=
       Some (SummaryItem.message_uuid summary, SummaryItem.summary summary)
  |}.

(** The record written for a reply. *)
Definition response_record (sessionId messageUuid : string)
    (summary : SummaryItem.t) (response : Response.t) (now : Z)
  : sandbox_ai_processing.row :=
  {| sandbox_ai_processing.sandbox_session_id := sessionId;
     sandbox_ai_processing.message_uuid := messageUuid;
     sandbox_ai_processing.processing_type := "response_generation";
     sandbox_ai_processing.input_data :=
       sandbox_ai_processing.response_input (SummaryItem.summary summary);
     sandbox_ai_processing.output_data :=
       sandbox_ai_processing.response_output response;
     sandbox_ai_processing.ai_model := model this;
     sandbox_ai_processing.processing_status := "completed";
     sandbox_ai_processing.processed_at := now |}.

(** The body of [for (const [index, summary] of summaries.entries())]:
    the first statement logs [summary.summary.actionRequired], and the
    parameters of the first [INSERT] read [response.message]. *)
Fixpoint respond_to_summaries (sessionId : string)
    (summaries : list SummaryItem.pushed) (responses : list ResponseItem.t)
  : M (list ResponseItem.t) :=
  match summaries with
  | [] => ret responses
  | summary :: rest =>
      item <- read (SummaryItem.parsed summary) ;;
      if negb (Summary.actionRequired (SummaryItem.summary item))
      then respond_to_summaries sessionId rest responses
      else
        propertyData <- getPropertyData sessionId ;;
        response <- generateAiResponse summary propertyData ;;
        now <- Date_now ;;
        suffix <- Math_random_suffix ;;
        let messageUuid := "RESP_" +:+ pretty now +:+ "_" +:+ suffix in
        response <- read response ;;
        client_insert
          (insert_message_log
             (response_message sessionId messageUuid item response)) ;;;
        client_insert
          (insert_sandbox_ai_processing
             (response_record sessionId messageUuid item response)) ;;;
        respond_to_summaries sessionId rest
          (responses ++
           [ {| ResponseItem.message_uuid := messageUuid;
                ResponseItem.response := Response.message response;
                ResponseItem.metadata := response |} ])
  end.

(** [buildAiResponseFromSummaries(sessionId, summaries)] *)
Definition buildAiResponseFromSummaries (sessionId : string)
    (summaries : list SummaryItem.pushed) : M (list ResponseItem.t) :=
  pool_connect ;;;
  try_finally (respond_to_summaries sessionId summaries []) client_release.

(** ** Task generator *)

(** The [switch] of [determineTaskDetails], on [baseDetails]. *)
Definition task_details (summary : Summary.t) (title description : string)
  : TaskDetails.t :=
  if Summary.category summary === "maintenance" then
    TaskDetails.mk title description "maintenance" "Maintenance Team"
                   "Maintenance Staff"
  else if Summary.category summary === "cleaning" then
    TaskDetails.mk title description "cleaning" "Cleaning Team"
                   "Cleaning Staff"
  else if Summary.category summary === "complaint" then
    TaskDetails.mk title description "inspection" "Property Manager"
                   "Management"
  else
    TaskDetails.mk title description "general" "Support Team"
                   "Support Staff".

(** [determineTaskDetails(summary)], called on a summary that is an
    object: [baseDetails] calls [summary.keyInformation.join(', ')], which
    throws a [TypeError] when [keyInformation] is no array. *)
Definition determineTaskDetails (summary : Summary.t)
  : Result TaskDetails.t :=
  let title := or_else (Summary.actionTitle summary) "Guest Request" in
  match Summary.keyInformation summary with
  | KeyInformation.not_an_array => Throw TypeError
  | KeyInformation.array items =>
      let description :=
        "Category: " +:+ Summary.category summary +:+ newline +:+
        "Priority: " +:+ Summary.priority summary +:+ newline +:+
        "Details: " +:+ join ", " items in
      Ok (task_details summary title description)
  end.

(** [needsTask] of [createStaffTasks]. *)
Definition needsTask (summary : SummaryItem.t) : bool :=
  Summary.actionRequired (SummaryItem.summary summary)
  && Array_includes ["maintenance"; "cleaning"; "urgent"]
       (Summary.priority (SummaryItem.summary summary)).

(** The row written for a task; [taskDetails.property_id] is [undefined],
    [created_at] takes its default. *)
Definition task_row (sessionId taskUuid : string) (summary : SummaryItem.t)
    (taskDetails : TaskDetails.t) (now : Z) : sandbox_tasks.row :=
  {| sandbox_tasks.sandbox_session_id := sessionId;
     sandbox_tasks.task_uuid := taskUuid;
     sandbox_tasks.task_type := TaskDetails.type taskDetails;
     sandbox_tasks.title := TaskDetails.title taskDetails;
     sandbox_tasks.description := TaskDetails.description taskDetails;
     sandbox_tasks.property_id := None;
     sandbox_tasks.assignee_name := TaskDetails.assignee_name taskDetails;
     sandbox_tasks.assignee_role := TaskDetails.assignee_role taskDetails;
     sandbox_tasks.status := "pending";
     sandbox_tasks.priority :=
       Summary.priority (SummaryItem.summary summary);
     sandbox_tasks.created_from_message_uuid :=
       SummaryItem.message_uuid summary;
     sandbox_tasks.metadata := SummaryItem.summary summary;
     sandbox_tasks.created_at := now |}.

(** The body of [for (const summary of summaries)]: [needsTask] reads
    [summary.summary.actionRequired]. *)
Fixpoint create_tasks (sessionId : string)
    (summaries : list SummaryItem.pushed) (tasks : list Task.t)
  : M (list Task.t) :=
  match summaries with
  | [] => ret tasks
  | summary :: rest =>
      item <- read (SummaryItem.parsed summary) ;;
      if negb (needsTask item)
      then create_tasks sessionId rest tasks
      else
        taskDetails <- lift (determineTaskDetails (SummaryItem.summary item)) ;;
        now <- Date_now ;;
        suffix <- Math_random_suffix ;;
        let taskUuid := "TASK_" +:+ pretty now +:+ "_" +:+ suffix in
        client_insert
          (insert_sandbox_tasks
             (task_row sessionId taskUuid item taskDetails)) ;;;
        create_tasks sessionId rest
          (tasks ++ [ {| Task.task_uuid := taskUuid;
                         Task.details := taskDetails |} ])
  end.

(** [createStaffTasks(sessionId, summaries)] *)
Definition createStaffTasks (sessionId : string)
    (summaries : list SummaryItem.pushed) : M (list Task.t) :=
  pool_connect ;;;
  try_finally (create_tasks sessionId summaries []) client_release.

(** ** Follow-up evaluator *)

Definition created_at_asc (a b : sandbox_tasks.row) : Prop :=
  sandbox_tasks.created_at a <= sandbox_tasks.created_at b.
#[export] Instance created_at_asc_dec : RelDecision created_at_asc :=
  fun a b =>
    Z_le_dec (sandbox_tasks.created_at a) (sandbox_tasks.created_at b).

Definition tasksQuery_where (sessionId : string) (t : sandbox_tasks.row)
  : bool :=
  (sandbox_tasks.sandbox_session_id t === sessionId)
  && Array_includes ["pending"; "in-progress"] (sandbox_tasks.status t).

(** [tasksQuery]: the open tasks of the session, [ORDER BY created_at ASC]. *)
Definition tasksQuery (sessionId : string) (s : Store)
  : list sandbox_tasks.row :=
  merge_sort created_at_asc
    (List.filter (tasksQuery_where sessionId) (sandbox_tasks_table s)).

(** [(Date.now() - new Date(task.created_at)) / (1000 * 60 * 60)]: both
    times are whole milliseconds; the quotient is kept exact. *)
Definition hoursSinceCreated (now : Z) (task : sandbox_tasks.row) : Q :=
  (inject_Z (now - sandbox_tasks.created_at task)
   / inject_Z (1000 * 60 * 60))%Q.

(** [Math.round(x)]: the nearest integer, halves upwards. *)
Definition Math_round (x : Q) : Z := Qfloor (x + (1 # 2))%Q.

(** [x > y] on numbers. *)
Definition Q_gt (x y : Q) : bool := negb (Qle_bool x y).

Definition reminder (task : sandbox_tasks.row) (hours : Q) : FollowUp.t :=
  {| FollowUp.task_uuid := sandbox_tasks.task_uuid task;
     FollowUp.message :=
       "Following up on " +:+ sandbox_tasks.title task +:+
       " - this task has been pending for " +:+ pretty (Math_round hours) +:+
       " hours.";
     FollowUp.type := "reminder" |}.

(** The body of [for (const task of tasks.rows)]. *)
Fixpoint follow_up_tasks (rows : list sandbox_tasks.row)
    (followUps : list FollowUp.t) : M (list FollowUp.t) :=
  match rows with
  | [] => ret followUps
  | task :: rest =>
      now <- Date_now ;;
      let hours := hoursSinceCreated now task in
      if Q_gt hours 2 && (sandbox_tasks.status task === "pending")
      then follow_up_tasks rest (followUps ++ [reminder task hours])
      else follow_up_tasks rest followUps
  end.

(** [evaluateTaskStatus(sessionId)] *)
Definition evaluateTaskStatus (sessionId : string) : M (list FollowUp.t) :=
  pool_connect ;;;
  try_finally
    (tasks <- client_select (tasksQuery sessionId) ;;
     follow_up_tasks tasks [])
    client_release.

(** ** Escalation detector *)

Definition escalation (summary : SummaryItem.t) : Escalation.t :=
  {| Escalation.message_uuid := SummaryItem.message_uuid summary;
     Escalation.reason := "Urgent guest request";
     Escalation.summary := SummaryItem.summary summary;
     Escalation.recommended_action := "Immediate host attention required"
  |}.

(** The test of the loop of [processHostEscalations]. *)
Definition is_urgent (summary : SummaryItem.t) : bool :=
  (Summary.priority (SummaryItem.summary summary) === "urgent")
  || (Summary.sentiment (SummaryItem.summary summary) === "urgent").

(** The body of [for (const summary of summaries)]: the test reads
    [summary.summary.priority]. *)
Fixpoint escalate_summaries (summaries : list SummaryItem.pushed)
    (escalations : list Escalation.t) : M (list Escalation.t) :=
  match summaries with
  | [] => ret escalations
  | summary :: rest =>
      item <- read (SummaryItem.parsed summary) ;;
      if is_urgent item
      then escalate_summaries rest (escalations ++ [escalation item])
      else escalate_summaries rest escalations
  end.

(** [processHostEscalations(sessionId, summaries)]: an [async] method
    without any [await]. *)
Definition processHostEscalations (sessionId : string)
    (summaries : list SummaryItem.pushed) : M (list Escalation.t) :=
  escalate_summaries summaries [].

(** ** Orchestrator *)

(** [runFullAutomation(sessionId, accountId)] *)
Definition runFullAutomation (sessionId : string) (accountId : Z)
  : M PipelineResult.t :=
  try_catch
    (summaries <- processSummarizeMessages sessionId accountId ;;
     responses <- buildAiResponseFromSummaries sessionId summaries ;;
     tasks <- createStaffTasks sessionId summaries ;;
     followUps <- evaluateTaskStatus sessionId ;;
     escalations <- processHostEscalations sessionId summaries ;;
     ret {| PipelineResult.summaries := summaries;
            PipelineResult.responses := responses;
            PipelineResult.tasks := tasks;
            PipelineResult.followUps := followUps;
            PipelineResult.escalations := escalations;
            PipelineResult.success := true |})
    (fun error => throw error).

End Service.

#[export] Instance ascii_engine : Engine :=
  {| toLowerCase := ascii_toLowerCase; random_suffix := fun n => pretty n |}.

(** ** A sandbox session used in the examples *)

Definition fallback_service : SandboxAIService := constructor None (fun _ => OpenAI.mk (fun _ _ _ => None) (fun _ _ _ => None)).

Definition inbound (uuid : string) (ts : Z) (from body : string)
  : message_log.row :=
  {| message_log.account_id := Some 1;
     message_log.message_uuid := uuid;
     message_log.timestamp := ts;
     message_log.from_number := from;
     message_log.to_number := "System";
     message_log.message_body := body;
     message_log.message_type := "Inbound";
     message_log.requestor_role := Some "guest";
     message_log.is_sandbox := true;
     message_log.sandbox_session_id := Some "S1";
     message_log.sandbox_metadata := None |}.

Definition demo_store : Store :=
  {| sandbox_sessions_table :=
       {[ "S1" := sandbox_sessions.mk 1
                    (scenario_data.mk (Some 7) (Some "Ana") None None) ]};
     properties_table :=
       {[ 7 := properties.mk (Some "Casa") (Some "Main St") None None ]};
     faqs_table := [];
     message_log_table :=
       [ inbound "M3" 300 "+15550001" "Please clean the room";
         inbound "M1" 100 "+15550001" "I lost my key";
         inbound "M2" 200 "+15550001" "The wifi is broken" ];
     sandbox_ai_processing_table := [];
     sandbox_tasks_table := [] |}.

Definition demo_world : World :=
  {| db := demo_store; clock := 1000; draws := 0; completions := 0;
     faults := []; clients := 0 |}.


Definition wifi_message : string :=
  "The wifi is broken and I can't get in, please fix".

(** A summary as a completion may give it: low priority, urgent sentiment. *)
Definition urgent_sentiment_item : SummaryItem.t :=
  {| SummaryItem.message_uuid := "M9";
     SummaryItem.original_message := "There is smoke in the kitchen";
     SummaryItem.summary :=
       {| Summary.language := "en";
          Summary.sentiment := "urgent";
          Summary.tone := "confused";
          Summary.actionRequired := true;
          Summary.actionTitle := "Check the kitchen";
          Summary.category := "general";
          Summary.priority := "low";
          Summary.keyInformation := KeyInformation.array ["smoke"];
          Summary.suggestedResponse := "We are on our way." |} |}.

(** ** Schemas of the two completion requests

    The prompts of [generateMessageSummary] and [generateAiResponse] list
    the values a field may take; the deterministic summarizer adds the
    category [cleaning]. A text field is populated when it is not empty. *)

Definition summary_fields_populated (s : Summary.t) : bool :=
  truthy (Summary.language s)
  && Array_includes ["positive"; "neutral"; "negative"; "urgent"]
       (Summary.sentiment s)
  && Array_includes ["friendly"; "formal"; "frustrated"; "confused"]
       (Summary.tone s)
  && truthy (Summary.actionTitle s)
  && Array_includes
       ["booking"; "maintenance"; "check-in"; "check-out"; "amenities";
        "complaint"; "cleaning"; "general"] (Summary.category s)
  && Array_includes ["low"; "medium"; "high"; "urgent"] (Summary.priority s)
  && match Summary.keyInformation s with
     | KeyInformation.array items =>
         forallb truthy items && negb (Nat.eqb (length items) 0)
     | KeyInformation.not_an_array => false
     end
  && truthy (Summary.suggestedResponse s).

Definition response_fields_populated (r : Response.t) : bool :=
  truthy (Response.message r)
  && Array_includes ["cleaning"; "maintenance"; "none"] (Response.taskType r).

(** ** Counting rows *)

Definition count_if {A} (p : A → bool) (l : list A) : nat :=
  length (List.filter p l).

(** The test of the loop of [evaluateTaskStatus]. *)
Definition needs_follow_up (now : Z) (task : sandbox_tasks.row) : bool :=
  Q_gt (hoursSinceCreated now task) 2
  && (sandbox_tasks.status task === "pending").

(** Rows of [sandbox_tasks] of one session that carry one task identity. *)
Definition is_task (sessionId uuid : string) (t : sandbox_tasks.row) : bool :=
  (sandbox_tasks.sandbox_session_id t === sessionId)
  && (sandbox_tasks.task_uuid t === uuid).

Definition maintenance_item : SummaryItem.t :=
  {| SummaryItem.message_uuid := "M2";
     SummaryItem.original_message := "The wifi is broken";
     SummaryItem.summary := getMockSummary "The wifi is broken" |}.

Definition task (uuid status : string) (created : Z) : sandbox_tasks.row :=
  {| sandbox_tasks.sandbox_session_id := "S1";
     sandbox_tasks.task_uuid := uuid;
     sandbox_tasks.task_type := "maintenance";
     sandbox_tasks.title := "Maintenance request";
     sandbox_tasks.description := "";
     sandbox_tasks.property_id := None;
     sandbox_tasks.assignee_name := "Maintenance Team";
     sandbox_tasks.assignee_role := "Maintenance Staff";
     sandbox_tasks.status := status;
     sandbox_tasks.priority := "medium";
     sandbox_tasks.created_from_message_uuid := "M2";
     sandbox_tasks.metadata := getMockSummary "The wifi is broken";
     sandbox_tasks.created_at := created |}.

(** Three open tasks seen at 12:00:00.000 (in milliseconds of the day):
    one pending for three hours, one pending for one hour, one in progress
    for five hours. *)
Definition tasks_world : World :=
  {| db :=
       mkStore ∅ ∅ [] [] []
         [ task "T1" "pending" (9 * 3600000);
           task "T2" "pending" (11 * 3600000);
           task "T3" "in-progress" (7 * 3600000) ];
     clock := 12 * 3600000; draws := 0; completions := 0;
     faults := []; clients := 0 |}.

(** ** The ledger of processed messages *)

(** Number of [completed] records of type [summarization] for a message. *)
Definition completed_summarizations (s : Store) (sessionId uuid : string)
  : nat :=
  count_if (is_completed_summarization sessionId uuid)
           (sandbox_ai_processing_table s).

(** Inbound sandbox messages of the session that carry the identity. *)
Definition is_inbound_message (sessionId uuid : string)
    (ml : message_log.row) : bool :=
  is_inbound sessionId ml && (message_log.message_uuid ml === uuid).

Definition emitted_for (uuid : string)
    (summaries : list SummaryItem.pushed) : nat :=
  count_if (λ item, SummaryItem.message_uuid item === uuid) summaries.

(** The store after a list of records has been inserted. *)
Definition add_processing (s : Store)
    (records : list sandbox_ai_processing.row) : Store :=
  mkStore (sandbox_sessions_table s) (properties_table s) (faqs_table s)
          (message_log_table s)
          (sandbox_ai_processing_table s ++ records)
          (sandbox_tasks_table s).

Definition summary_item (message : Message.t)
    (summary : Parsed.t Summary.t) : SummaryItem.pushed :=
  {| SummaryItem.message_uuid := Message.message_uuid message;
     SummaryItem.original_message := Message.message_body message;
     SummaryItem.summary := summary |}.

(** The record that [processSummarizeMessages] writes for a message with
    a given summary, from the store and the time of the run. *)
Definition record_of (this : SandboxAIService) (sessionId : string)
    (s : Store) (now : Z) (message : Message.t)
    (summary : Parsed.t Summary.t) : sandbox_ai_processing.row :=
  summarization_record this sessionId message
    (buildMessageContext message
       (historyQuery sessionId (Message.timestamp message) s))
    summary now.

(** ** Conversation history *)

(** The messages of the session strictly before a time, as stored. *)
Definition earlier_messages (sessionId : string) (before : Z) (s : Store)
  : list message_log.row :=
  List.filter (historyQuery_where sessionId before) (message_log_table s).

(** Most recent first. *)
Definition entry_desc (a b : HistoryEntry.t) : Prop :=
  HistoryEntry.timestamp b <= HistoryEntry.timestamp a.

(** The times of the conversation history kept in the input snapshot of a
    summarization record. *)
Definition recorded_history (r : sandbox_ai_processing.row) : list Z :=
  match sandbox_ai_processing.input_data r with
  | sandbox_ai_processing.summarization_input _ context =>
      map HistoryEntry.timestamp (Context.conversationHistory context)
  | sandbox_ai_processing.response_input _ => []
  end.

(** ** Replies *)

(** The inbound messages that the rows of [message_log] answer
    ([sandbox_metadata.generated_from]), in the order of the table. *)
Definition replies_to (s : Store) : list string :=
  omap (λ r, fst <$> message_log.sandbox_metadata r) (message_log_table s).

Definition actionable (item : SummaryItem.t) : bool :=
  Summary.actionRequired (SummaryItem.summary item).

(** The summaries that a loop over the pushed objects can read: those
    before the first one whose summary is [null]. *)
Fixpoint readable (summaries : list SummaryItem.pushed)
  : list SummaryItem.t :=
  match summaries with
  | [] => []
  | summary :: rest =>
      match SummaryItem.parsed summary with
      | Parsed.object item => item :: readable rest
      | Parsed.null => []
      end
  end.

(** No pushed object has a [null] summary. *)
Definition all_objects (summaries : list SummaryItem.pushed) : bool :=
  forallb (λ summary,
             match SummaryItem.summary summary with
             | Parsed.object _ => true
             | Parsed.null => false
             end) summaries.

(** A pushed object whose summary is [null]. *)
Definition null_item (uuid body : string) : SummaryItem.pushed :=
  SummaryItem.mk uuid body Parsed.null.

(** A pushed object whose summary is the fallback summary of its
    message. *)
Definition is_fallback `{Engine} (summary : SummaryItem.pushed) : Prop :=
  SummaryItem.summary summary
  = Parsed.object (getMockSummary (SummaryItem.original_message summary)).



(** A service whose completion client throws on every request. *)
Definition failing_client_service : SandboxAIService :=
  mkService (Some (OpenAI.mk (λ _ _ _, None) (λ _ _ _, None))) "gpt-4o-mini".

(** ** Worlds that differ by the consumed faults only *)

Definition same_but_faults (w w' : World) : Prop :=
  db w' = db w ∧ clock w' = clock w ∧ draws w' = draws w
  ∧ completions w' = completions w ∧ clients w' = clients w.

(** Number of completion requests one call to the client costs. *)
Definition requests (this : SandboxAIService) (n : nat) : nat :=
  match openai this with Some _ => n | None => 0%nat end.

(** ** What the responder and the task generator write *)

(** A reply as the responder persists it: the summary answered, the identity
    drawn for the outbound message, and the reply. *)
Definition reply : Type := SummaryItem.t * string * Response.t.

Definition reply_summary (e : reply) : SummaryItem.t := e.1.1.
Definition reply_uuid (e : reply) : string := e.1.2.
Definition reply_response (e : reply) : Response.t := e.2.

Definition reply_row (sessionId : string) (s : Store) (now : Z) (e : reply)
  : message_log.row :=
  response_message sessionId (reply_uuid e) (reply_summary e)
                   (reply_response e) now s.

Definition reply_record (this : SandboxAIService) (sessionId : string)
    (now : Z) (e : reply) : sandbox_ai_processing.row :=
  response_record this sessionId (reply_uuid e) (reply_summary e)
                  (reply_response e) now.

Definition reply_item (e : reply) : ResponseItem.t :=
  {| ResponseItem.message_uuid := reply_uuid e;
     ResponseItem.response := Response.message (reply_response e);
     ResponseItem.metadata := reply_response e |}.

(** The store after outbound rows and records have been inserted. *)
Definition add_replies (s : Store) (rows : list message_log.row)
    (records : list sandbox_ai_processing.row) : Store :=
  mkStore (sandbox_sessions_table s) (properties_table s) (faqs_table s)
          (message_log_table s ++ rows)
          (sandbox_ai_processing_table s ++ records)
          (sandbox_tasks_table s).

(** A task as the task generator persists it: the summary it comes from and
    the identity drawn for it. *)
Definition new_task : Type := SummaryItem.t * string * TaskDetails.t.

Definition new_task_summary (e : new_task) : SummaryItem.t := e.1.1.
Definition new_task_uuid (e : new_task) : string := e.1.2.
Definition new_task_details (e : new_task) : TaskDetails.t := e.2.

Definition new_task_row (sessionId : string) (now : Z) (e : new_task)
  : sandbox_tasks.row :=
  task_row sessionId (new_task_uuid e) (new_task_summary e)
           (new_task_details e) now.

Definition new_task_item (e : new_task) : Task.t :=
  {| Task.task_uuid := new_task_uuid e;
     Task.details := new_task_details e |}.

(** The details of a task are those that [determineTaskDetails] returns
    for its summary. *)
Definition details_determined (e : new_task) : Prop :=
  determineTaskDetails (SummaryItem.summary (new_task_summary e))
  = Ok (new_task_details e).

Definition add_tasks (s : Store) (rows : list sandbox_tasks.row) : Store :=
  mkStore (sandbox_sessions_table s) (properties_table s) (faqs_table s)
          (message_log_table s) (sandbox_ai_processing_table s)
          (sandbox_tasks_table s ++ rows).

(** The store after one run of the pipeline: the records of the summaries,
    the replies with their records, and the tasks. *)
Definition after_run (s : Store)
    (summarization_records : list sandbox_ai_processing.row)
    (reply_rows : list message_log.row)
    (reply_records : list sandbox_ai_processing.row)
    (task_rows : list sandbox_tasks.row) : Store :=
  add_tasks
    (add_replies (add_processing s summarization_records)
                 reply_rows reply_records)
    task_rows.

(** The session has no message left to summarise: it does not exist, or
    every message fails the [WHERE] clause of [messagesQuery]. *)
Definition nothing_to_summarize (sessionId : string) (s : Store) : Prop :=
  sandbox_sessions_table s !! sessionId = None
  ∨ Forall (λ ml, messagesQuery_where s sessionId ml = false)
           (message_log_table s).

(** The store accepts the whole summarization stage (a connection, the
    message query, and a history query and an insert for each of the three
    messages), the connection and the property query of the responder, and
    fails the insert of the first reply. *)
Definition late_failure_world : World :=
  {| db := demo_store; clock := 1000; draws := 0; completions := 0;
     faults := replicate 10 false ++ [true]; clients := 0 |}.

(** ** JavaScript values and objects

    The values a row of the store holds: [null], booleans, integer numbers,
    strings, and objects (arrays, dates, JSON columns), of which only the
    identity and the text that [String(value)] yields matter here. *)

Module JS.
Inductive value :=
| undefined
| null
| boolean (b : bool)
| number (n : Z)
| str (s : string)
| object (id : nat) (text : string).

(** [ToBoolean] *)
Definition truthy (v : value) : bool :=
  match v with
  | undefined | null => false
  | boolean b => b
  | number n => negb (n =? 0)
  | str s => match s with EmptyString => false | _ => true end
  | object _ _ => true
  end.

(** [String(value)], which a template literal applies too. *)
Definition String (v : value) : string :=
  match v with
  | undefined => "undefined"
  | null => "null"
  | boolean true => "true"
  | boolean false => "false"
  | number n => pretty n
  | str s => s
  | object _ text => text
  end.

(** [SameValueZero], the comparison of [Array.prototype.includes]: objects
    are compared by identity. *)
Definition same_value_zero (a b : value) : bool :=
  match a, b with
  | undefined, undefined => true
  | null, null => true
  | boolean x, boolean y => Bool.eqb x y
  | number x, number y => x =? y
  | str x, str y => x === y
  | object x _, object y _ => Nat.eqb x y
  | _, _ => false
  end.

(** [a || b] *)
Definition or (a b : value) : value := if truthy a then a else b.

(** [Array.prototype.includes] on an array of values. *)
Definition includes (arr : list value) (x : value) : bool :=
  existsb (λ y, same_value_zero y x) arr.

(** An object with string keys, as the list of its own properties in the
    order of [Object.keys]; the keys are distinct and none is an array
    index. *)
Definition obj : Type := list (string * value).

(** [o[key]] *)
Fixpoint get (o : obj) (key : string) : value :=
  match o with
  | [] => undefined
  | (k, v) :: rest => if k === key then v else get rest key
  end.

(** [o[key] = v] on an own property: the key keeps its place. *)
Fixpoint set (o : obj) (key : string) (v : value) : obj :=
  match o with
  | [] => []
  | (k, x) :: rest =>
      if k === key then (k, v) :: rest else (k, x) :: set rest key v
  end.

Definition keys (o : obj) : list string := map fst o.
Definition values (o : obj) : list value := map snd o.
End JS.

(** White space and line terminators below code unit 256:
    tab, line feed, vertical tab, form feed, carriage return, space and
    no-break space. *)
Definition is_white_space (c : ascii) : bool :=
  let n := nat_of_ascii c in
  (Nat.leb 9 n && Nat.leb n 13) || Nat.eqb n 32 || Nat.eqb n 160.

Fixpoint trimStart (s : string) : string :=
  match s with
  | EmptyString => EmptyString
  | String c s' => if is_white_space c then trimStart s' else s
  end.

Fixpoint trimEnd (s : string) : string :=
  match s with
  | EmptyString => EmptyString
  | String c s' =>
      match trimEnd s' with
      | EmptyString => if is_white_space c then EmptyString
                       else String c EmptyString
      | t => String c t
      end
  end.

(** [String.prototype.trim] on text whose code units are below 256. *)
Definition trim (s : string) : string := trimEnd (trimStart s).

(** [\w]: an ASCII letter, digit or underscore. *)
Definition is_word_char (c : ascii) : bool :=
  let n := nat_of_ascii c in
  (Nat.leb 65 n && Nat.leb n 90) || (Nat.leb 97 n && Nat.leb n 122)
  || (Nat.leb 48 n && Nat.leb n 57) || Nat.eqb n 95.

(** [l.toUpperCase()] of one word character. *)
Definition ascii_upper (c : ascii) : ascii :=
  let n := nat_of_ascii c in
  if (Nat.leb 97 n && Nat.leb n 122)%bool then ascii_of_nat (n - 32) else c.

(** [s.replace(/_/g, ' ')] *)
Fixpoint replace_underscores (s : string) : string :=
  match s with
  | EmptyString => EmptyString
  | String c s' =>
      String (if Ascii.eqb c "_" then " "%char else c) (replace_underscores s')
  end.

(** [s.replace(/\b\w/g, l => l.toUpperCase())]: a word character is put in
    upper case when no word character precedes it; [after_word] tells
    whether the previous character was one. *)
Fixpoint capitalize_words (after_word : bool) (s : string) : string :=
  match s with
  | EmptyString => EmptyString
  | String c s' =>
      String (if is_word_char c && negb after_word then ascii_upper c else c)
             (capitalize_words (is_word_char c) s')
  end.

(** ** Property information *)

(** [fieldMappings] of [buildComprehensivePropertyInfo]. *)
Definition fieldMappings (propertyData : JS.obj) : JS.obj :=
  let field := JS.get propertyData in
  [ ("Property Name", JS.or (field "property_title") (field "name"));
    ("Address", JS.or (field "property_location") (field "address"));
    ("Check-in Time", field "check_in_time");
    ("Check-out Time", field "check_out_time");
    ("WiFi Network", field "wifi_network_name");
    ("WiFi Password", field "wifi_password");
    ("Number of Bedrooms", field "bedrooms");
    ("Number of Bathrooms", field "bathrooms");
    ("Max Guests", field "max_guests");
    ("Property Type", field "property_type");
    ("Description", field "description");
    ("House Rules", field "house_rules");
    ("Amenities", field "amenities");
    ("Parking Information", field "parking_info");
    ("Emergency Contact", field "emergency_contact");
    ("Host Phone", field "host_phone");
    ("Host Email", field "host_email");
    ("Local Area Information", field "local_area_info");
    ("Transportation", field "transportation_info");
    ("Nearby Attractions", field "nearby_attractions");
    ("Restaurant Recommendations", field "restaurant_recommendations");
    ("Grocery Stores", field "grocery_stores");
    ("Medical Facilities", field "medical_facilities");
    ("Pet Policy", field "pet_policy");
    ("Smoking Policy", field "smoking_policy");
    ("Noise Policy", field "noise_policy");
    ("Party Policy", field "party_policy");
    ("Additional Instructions", field "additional_instructions");
    ("Cleaning Instructions", field "cleaning_instructions");
    ("Appliance Instructions", field "appliance_instructions");
    ("Heating/Cooling", field "hvac_instructions");
    ("Security System", field "security_system_info");
    ("Key/Access Information", field "key_access_info") ].

(** [value && String(value).trim() && String(value).trim() !== 'null'] *)
Definition has_text (value : JS.value) : bool :=
  JS.truthy value
  && truthy (trim (JS.String value))
  && negb (trim (JS.String value) === "null").

(** The line pushed for a label and a value. *)
Definition property_line (label : string) (value : JS.value) : string :=
  "- " +:+ label +:+ ": " +:+ JS.String value.

(** The body of [Object.entries(fieldMappings).forEach]. *)
Fixpoint mapped_lines (entries : JS.obj) (propertyLines : list string)
  : list string :=
  match entries with
  | [] => propertyLines
  | (label, value) :: rest =>
      if has_text value
      then mapped_lines rest (propertyLines ++ [property_line label value])
      else mapped_lines rest propertyLines
  end.

Definition excludeKeys : list string :=
  ["id"; "account_id"; "created_at"; "updated_at"; "is_active"; "faqs";
   "scenario_data"].

(** [key.replace(/_/g, ' ').replace(/\b\w/g, l => l.toUpperCase())] *)
Definition label_of_key (key : string) : string :=
  capitalize_words false (replace_underscores key).

(** The body of [Object.keys(propertyData).forEach]. *)
Fixpoint additional_lines (propertyData : JS.obj) (keys : list string)
    (propertyLines : list string) : list string :=
  match keys with
  | [] => propertyLines
  | key :: rest =>
      if negb (Array_includes excludeKeys key)
         && negb (JS.includes (JS.values (fieldMappings propertyData))
                              (JS.get propertyData key))
      then
        let value := JS.get propertyData key in
        if has_text value
        then additional_lines propertyData rest
               (propertyLines ++ [property_line (label_of_key key) value])
        else additional_lines propertyData rest propertyLines
      else additional_lines propertyData rest propertyLines
  end.

(** [buildComprehensivePropertyInfo(propertyData)], for the object that
    [getPropertyData] returns. *)
Definition buildComprehensivePropertyInfo (propertyData : JS.obj) : string :=
  if negb (JS.truthy (JS.get propertyData "id"))
  then "Property Information: Not available"
  else
    let propertyLines := ["Property Information:"] in
    let propertyLines :=
      mapped_lines (fieldMappings propertyData) propertyLines in
    let propertyLines :=
      additional_lines propertyData (JS.keys propertyData) propertyLines in
    join newline propertyLines.

(** A property row as [getPropertyData] returns it. *)
Definition demo_property : JS.obj :=
  [ ("scenario_data", JS.object 1 "[object Object]");
    ("id", JS.number 7);
    ("account_id", JS.number 1);
    ("property_title", JS.str "Casa");
    ("wifi_password", JS.str "hunter2");
    ("bedrooms", JS.number 2);
    ("floors", JS.number 2);
    ("pool_rules", JS.str "No diving");
    ("notes", JS.str "  ");
    ("created_at", JS.object 2 "Mon Jan 01 2024");
    ("faqs", JS.object 3 "") ].

(** The test of the second loop of [buildComprehensivePropertyInfo],
    together with the test on the value. *)
Definition is_additional (propertyData : JS.obj) (key : string) : bool :=
  negb (Array_includes excludeKeys key)
  && negb (JS.includes (JS.values (fieldMappings propertyData))
                       (JS.get propertyData key))
  && has_text (JS.get propertyData key).

(** The columns that [fieldMappings] reads first for a label. *)
Definition mapped_columns : list string :=
  ["property_title"; "property_location"; "check_in_time"; "check_out_time";
   "wifi_network_name"; "wifi_password"; "bedrooms"; "bathrooms";
   "max_guests"; "property_type"; "description"; "house_rules"; "amenities";
   "parking_info"; "emergency_contact"; "host_phone"; "host_email";
   "local_area_info"; "transportation_info"; "nearby_attractions";
   "restaurant_recommendations"; "grocery_stores"; "medical_facilities";
   "pet_policy"; "smoking_policy"; "noise_policy"; "party_policy";
   "additional_instructions"; "cleaning_instructions";
   "appliance_instructions"; "hvac_instructions"; "security_system_info";
   "key_access_info"].

(** ** Authentication middleware ([middleware/auth.js]) *)

(** [===] on values: among the values modelled there is no [NaN], so it is
    the comparison of [JS.same_value_zero]. *)
Definition strict_equal (a b : JS.value) : bool := JS.same_value_zero a b.

(** [s.split(sep)] for a separator of one character. *)
Fixpoint split_on (sep : ascii) (s : string) : list string :=
  match s with
  | EmptyString => [EmptyString]
  | String c s' =>
      if Ascii.eqb c sep then EmptyString :: split_on sep s'
      else match split_on sep s' with
           | head :: tail => String c head :: tail
           | [] => [String c EmptyString]
           end
  end.

Module Jwt.
(** The claims that the middleware reads from a decoded token; a claim the
    token lacks is [JS.undefined]. *)
Record payload := mk {
  userId : JS.value;
  email : JS.value;
  role : JS.value;
  accountId : JS.value
}.

(** What [jwt.verify(token, secret)] does: it returns the decoded payload,
    or throws an error whose name is [TokenExpiredError] or another one. *)
Inductive verification :=
| verified (decoded : payload)
| TokenExpiredError
| other_error.
End Jwt.

Module Express.
(** [req.user] *)
Record user := mk_user {
  id : JS.value;
  email : JS.value;
  role : JS.value;
  accountId : JS.value
}.

(** The parts of the request that the middleware and the user routes read:
    [req.headers['authorization']], [req.user] and [req.params.id]. *)
Record request := mk_request {
  authorization : option string;
  req_user : option user;
  params_id : string
}.

(** [res.status(status).json({ error })] *)
Record response := json {
  status : nat;
  error : string
}.

(** A middleware either sends a response or calls [next()], handing the
    request on. *)
Inductive outcome :=
| responded (r : response)
| next (req : request).

Definition set_user (req : request) (u : user) : request :=
  mk_request (authorization req) (Some u) (params_id req).

(** What a middleware decides: the response it sends, or the user that the
    request carries when it is handed on. *)
Definition decision (o : outcome) : response + option user :=
  match o with
  | responded r => inl r
  | next req => inr (req_user req)
  end.

(** Two middlewares in a row: the second runs on what the first hands
    on. *)
Definition chain (first second : request → outcome) (req : request)
  : outcome :=
  match first req with
  | responded r => responded r
  | next req' => second req'
  end.
End Express.

(** [authHeader && authHeader.split(' ')[1]]: [None] is [undefined]. *)
Definition bearer_token (authHeader : option string) : option string :=
  match authHeader with
  | None => None
  | Some header =>
      if truthy header then nth_error (split_on " " header) 1
      else Some header
  end.

(** [!token] *)
Definition no_token (token : option string) : bool :=
  match token with
  | None => true
  | Some t => negb (truthy t)
  end.

Definition user_of_payload (decoded : Jwt.payload) : Express.user :=
  {| Express.id := Jwt.userId decoded;
     Express.email := Jwt.email decoded;
     Express.role := Jwt.role decoded;
     Express.accountId := Jwt.accountId decoded |}.

Section Middleware.
(** [token => jwt.verify(token, config.jwt.secret)] *)
Variable jwt_verify : string → Jwt.verification.

(** [authenticateToken(req, res, next)] *)
Definition authenticateToken (req : Express.request) : Express.outcome :=
  let token := bearer_token (Express.authorization req) in
  if no_token token
  then Express.responded (Express.json 401 "Access token required")
  else
    match jwt_verify (default "" token) with
    | Jwt.verified decoded =>
        Express.next (Express.set_user req (user_of_payload decoded))
    | Jwt.TokenExpiredError =>
        Express.responded (Express.json 401 "Token expired")
    | Jwt.other_error =>
        Express.responded (Express.json 403 "Invalid token")
    end.

(** [requireAdmin(req, res, next)] *)
Definition requireAdmin (req : Express.request) : Express.outcome :=
  match Express.req_user req with
  | None => Express.responded (Express.json 403 "Admin access required")
  | Some u =>
      if negb (strict_equal (Express.role u) (JS.str "admin"))
      then Express.responded (Express.json 403 "Admin access required")
      else Express.next req
  end.

(** [optionalAuth(req, res, next)] *)
Definition optionalAuth (req : Express.request) : Express.outcome :=
  let token := bearer_token (Express.authorization req) in
  if no_token token
  then Express.next req
  else
    match jwt_verify (default "" token) with
    | Jwt.verified decoded =>
        Express.next (Express.set_user req (user_of_payload decoded))
    | Jwt.TokenExpiredError | Jwt.other_error => Express.next req
    end.
End Middleware.

(** No space among the characters of a string. *)
Fixpoint no_space (s : string) : bool :=
  match s with
  | EmptyString => true
  | String c s' => negb (Ascii.eqb c " ") && no_space s'
  end.

(** A verifier for the examples: the token "good" is an admin's, "user" a
    plain user's, "old" has expired. *)
Definition demo_verify (token : string) : Jwt.verification :=
  if token === "good"
  then Jwt.verified (Jwt.mk (JS.number 1) (JS.str "a@b.c") (JS.str "admin")
                            (JS.number 1))
  else if token === "user"
  then Jwt.verified (Jwt.mk (JS.number 2) (JS.str "u@b.c") (JS.str "user")
                            (JS.number 1))
  else if token === "old" then Jwt.TokenExpiredError
  else Jwt.other_error.

Definition request_with (header : string) : Express.request :=
  Express.mk_request (Some header) None "2".

(** ** User routes ([routes/users.js])

    The router runs [authenticateToken] first, so [req.user] is set when a
    handler runs. A handler is a program that answers, or awaits a call to
    the database wrapper or to bcrypt and goes on with what it returns; the
    [try]/[catch] around each handler turns a call that throws into the
    answer 500. The wrapper, bcrypt and express-validator are outside the
    repository: their answers are inputs. *)

Module Route.
(** The JSON object sent. *)
Inductive body :=
| error_body (error : string)
| invalid_input (details : list JS.value)
| user_body (user : JS.obj)
| users_body (users : list JS.obj)
| message_body (message : string)
| message_user_body (message : string) (user : JS.obj).

Inductive program :=
| respond (status : nat) (b : body)
| db_get (sql : string) (params : list JS.value)
         (k : option JS.obj → program)
| db_all (sql : string) (k : list JS.obj → program)
| db_run (sql : string) (params : list JS.value) (k : nat → program)
| bcrypt_compare (data hash : JS.value) (k : bool → program)
| bcrypt_hash (data : JS.value) (rounds : nat) (k : string → program).

(** The calls a handler makes. *)
Inductive call :=
| get (sql : string) (params : list JS.value)
| all (sql : string)
| run (sql : string) (params : list JS.value)
| compare (data hash : JS.value)
| hash (data : JS.value) (rounds : nat).

(** What is outside: for each call, given the calls made before it, the
    value returned, or [None] when the call throws. [get] returns the row
    or [undefined], [run] the number of changes. *)
Record outside := mk_outside {
  get_returns : list call → string → list JS.value → option (option JS.obj);
  all_returns : list call → string → option (list JS.obj);
  run_returns : list call → string → list JS.value → option nat;
  compare_returns : list call → JS.value → JS.value → option bool;
  hash_returns : list call → JS.value → nat → option string
}.

(** [catch (error) { res.status(500).json({ error: 'Internal server
    error' }) }] *)
Definition internal_server_error : nat * body :=
  (500%nat, error_body "Internal server error").

(** Running a handler: the response sent and the calls made, in order. *)
Fixpoint execute (o : outside) (p : program) (made : list call)
  : (nat * body) * list call :=
  match p with
  | respond status b => ((status, b), made)
  | db_get sql params k =>
      match get_returns o made sql params with
      | Some row => execute o (k row) (made ++ [get sql params])
      | None => (internal_server_error, made ++ [get sql params])
      end
  | db_all sql k =>
      match all_returns o made sql with
      | Some rows => execute o (k rows) (made ++ [all sql])
      | None => (internal_server_error, made ++ [all sql])
      end
  | db_run sql params k =>
      match run_returns o made sql params with
      | Some changes => execute o (k changes) (made ++ [run sql params])
      | None => (internal_server_error, made ++ [run sql params])
      end
  | bcrypt_compare data h k =>
      match compare_returns o made data h with
      | Some valid => execute o (k valid) (made ++ [compare data h])
      | None => (internal_server_error, made ++ [compare data h])
      end
  | bcrypt_hash data rounds k =>
      match hash_returns o made data rounds with
      | Some text => execute o (k text) (made ++ [hash data rounds])
      | None => (internal_server_error, made ++ [hash data rounds])
      end
  end.

(** [req.body], after the validators and sanitizers of the route ran; an
    absent field is [JS.undefined]. *)
Record fields := mk_fields {
  firstName : JS.value;
  lastName : JS.value;
  role : JS.value;
  isActive : JS.value;
  currentPassword : JS.value;
  newPassword : JS.value
}.

Record request := mk_request {
  (** [req.user] *)
  user : Express.user;
  (** [req.params.id] *)
  id : string;
  (** [validationResult(req).array()] *)
  errors : list JS.value;
  (** [req.body] *)
  fields_of : fields
}.
End Route.

(** [v !== undefined] *)
Definition is_defined (v : JS.value) : bool :=
  match v with JS.undefined => false | _ => true end.

Definition select_user_sql : string :=
  "SELECT id, email, first_name, last_name, role, account_id, is_active, email_verified, created_at, last_login "
  +:+ newline +:+ "       FROM users WHERE id = ?".

(** The object built from a row in every answer. *)
Definition user_json (u : JS.obj) : JS.obj :=
  [ ("id", JS.get u "id");
    ("email", JS.get u "email");
    ("firstName", JS.get u "first_name");
    ("lastName", JS.get u "last_name");
    ("role", JS.get u "role");
    ("accountId", JS.get u "account_id");
    ("isActive", JS.get u "is_active");
    ("emailVerified", JS.get u "email_verified");
    ("createdAt", JS.get u "created_at");
    ("lastLogin", JS.get u "last_login") ].

(** [req.user.role === 'admin'] and [req.user.id === id] *)
Definition isAdmin (req : Route.request) : bool :=
  strict_equal (Express.role (Route.user req)) (JS.str "admin").
Definition isSelf (req : Route.request) : bool :=
  strict_equal (Express.id (Route.user req)) (JS.str (Route.id req)).

(** [router.get('/:id', ...)] *)
Definition get_user (req : Route.request) : Route.program :=
  if negb (isAdmin req) && negb (isSelf req)
  then Route.respond 403 (Route.error_body "Access denied")
  else
    Route.db_get select_user_sql [JS.str (Route.id req)]
      (λ user,
         match user with
         | None => Route.respond 404 (Route.error_body "User not found")
         | Some u => Route.respond 200 (Route.user_body (user_json u))
         end).

(** The two arrays that [router.put('/:id', ...)] builds. *)
Definition updates_and_values (req : Route.request)
  : list string * list JS.value :=
  let body := Route.fields_of req in
  let '(updates, values) := ([], []) in
  let '(updates, values) :=
    if is_defined (Route.firstName body)
    then (updates ++ ["first_name = ?"], values ++ [Route.firstName body])
    else (updates, values) in
  let '(updates, values) :=
    if is_defined (Route.lastName body)
    then (updates ++ ["last_name = ?"], values ++ [Route.lastName body])
    else (updates, values) in
  if isAdmin req then
    let '(updates, values) :=
      if is_defined (Route.role body)
      then (updates ++ ["role = ?"], values ++ [Route.role body])
      else (updates, values) in
    if is_defined (Route.isActive body)
    then (updates ++ ["is_active = ?"], values ++ [Route.isActive body])
    else (updates, values)
  else (updates, values).

(** [router.put('/:id', ...)]; the row fetched after the update may be
    [undefined], and reading [user.id] then throws into the [catch]. *)
Definition update_user (req : Route.request) : Route.program :=
  if negb (Nat.eqb (length (Route.errors req)) 0)
  then Route.respond 400 (Route.invalid_input (Route.errors req))
  else if negb (isAdmin req) && negb (isSelf req)
  then Route.respond 403 (Route.error_body "Access denied")
  else
    let '(updates, values) := updates_and_values req in
    if Nat.eqb (length updates) 0
    then Route.respond 400 (Route.error_body "No valid fields to update")
    else
      let updates := updates ++ ["updated_at = CURRENT_TIMESTAMP"] in
      let values := values ++ [JS.str (Route.id req)] in
      Route.db_run
        ("UPDATE users SET " +:+ join ", " updates +:+ " WHERE id = ?")
        values
        (λ _,
           Route.db_get select_user_sql [JS.str (Route.id req)]
             (λ user,
                match user with
                | None =>
                    Route.respond 500
                      (Route.error_body "Internal server error")
                | Some u =>
                    Route.respond 200
                      (Route.message_user_body "User updated successfully"
                                               (user_json u))
                end)).

(** [router.put('/:id/password', ...)] *)
Definition change_password (req : Route.request) : Route.program :=
  if negb (Nat.eqb (length (Route.errors req)) 0)
  then Route.respond 400 (Route.invalid_input (Route.errors req))
  else if negb (isAdmin req) && negb (isSelf req)
  then Route.respond 403 (Route.error_body "Access denied")
  else
    let body := Route.fields_of req in
    let store_new_password :=
      Route.bcrypt_hash (Route.newPassword body) 12
        (λ passwordHash,
           Route.db_run
             "UPDATE users SET password_hash = ?, updated_at = CURRENT_TIMESTAMP WHERE id = ?"
             [JS.str passwordHash; JS.str (Route.id req)]
             (λ _,
                Route.respond 200
                  (Route.message_body "Password changed successfully"))) in
    Route.db_get "SELECT password_hash FROM users WHERE id = ?"
      [JS.str (Route.id req)]
      (λ user,
         match user with
         | None => Route.respond 404 (Route.error_body "User not found")
         | Some u =>
             if isSelf req
             then
               Route.bcrypt_compare (Route.currentPassword body)
                 (JS.get u "password_hash")
                 (λ validPassword,
                    if negb validPassword
                    then Route.respond 401
                           (Route.error_body "Current password is incorrect")
                    else store_new_password)
             else store_new_password
         end).

(** [router.delete('/:id', requireAdmin, ...)] *)
Definition delete_user (req : Route.request) : Route.program :=
  if isSelf req
  then Route.respond 400 (Route.error_body "Cannot delete your own account")
  else
    Route.db_run "DELETE FROM user_sessions WHERE user_id = ?"
      [JS.str (Route.id req)]
      (λ _,
         Route.db_run "DELETE FROM users WHERE id = ?"
           [JS.str (Route.id req)]
           (λ changes,
              if Nat.eqb changes 0
              then Route.respond 404 (Route.error_body "User not found")
              else Route.respond 200
                     (Route.message_body "User deleted successfully"))).

(** Number of [?] in a statement. *)
Fixpoint placeholders (sql : string) : nat :=
  match sql with
  | EmptyString => 0%nat
  | String c sql' =>
      ((if Ascii.eqb c "?" then 1 else 0) + placeholders sql')%nat
  end.

(** The statement of a call to the store, and its parameters. *)
Definition statement (c : Route.call) : option (string * list JS.value) :=
  match c with
  | Route.get sql params | Route.run sql params => Some (sql, params)
  | Route.all sql => Some (sql, [])
  | Route.compare _ _ | Route.hash _ _ => None
  end.

(** A user whose token carries a number as [userId], asking for the path
    id ["2"]. *)
Definition numeric_user_request : Route.request :=
  {| Route.user := Express.mk_user (JS.number 2) (JS.str "u@b.c")
                                   (JS.str "user") (JS.number 1);
     Route.id := "2";
     Route.errors := [];
     Route.fields_of :=
       Route.mk_fields (JS.str "Ana") JS.undefined (JS.str "admin")
                       JS.undefined (JS.str "old") (JS.str "new1!aaaa") |}.

(** An admin with the identity ["1"] as a string, on the path id ["2"]. *)
Definition admin_request : Route.request :=
  {| Route.user := Express.mk_user (JS.str "1") (JS.str "a@b.c")
                                   (JS.str "admin") (JS.number 1);
     Route.id := "2";
     Route.errors := [];
     Route.fields_of :=
       Route.mk_fields (JS.str "Ana") JS.undefined (JS.str "admin")
                       (JS.boolean false) JS.undefined (JS.str "new1!aaaa")
  |}.

(** An outside where every store call succeeds on an empty table and bcrypt
    accepts. *)
Definition empty_outside : Route.outside :=
  Route.mk_outside (λ _ _ _, Some None) (λ _ _, Some [])
                   (λ _ _ _, Some 0%nat) (λ _ _ _, Some true)
                   (λ _ _ _, Some "hash").

(** The route [DELETE /:id] as mounted: [authenticateToken] of the router,
    then [requireAdmin], then the handler on the request handed on. A
    middleware that answers ends the request with no call made. Were
    [req.user] missing, reading [req.user.id] would throw into the
    [catch]. *)
Definition delete_route (jwt_verify : string → Jwt.verification)
    (o : Route.outside) (body : Route.fields) (req : Express.request)
  : (nat * Route.body) * list Route.call :=
  match Express.chain (authenticateToken jwt_verify) requireAdmin req with
  | Express.responded r =>
      ((Express.status r, Route.error_body (Express.error r)), [])
  | Express.next req' =>
      match Express.req_user req' with
      | Some u =>
          Route.execute o
            (delete_user (Route.mk_request u (Express.params_id req') []
                                           body))
            []
      | None => (Route.internal_server_error, [])
      end
  end.

(** An outside where the store finds the user and one row changes. *)
Definition found_outside : Route.outside :=
  Route.mk_outside
    (λ _ _ _, Some (Some [("id", JS.str "2");
                          ("password_hash", JS.str "stored")]))
    (λ _ _, Some [])
    (λ _ _ _, Some 1%nat) (λ _ _ _, Some true)
    (λ _ _ _, Some "hash").

(** A user changing their own password. *)
Definition self_request : Route.request :=
  {| Route.user := Express.mk_user (JS.str "2") (JS.str "u@b.c")
                                   (JS.str "user") (JS.number 1);
     Route.id := "2";
     Route.errors := [];
     Route.fields_of :=
       Route.mk_fields (JS.str "Ana") JS.undefined (JS.str "admin")
                       JS.undefined (JS.str "old") (JS.str "new1!aaaa") |}.

(** ** Completions and their shape *)

(** What [generateAiResponse] returns for a summary that is an object when
    its completion request, if it makes one, is the n-th. *)
Definition response_value `{Engine} (this : SandboxAIService) (n : nat)
    (item : SummaryItem.t) (propertyData : PropertyData.t)
  : Parsed.t Response.t :=
  match openai this with
  | None => Parsed.object (getMockResponse (SummaryItem.summary item))
  | Some client =>
      match OpenAI.response_completion client n item propertyData with
      | Some parsed => parsed
      | None => Parsed.object (getMockResponse (SummaryItem.summary item))
      end
  end.

(** No completion of [generateAiResponse] parses to [null]. *)
Definition answers_with_objects (this : SandboxAIService) : Prop :=
  ∀ client n item propertyData,
    openai this = Some client →
    OpenAI.response_completion client n item propertyData
    ≠ Some Parsed.null.

(** A summary that is an object whose [keyInformation] is an array. *)
Definition well_shaped_summary (summary : Parsed.t Summary.t) : Prop :=
  ∃ fields items,
    summary = Parsed.object fields
    ∧ Summary.keyInformation fields = KeyInformation.array items.

(** Every completion of [generateMessageSummary] parses to such a
    summary. *)
Definition summarizes_with_objects (this : SandboxAIService) : Prop :=
  ∀ client n context message summary,
    openai this = Some client →
    OpenAI.summary_completion client n context message = Some summary →
    well_shaped_summary summary.

(** ** Store operations a call attempts

    A call consumes the head of the fault list at each store operation it
    attempts, as long as the list is not used up. [used] is what a call
    consumed between two worlds. *)
Definition consumed (w w' : World) (used : list bool) : Prop :=
  faults w = used ++ faults w'.

(** No store operation is attempted after one that failed. *)
Definition fails_last (used : list bool) : Prop :=
  ∀ front back, used = front ++ true :: back → back = [].

(** The outcome of a call and the store operations it attempted: a
    [DatabaseError] is thrown when the last operation attempted failed, and
    no operation failed otherwise. *)
Definition stops_at_failure {A} (r : Result A) (used : list bool) : Prop :=
  match r with
  | Throw DatabaseError =>
      ∃ front, used = front ++ [true] ∧ Forall (eq false) front
  | _ => Forall (eq false) used
  end.

(** A call that, from every world, stops at the first store operation
    that fails. *)
Definition disciplined {A} (m : M A) : Prop :=
  ∀ w r w',
    m w = (r, w') → ∃ used, consumed w w' used ∧ stops_at_failure r used.

(** A client whose completion for a summary parses to [null] at every
    request. *)
Definition null_summary_service : SandboxAIService :=
  mkService (Some (OpenAI.mk (λ _ _ _, Some Parsed.null) (λ _ _ _, None)))
            "gpt-4o-mini".


(** * Properties *)

Ltac case_conditions :=
  repeat match goal with
         | |- context [if ?b then _ else _] => destruct b
         end.

Lemma getMockSummary_populated `{Engine} (messageText : string) :
  summary_fields_populated (getMockSummary messageText) = true.
Proof. unfold getMockSummary. case_conditions; reflexivity. Qed.

Lemma getMockResponse_populated (summary : Summary.t) :
  response_fields_populated (getMockResponse summary) = true.
Proof. unfold getMockResponse. case_conditions; reflexivity. Qed.

Lemma getMockSummary_priority `{Engine} (messageText : string) :
  Summary.priority (getMockSummary messageText) = "medium"
  ∨ Summary.priority (getMockSummary messageText) = "high".
Proof. unfold getMockSummary. case_conditions; simpl; auto. Qed.

Lemma getMockSummary_sentiment `{Engine} (messageText : string) :
  Summary.sentiment (getMockSummary messageText) = "neutral"
  ∨ Summary.sentiment (getMockSummary messageText) = "negative".
Proof. unfold getMockSummary. case_conditions; simpl; auto. Qed.

(** ** The error monad on a world without pending faults *)

Lemma store_operation_no_fault (w : World) :
  faults w = [] → store_operation w = (Ok tt, w).
Proof. intros Hf. unfold store_operation. now rewrite Hf. Qed.

Lemma client_select_no_fault {A} (q : Store → A) (w : World) :
  faults w = [] → client_select q w = (Ok (q (db w)), w).
Proof.
  intros Hf. unfold client_select, bind.
  now rewrite store_operation_no_fault.
Qed.

Lemma client_insert_no_fault (q : Z → Store → Store) (w : World) :
  faults w = [] →
  client_insert q w = (Ok tt, set_db (q (clock w) (db w)) w).
Proof.
  intros Hf. unfold client_insert, bind.
  now rewrite store_operation_no_fault.
Qed.

Lemma pool_connect_no_fault (w : World) :
  faults w = [] → pool_connect w = (Ok tt, set_clients (S (clients w)) w).
Proof.
  intros Hf. unfold pool_connect, bind.
  now rewrite store_operation_no_fault.
Qed.

Lemma pool_connect_db (w : World) : db (snd (pool_connect w)) = db w.
Proof.
  unfold pool_connect, bind, store_operation.
  destruct (faults w) as [|[] ?]; reflexivity.
Qed.

Lemma client_select_db {A} (q : Store → A) (w : World) :
  db (snd (client_select q w)) = db w.
Proof.
  unfold client_select, bind, store_operation.
  destruct (faults w) as [|[] ?]; reflexivity.
Qed.

(** ** C6 *)

(** C6: for every message body, whatever the case mapping of the engine,
    [getMockSummary] returns an object whose schema fields are all
    populated, and for every summary [getMockResponse] does; both are total
    functions, and [generateMessageSummary] and [generateAiResponse] end
    with these values, never with an exception, when no completion client
    is configured ([generateAiResponse] on a summary that is an object, as
    [getMockSummary] gives it). *)
Theorem C6_fallbacks_total_and_populated :
  ∀ (E : Engine) (messageText : string) (summary : Summary.t)
    (model : string) (context : Context.t) (message : Message.t)
    (item : SummaryItem.t) (propertyData : PropertyData.t) (w : World),
    summary_fields_populated (getMockSummary messageText) = true
    ∧ response_fields_populated (getMockResponse summary) = true
    ∧ generateMessageSummary (mkService None model) context message w
      = (Ok (Parsed.object (getMockSummary (Message.message_body message))),
         w)
    ∧ generateAiResponse (mkService None model) (SummaryItem.push item)
        propertyData w
      = (Ok (Parsed.object (getMockResponse (SummaryItem.summary item))), w).
Proof.
  intros. split; [|split; [|split]].
  - apply getMockSummary_populated.
  - apply getMockResponse_populated.
  - reflexivity.
  - destruct item. reflexivity.
Qed.

(** ** C3 *)

(** C3 as stated fails: the body holds none of "key", "check in", "access"
    ("get in" is not "check in"), so the first rule does not fire. *)
Lemma C3_wifi_message_is_not_check_in :
  ¬ (Summary.category (getMockSummary wifi_message) = "check-in"
     ∧ Summary.priority (getMockSummary wifi_message) = "high"
     ∧ Summary.actionRequired (getMockSummary wifi_message) = true).
Proof. intros [Hc _]. vm_compute in Hc. discriminate Hc. Qed.

(** C3, amended: the body "The wifi is broken and I can't get in, please
    fix" is classified by the second rule, as category maintenance with
    priority medium and actionRequired true; the first rule does take
    precedence over the second for every body that holds "key", "check in"
    or "access", whatever else it holds. *)
Theorem C3_wifi_message_is_maintenance :
  (Summary.category (getMockSummary wifi_message) = "maintenance"
   ∧ Summary.priority (getMockSummary wifi_message) = "medium"
   ∧ Summary.actionRequired (getMockSummary wifi_message) = true)
  ∧ ∀ (E : Engine) (messageText : string),
      includes (toLowerCase messageText) "key"
      || includes (toLowerCase messageText) "check in"
      || includes (toLowerCase messageText) "access" = true →
      Summary.category (getMockSummary messageText) = "check-in"
      ∧ Summary.priority (getMockSummary messageText) = "high"
      ∧ Summary.actionRequired (getMockSummary messageText) = true.
Proof.
  split.
  - vm_compute. auto.
  - intros E messageText Hrule. unfold getMockSummary.
    rewrite Hrule. simpl. auto.
Qed.

(** The first rule fires once the body does hold "check in". *)
Lemma C3_wifi_message_is_maintenance_witness :
  Summary.category
    (getMockSummary "The wifi is broken and I can't check in, please fix")
  = "check-in".
Proof.
  apply (proj2 C3_wifi_message_is_maintenance ascii_engine
           "The wifi is broken and I can't check in, please fix").
  vm_compute. reflexivity.
Defined.

(** ** C9 and C10 *)

Lemma parsed_push (item : SummaryItem.t) :
  SummaryItem.parsed (SummaryItem.push item) = Parsed.object item.
Proof. destruct item. reflexivity. Qed.

Lemma readable_push (items : list SummaryItem.t) :
  readable (map SummaryItem.push items) = items.
Proof.
  induction items as [|item items IH]; [reflexivity|].
  cbn [map readable]. rewrite parsed_push. now rewrite IH.
Qed.

Lemma all_objects_push (items : list SummaryItem.t) :
  all_objects (map SummaryItem.push items) = true.
Proof. induction items as [|item items IH]; [reflexivity | exact IH]. Qed.

(** What a read of [summary.summary.x] finds. *)
Lemma parsed_cases (summary : SummaryItem.pushed) :
  (∃ item, SummaryItem.parsed summary = Parsed.object item
           ∧ summary = SummaryItem.push item)
  ∨ (SummaryItem.parsed summary = Parsed.null
     ∧ SummaryItem.summary summary = Parsed.null).
Proof.
  destruct summary as [uuid body [fields|]]; cbn.
  - left. eexists. split; reflexivity.
  - right. split; reflexivity.
Qed.

Lemma all_objects_cons (summary : SummaryItem.pushed)
    (rest : list SummaryItem.pushed) :
  all_objects (summary :: rest)
  = match SummaryItem.parsed summary with
    | Parsed.object _ => all_objects rest
    | Parsed.null => false
    end.
Proof. destruct summary as [uuid body [fields|]]; reflexivity. Qed.

Lemma all_objects_readable (summaries : list SummaryItem.pushed) :
  all_objects summaries = true →
  summaries = map SummaryItem.push (readable summaries).
Proof.
  induction summaries as [|summary rest IH]; [reflexivity|].
  rewrite all_objects_cons. cbn [readable].
  destruct (parsed_cases summary) as [(item & -> & ->) | (-> & _)];
    [|discriminate].
  intros Hrest. cbn [map]. now rewrite <- IH.
Qed.

Lemma escalate_summaries_spec (summaries : list SummaryItem.pushed)
    (escalations : list Escalation.t) (w : World) :
  escalate_summaries summaries escalations w
  = (if all_objects summaries
     then Ok (escalations
              ++ map escalation (List.filter is_urgent (readable summaries)))
     else Throw TypeError, w).
Proof.
  revert escalations.
  induction summaries as [|s rest IH]; intros escalations.
  - cbn. unfold ret. now rewrite app_nil_r.
  - cbn [escalate_summaries readable]. rewrite all_objects_cons.
    unfold bind, read.
    destruct (SummaryItem.parsed s) as [item|]; [|reflexivity].
    unfold ret. cbn [List.filter].
    destruct (is_urgent item); rewrite IH; [|reflexivity].
    destruct (all_objects rest); [|reflexivity].
    cbn [map]. now rewrite <- app_assoc.
Qed.

Lemma is_urgent_iff (s : SummaryItem.t) :
  is_urgent s = true
  ↔ Summary.priority (SummaryItem.summary s) = "urgent"
    ∨ Summary.sentiment (SummaryItem.summary s) = "urgent".
Proof.
  unfold is_urgent. rewrite orb_true_iff, !String.eqb_eq. reflexivity.
Qed.

(** C9: [processHostEscalations] leaves the world as it was. On summaries
    that are objects it returns, in the order of the summaries, one
    escalation (the summary with the fixed reason and recommendation) for
    each summary whose priority or whose sentiment is urgent, and none for
    the others. It throws, a [TypeError], exactly when the summary of some
    pushed object is [null]. *)
Theorem C9_escalations_for_urgent_summaries :
  ∀ (sessionId : string) (summaries : list SummaryItem.pushed) (w : World),
    processHostEscalations sessionId summaries w
    = (if all_objects summaries
       then Ok (map escalation (List.filter is_urgent (readable summaries)))
       else Throw TypeError, w)
    ∧ (∀ s, is_urgent s = true
            ↔ Summary.priority (SummaryItem.summary s) = "urgent"
              ∨ Summary.sentiment (SummaryItem.summary s) = "urgent")
    ∧ (∀ s, all_objects summaries = true →
            In (SummaryItem.push s) summaries →
            Summary.priority (SummaryItem.summary s) = "urgent"
            ∨ Summary.sentiment (SummaryItem.summary s) = "urgent" →
            In (escalation s)
               (map escalation (List.filter is_urgent (readable summaries))))
    ∧ (∀ s, Summary.priority (SummaryItem.summary s) ≠ "urgent" →
            Summary.sentiment (SummaryItem.summary s) ≠ "urgent" →
            processHostEscalations sessionId [SummaryItem.push s] w
            = (Ok [], w))
    ∧ (∀ s, Summary.priority (SummaryItem.summary s) = "urgent"
            ∨ Summary.sentiment (SummaryItem.summary s) = "urgent" →
            processHostEscalations sessionId [SummaryItem.push s] w
            = (Ok [ {| Escalation.message_uuid := SummaryItem.message_uuid s;
                       Escalation.reason := "Urgent guest request";
                       Escalation.summary := SummaryItem.summary s;
                       Escalation.recommended_action :=
                         "Immediate host attention required" |} ], w)).
Proof.
  intros sessionId summaries w. split; [|split; [|split; [|split]]].
  - unfold processHostEscalations. now rewrite escalate_summaries_spec.
  - apply is_urgent_iff.
  - intros s Hall Hin Hurgent. apply in_map, filter_In.
    split; [|now apply is_urgent_iff].
    rewrite (all_objects_readable summaries Hall) in Hin.
    apply in_map_iff in Hin as (s' & Hs' & Hin).
    destruct s as [u b f], s' as [u' b' f'].
    unfold SummaryItem.push in Hs'. cbn in Hs'.
    injection Hs' as -> -> ->. exact Hin.
  - intros s Hp Hs. unfold processHostEscalations.
    rewrite escalate_summaries_spec.
    change [SummaryItem.push s] with (map SummaryItem.push [s]).
    rewrite all_objects_push, readable_push. cbn.
    destruct (is_urgent s) eqn:Hu; [|reflexivity].
    apply is_urgent_iff in Hu. tauto.
  - intros s Hurgent. unfold processHostEscalations.
    rewrite escalate_summaries_spec.
    change [SummaryItem.push s] with (map SummaryItem.push [s]).
    rewrite all_objects_push, readable_push. cbn.
    apply is_urgent_iff in Hurgent. now rewrite Hurgent.
Qed.

(** A summary of low priority and urgent sentiment is escalated. *)
Lemma C9_escalations_for_urgent_summaries_witness :
  processHostEscalations "S1" [SummaryItem.push urgent_sentiment_item]
    demo_world
  = (Ok [escalation urgent_sentiment_item], demo_world).
Proof.
  apply (proj2 (proj2 (proj2 (proj2
           (C9_escalations_for_urgent_summaries
              "S1" [SummaryItem.push urgent_sentiment_item] demo_world))))
           urgent_sentiment_item).
  right. reflexivity.
Defined.

Section FallbackRun.
Context `{Engine}.
Variable this : SandboxAIService.
Hypothesis not_configured : openai this = None.

(** Without a completion client every summary that the loop emits is the
    deterministic one of its message body. *)
Lemma summarize_rows_fallback (sessionId : string) (rows : list Message.t) :
  ∀ (summaries : list SummaryItem.pushed) (w : World) result w',
    summarize_rows this sessionId rows summaries w = (Ok result, w') →
    ∃ new,
      result = summaries ++ new
      ∧ Forall is_fallback new.
Proof.
  induction rows as [|message rest IH]; intros summaries w result w' Hrun.
  - injection Hrun as <- <-. exists []. now rewrite app_nil_r.
  - simpl in Hrun. unfold bind in Hrun.
    destruct (client_select _ w) as [[history|e] w1]; [|discriminate].
    unfold generateMessageSummary in Hrun. rewrite not_configured in Hrun.
    unfold ret in Hrun.
    destruct (client_insert _ w1) as [[[]|e] w2]; [|discriminate].
    apply IH in Hrun as (new & -> & Hnew).
    eexists (_ :: new). split.
    + now rewrite <- app_assoc.
    + constructor; [reflexivity | assumption].
Qed.

Lemma processSummarizeMessages_fallback (sessionId : string)
    (accountId : Z) (w : World) result w' :
  processSummarizeMessages this sessionId accountId w = (Ok result, w') →
  Forall is_fallback result.
Proof.
  unfold processSummarizeMessages, bind, try_finally. intros Hrun.
  destruct (pool_connect w) as [[[]|e] w1]; [|discriminate].
  destruct (client_select _ w1) as [[messages|e] w2]; [|discriminate].
  destruct (summarize_rows _ _ _ _ w2) as [[r|e] w3] eqn:Hrows;
    [|discriminate].
  injection Hrun as <- <-.
  apply summarize_rows_fallback in Hrows as (new & -> & Hnew).
  exact Hnew.
Qed.
End FallbackRun.

Lemma fallback_summary_not_urgent `{Engine} (item : SummaryItem.t) :
  SummaryItem.summary item
  = getMockSummary (SummaryItem.original_message item) →
  is_urgent item = false.
Proof.
  intros Hs. unfold is_urgent. rewrite Hs.
  destruct (getMockSummary_priority (SummaryItem.original_message item))
    as [-> | ->],
    (getMockSummary_sentiment (SummaryItem.original_message item))
    as [-> | ->]; reflexivity.
Qed.

(** Fallback summaries are objects, and none of them is urgent. *)
Lemma fallback_summaries `{Engine} (summaries : list SummaryItem.pushed) :
  Forall is_fallback summaries →
  all_objects summaries = true
  ∧ Forall (λ item, SummaryItem.summary item
                    = getMockSummary (SummaryItem.original_message item))
           (readable summaries)
  ∧ List.filter is_urgent (readable summaries) = [].
Proof.
  induction 1 as [|summary rest Hs _ (IHa & IHf & IHu)].
  - repeat split. constructor.
  - destruct summary as [uuid body parsed]. unfold is_fallback in Hs.
    cbn in Hs. subst parsed.
    split; [exact IHa|]. cbn [readable SummaryItem.parsed SummaryItem.summary
      SummaryItem.message_uuid SummaryItem.original_message].
    split; [constructor; [reflexivity | exact IHf]|].
    cbn [List.filter]. rewrite fallback_summary_not_urgent by reflexivity.
    exact IHu.
Qed.

(** C10: for every message body [getMockSummary] gives priority medium or
    high and sentiment neutral or negative, never urgent; so the summaries
    of a summarization run without a completion client yield no
    escalation. *)
Theorem C10_fallback_run_has_no_escalation :
  ∀ (E : Engine) (model : string) (sessionId : string) (accountId : Z)
    (w : World) (summaries : list SummaryItem.pushed) (w' : World),
    processSummarizeMessages (mkService None model) sessionId accountId w
    = (Ok summaries, w') →
    (∀ messageText,
        (Summary.priority (getMockSummary messageText) = "medium"
         ∨ Summary.priority (getMockSummary messageText) = "high")
        ∧ (Summary.sentiment (getMockSummary messageText) = "neutral"
           ∨ Summary.sentiment (getMockSummary messageText) = "negative")
        ∧ Summary.priority (getMockSummary messageText) ≠ "urgent"
        ∧ Summary.sentiment (getMockSummary messageText) ≠ "urgent")
    ∧ Forall (λ item,
                SummaryItem.summary item
                = Parsed.object
                    (getMockSummary (SummaryItem.original_message item)))
             summaries
    ∧ ∀ w2, processHostEscalations sessionId summaries w2 = (Ok [], w2).
Proof.
  intros E model sessionId accountId w summaries w' Hrun.
  apply processSummarizeMessages_fallback in Hrun; [|reflexivity].
  split; [|split].
  - intros messageText.
    pose proof (getMockSummary_priority messageText) as Hp.
    pose proof (getMockSummary_sentiment messageText) as Hs.
    repeat split; try assumption.
    + destruct Hp as [-> | ->]; discriminate.
    + destruct Hs as [-> | ->]; discriminate.
  - exact Hrun.
  - intros w2. unfold processHostEscalations.
    rewrite escalate_summaries_spec.
    destruct (fallback_summaries summaries Hrun) as (-> & _ & ->).
    reflexivity.
Qed.

(** The three messages of the demo session, summarised without a client. *)
Lemma C10_fallback_run_has_no_escalation_witness :
  ∃ summaries w',
    processSummarizeMessages fallback_service "S1" 1 demo_world
    = (Ok summaries, w')
    ∧ length summaries = 3%nat
    ∧ processHostEscalations "S1" summaries w' = (Ok [], w').
Proof.
  eexists _, _. split; [vm_compute; reflexivity|]. split; [reflexivity|].
  eapply (C10_fallback_run_has_no_escalation ascii_engine "gpt-4o-mini"
            "S1" 1 demo_world).
  vm_compute. reflexivity.
Defined.

(** ** C1 *)

Lemma needsTask_priority (item : SummaryItem.t) :
  Summary.priority (SummaryItem.summary item) ≠ "maintenance" →
  Summary.priority (SummaryItem.summary item) ≠ "cleaning" →
  Summary.priority (SummaryItem.summary item) ≠ "urgent" →
  needsTask item = false.
Proof.
  intros Hm Hc Hu. unfold needsTask, Array_includes, existsb.
  apply not_eq_sym, String.eqb_neq in Hm, Hc, Hu.
  rewrite Hm, Hc, Hu. apply andb_false_r.
Qed.

(** C1, on the code: [needsTask] looks up the summary's priority, not its
    category, in [maintenance, cleaning, urgent]. A summary whose priority
    is none of these three words creates no task, whatever its category: in
    particular the summary of "The wifi is broken" (actionRequired true,
    category maintenance, priority medium). *)
Theorem C1_no_task_without_listed_priority :
  ∀ (E : Engine) (sessionId : string) (item : SummaryItem.t) (w : World),
    Summary.priority (SummaryItem.summary item) ≠ "maintenance" →
    Summary.priority (SummaryItem.summary item) ≠ "cleaning" →
    Summary.priority (SummaryItem.summary item) ≠ "urgent" →
    sandbox_tasks_table
      (db (snd (createStaffTasks sessionId [SummaryItem.push item] w)))
    = sandbox_tasks_table (db w)
    ∧ (∀ tasks,
          fst (createStaffTasks sessionId [SummaryItem.push item] w)
          = Ok tasks →
          tasks = [])
    ∧ (faults w = [] →
       fst (createStaffTasks sessionId [SummaryItem.push item] w) = Ok []).
Proof.
  intros E sessionId item w Hm Hc Hu.
  pose proof (needsTask_priority item Hm Hc Hu) as Hneeds.
  unfold createStaffTasks, bind, try_finally, pool_connect, bind,
    store_operation.
  cbn [create_tasks]. rewrite parsed_push. unfold bind, read, ret.
  rewrite Hneeds. cbn [negb].
  destruct (faults w) as [|[] rest]; simpl; repeat split;
    try reflexivity; try discriminate; intros tasks Htasks;
    now injection Htasks as <-.
Qed.

(** The summary of "The wifi is broken" in the demo session. *)
Lemma C1_no_task_without_listed_priority_witness :
  Summary.actionRequired (SummaryItem.summary maintenance_item) = true
  ∧ Summary.category (SummaryItem.summary maintenance_item) = "maintenance"
  ∧ fst (createStaffTasks "S1" [SummaryItem.push maintenance_item]
           demo_world) = Ok []
  ∧ sandbox_tasks_table
      (db (snd (createStaffTasks "S1" [SummaryItem.push maintenance_item]
                  demo_world))) = [].
Proof.
  destruct (C1_no_task_without_listed_priority ascii_engine "S1"
              maintenance_item demo_world)
    as (Htable & _ & Hok); try (vm_compute; discriminate).
  split; [reflexivity|]. split; [reflexivity|].
  split; [apply Hok; reflexivity | exact Htable].
Defined.

(** ** C8 *)

Lemma count_if_app {A} (p : A → bool) (l1 l2 : list A) :
  count_if p (l1 ++ l2) = (count_if p l1 + count_if p l2)%nat.
Proof. unfold count_if. now rewrite List.filter_app, length_app. Qed.

Lemma count_if_Permutation {A} (p : A → bool) (l1 l2 : list A) :
  l1 ≡ₚ l2 → count_if p l1 = count_if p l2.
Proof.
  unfold count_if.
  induction 1 as [|x l1 l2 _ IH|x y l|l1 l2 l3 _ IH1 _ IH2]; simpl.
  - reflexivity.
  - destruct (p x); simpl; now rewrite IH.
  - destruct (p x), (p y); reflexivity.
  - now rewrite IH1.
Qed.

Lemma count_if_filter {A} (p q : A → bool) (l : list A) :
  count_if p (List.filter q l) = count_if (λ x, q x && p x) l.
Proof.
  unfold count_if. induction l as [|x l IH]; simpl; [reflexivity|].
  destruct (q x); simpl; [destruct (p x); simpl|]; now rewrite IH.
Qed.

Lemma count_if_map {A B} (f : A → B) (p : B → bool) (l : list A) :
  count_if p (map f l) = count_if (λ x, p (f x)) l.
Proof.
  unfold count_if. induction l as [|x l IH]; simpl; [reflexivity|].
  destruct (p (f x)); simpl; now rewrite IH.
Qed.

Lemma count_if_ext {A} (p q : A → bool) (l : list A) :
  (∀ x, p x = q x) → count_if p l = count_if q l.
Proof.
  intros Hpq. unfold count_if. now rewrite (List.filter_ext p q Hpq).
Qed.

Lemma count_if_le {A} (p q : A → bool) (l : list A) :
  (∀ x, p x = true → q x = true) → (count_if p l ≤ count_if q l)%nat.
Proof.
  intros Hpq. unfold count_if. induction l as [|x l IH]; simpl; [lia|].
  destruct (p x) eqn:Hp.
  - rewrite (Hpq x Hp). simpl. lia.
  - destruct (q x); simpl; lia.
Qed.

Lemma count_if_pos {A} (p : A → bool) (l : list A) (x : A) :
  In x l → p x = true → (0 < count_if p l)%nat.
Proof.
  intros Hin Hp. unfold count_if.
  assert (Hx : In x (List.filter p l)) by now apply filter_In.
  destruct (List.filter p l); [destruct Hx | simpl; lia].
Qed.

(** When exactly one row of [l] satisfies [p] and [x] is that row, the rows
    that satisfy [p] and [q] are counted by [q x]. *)
Lemma count_if_unique {A} (p q : A → bool) (l : list A) (x : A) :
  In x l → p x = true → count_if p l = 1%nat →
  count_if (λ y, p y && q y) l = if q x then 1%nat else 0%nat.
Proof.
  unfold count_if. induction l as [|y l IH]; intros Hin Hp Hone.
  - destruct Hin.
  - simpl in *. destruct Hin as [-> | Hin].
    + rewrite Hp in *. simpl in *.
      assert (Hnone : List.filter p l = []).
      { destruct (List.filter p l); [reflexivity | simpl in Hone; lia]. }
      assert (Hsub : List.filter (λ y, p y && q y) l = []).
      { pose proof (count_if_le (λ y, p y && q y) p l) as Hle.
        unfold count_if in Hle. rewrite Hnone in Hle.
        destruct (List.filter (λ y, p y && q y) l); [reflexivity|].
        simpl in Hle.
        assert (S (length l0) ≤ 0)%nat; [|lia].
        apply Hle. intros z Hz. now apply andb_true_iff in Hz as [? _]. }
      rewrite Hsub. destruct (q x); reflexivity.
    + destruct (p y) eqn:Hpy; simpl in *.
      * exfalso. pose proof (count_if_pos p l x Hin Hp) as Hpos.
        unfold count_if in Hpos. lia.
      * now apply IH.
Qed.

(** The test [hoursSinceCreated > 2] is the test that more than 7,200,000
    milliseconds have passed. *)
Lemma hoursSinceCreated_gt_2 (now : Z) (task : sandbox_tasks.row) :
  Q_gt (hoursSinceCreated now task) 2
  = (7200000 <? now - sandbox_tasks.created_at task).
Proof.
  unfold Q_gt, hoursSinceCreated, Qle_bool. simpl.
  destruct (Z.ltb_spec 7200000 (now - sandbox_tasks.created_at task));
    [apply negb_true_iff, Z.leb_gt | apply negb_false_iff, Z.leb_le]; lia.
Qed.

Lemma follow_up_tasks_spec (rows : list sandbox_tasks.row) :
  ∀ (followUps : list FollowUp.t) (w : World),
    follow_up_tasks rows followUps w
    = (Ok (followUps ++
           map (λ t, reminder t (hoursSinceCreated (clock w) t))
               (List.filter (needs_follow_up (clock w)) rows)), w).
Proof.
  induction rows as [|t rest IH]; intros followUps w; simpl.
  - unfold ret. now rewrite app_nil_r.
  - unfold bind, Date_now. fold (needs_follow_up (clock w) t).
    destruct (needs_follow_up (clock w) t); rewrite IH; [|reflexivity].
    simpl. now rewrite <- app_assoc.
Qed.

Lemma evaluateTaskStatus_db (sessionId : string) (w : World) :
  db (snd (evaluateTaskStatus sessionId w)) = db w.
Proof.
  unfold evaluateTaskStatus, bind, try_finally.
  pose proof (pool_connect_db w) as H1.
  destruct (pool_connect w) as [[[]|e] w1]; simpl in *; [|assumption].
  pose proof (client_select_db (tasksQuery sessionId) w1) as H2.
  destruct (client_select _ w1) as [[rows|e] w2]; simpl in *;
    [|congruence].
  rewrite follow_up_tasks_spec. simpl. congruence.
Qed.

Lemma evaluateTaskStatus_no_fault (sessionId : string) (w : World) :
  faults w = [] →
  fst (evaluateTaskStatus sessionId w)
  = Ok (map (λ t, reminder t (hoursSinceCreated (clock w) t))
            (List.filter (needs_follow_up (clock w))
                         (tasksQuery sessionId (db w)))).
Proof.
  intros Hf.
  unfold evaluateTaskStatus, bind, try_finally.
  rewrite pool_connect_no_fault by assumption.
  rewrite client_select_no_fault by assumption.
  rewrite follow_up_tasks_spec. reflexivity.
Qed.

Lemma reminders_of_task (sessionId : string) (now : Z) (s : Store)
    (t : sandbox_tasks.row) :
  In t (sandbox_tasks_table s) →
  sandbox_tasks.sandbox_session_id t = sessionId →
  count_if (is_task sessionId (sandbox_tasks.task_uuid t))
           (sandbox_tasks_table s) = 1%nat →
  count_if (λ f, FollowUp.task_uuid f === sandbox_tasks.task_uuid t)
    (map (λ t, reminder t (hoursSinceCreated now t))
         (List.filter (needs_follow_up now) (tasksQuery sessionId s)))
  = if needs_follow_up now t then 1%nat else 0%nat.
Proof.
  intros Hin Hsession Hunique.
  rewrite count_if_map, count_if_filter. unfold tasksQuery.
  rewrite (count_if_Permutation _ _ _ (merge_sort_Permutation _ _)).
  rewrite count_if_filter.
  rewrite (count_if_ext _
             (λ y, is_task sessionId (sandbox_tasks.task_uuid t) y
                   && (Array_includes ["pending"; "in-progress"]
                         (sandbox_tasks.status y)
                       && needs_follow_up now y))).
  - rewrite (count_if_unique _ _ _ t Hin); [|
      unfold is_task; rewrite Hsession, !String.eqb_refl; reflexivity |
      assumption ].
    unfold needs_follow_up.
    destruct (sandbox_tasks.status t === "pending") eqn:Hs.
    + apply String.eqb_eq in Hs. rewrite Hs. simpl.
      now rewrite andb_true_r.
    + now rewrite andb_false_r, andb_false_r.
  - intros y. unfold tasksQuery_where, is_task, reminder.
    cbn [FollowUp.task_uuid].
    destruct (sandbox_tasks.sandbox_session_id y === sessionId),
      (Array_includes ["pending"; "in-progress"] (sandbox_tasks.status y)),
      (needs_follow_up now y),
      (sandbox_tasks.task_uuid y === sandbox_tasks.task_uuid t);
      reflexivity.
Qed.

(** C8: [evaluateTaskStatus] never changes the store. When no store
    operation fails it returns the reminders of the open tasks of the
    session, oldest first, that are pending and more than two hours
    (7,200,000 ms) old at the time of the run. For a task whose identity no
    other row of the session carries: exactly one reminder when it is
    pending and older than two hours; none when it is pending and at most
    two hours old (one hour, say); none when it is in progress, whatever
    its age. *)
Theorem C8_reminders_for_stale_pending_tasks :
  ∀ (sessionId : string) (w : World),
    db (snd (evaluateTaskStatus sessionId w)) = db w
    ∧ (faults w = [] →
       ∃ followUps,
         fst (evaluateTaskStatus sessionId w) = Ok followUps
         ∧ followUps
           = map (λ t, reminder t (hoursSinceCreated (clock w) t))
               (List.filter (needs_follow_up (clock w))
                            (tasksQuery sessionId (db w)))
         ∧ ∀ t,
             In t (sandbox_tasks_table (db w)) →
             sandbox_tasks.sandbox_session_id t = sessionId →
             count_if (is_task sessionId (sandbox_tasks.task_uuid t))
                      (sandbox_tasks_table (db w)) = 1%nat →
             let reminders :=
               count_if
                 (λ f, FollowUp.task_uuid f === sandbox_tasks.task_uuid t)
                 followUps in
             (sandbox_tasks.status t = "pending" →
              2 * 3600000 < clock w - sandbox_tasks.created_at t →
              reminders = 1%nat
              ∧ In (reminder t (hoursSinceCreated (clock w) t)) followUps)
             ∧ (sandbox_tasks.status t = "pending" →
                clock w - sandbox_tasks.created_at t ≤ 2 * 3600000 →
                reminders = 0%nat)
             ∧ (sandbox_tasks.status t = "in-progress" →
                reminders = 0%nat)).
Proof.
  intros sessionId w. split; [apply evaluateTaskStatus_db|].
  intros Hf. eexists. split; [now apply evaluateTaskStatus_no_fault|].
  split; [reflexivity|].
  intros t Hin Hsession Hunique reminders. subst reminders.
  rewrite (reminders_of_task sessionId (clock w) (db w) t Hin Hsession Hunique).
  assert (Hnf : needs_follow_up (clock w) t
                = (7200000 <? clock w - sandbox_tasks.created_at t)
                  && (sandbox_tasks.status t === "pending")).
  { unfold needs_follow_up. now rewrite hoursSinceCreated_gt_2. }
  split; [|split].
  - intros Hs Hage.
    assert (Htrue : needs_follow_up (clock w) t = true).
    { rewrite Hnf, Hs.
      destruct (Z.ltb_spec 7200000 (clock w - sandbox_tasks.created_at t));
        [reflexivity | lia]. }
    rewrite Htrue. split; [reflexivity|].
    apply in_map with (f := λ t, reminder t (hoursSinceCreated (clock w) t)).
    apply filter_In. split; [|exact Htrue].
    unfold tasksQuery.
    apply (Permutation_in _ (Permutation_sym (merge_sort_Permutation _ _))).
    apply filter_In. split; [assumption|].
    unfold tasksQuery_where. rewrite Hsession, Hs, String.eqb_refl.
    reflexivity.
  - intros _ Hage. rewrite Hnf.
    destruct (Z.ltb_spec 7200000 (clock w - sandbox_tasks.created_at t));
      [lia | reflexivity].
  - intros Hs. rewrite Hnf, Hs. now rewrite andb_false_r.
Qed.

(** Three open tasks at noon: only the one pending since 9:00 is reminded. *)
Lemma C8_reminders_for_stale_pending_tasks_witness :
  ∃ followUps,
    fst (evaluateTaskStatus "S1" tasks_world) = Ok followUps
    ∧ map FollowUp.task_uuid followUps = ["T1"]
    ∧ count_if (λ f, FollowUp.task_uuid f === "T1") followUps = 1%nat
    ∧ count_if (λ f, FollowUp.task_uuid f === "T2") followUps = 0%nat
    ∧ count_if (λ f, FollowUp.task_uuid f === "T3") followUps = 0%nat.
Proof.
  destruct (C8_reminders_for_stale_pending_tasks "S1" tasks_world)
    as [_ Hrun].
  destruct (Hrun eq_refl) as (followUps & Hok & Heq & Htasks).
  exists followUps. split; [exact Hok|]. split; [rewrite Heq; reflexivity|].
  assert (Hin : ∀ t, In t (tail (sandbox_tasks_table (db tasks_world)))
                     ∨ t = task "T1" "pending" (9 * 3600000) →
                     In t (sandbox_tasks_table (db tasks_world))).
  { intros t [Ht | ->]; simpl in *; tauto. }
  split; [|split].
  - destruct (Htasks (task "T1" "pending" (9 * 3600000)))
      as (Hstale & _ & _); [apply Hin; now right | reflexivity..|].
    apply Hstale; [reflexivity | vm_compute; reflexivity].
  - destruct (Htasks (task "T2" "pending" (11 * 3600000)))
      as (_ & Hyoung & _);
      [apply Hin; left; simpl; auto | reflexivity..|].
    apply Hyoung; [reflexivity | vm_compute; discriminate].
  - destruct (Htasks (task "T3" "in-progress" (7 * 3600000)))
      as (_ & _ & Hopen);
      [apply Hin; left; simpl; auto | reflexivity..|].
    apply Hopen. reflexivity.
Defined.

(** ** The summarization stage on a world without pending faults *)

Lemma add_processing_nil (s : Store) : add_processing s [] = s.
Proof. destruct s. unfold add_processing. simpl. now rewrite app_nil_r. Qed.

Section SummarizationRun.
Context `{Engine}.
Variable this : SandboxAIService.

(** A summary is always produced: a completion failure falls back to the
    deterministic summarizer. Only the request counter may change. *)
Lemma generateMessageSummary_returns (context : Context.t)
    (message : Message.t) (w : World) :
  ∃ summary w',
    generateMessageSummary this context message w = (Ok summary, w')
    ∧ db w' = db w ∧ faults w' = faults w ∧ clock w' = clock w
    ∧ clients w' = clients w ∧ draws w' = draws w.
Proof.
  unfold generateMessageSummary.
  destruct (openai this) as [client|].
  - unfold bind, next_completion, ret.
    destruct (OpenAI.summary_completion client _ _ _);
      eexists _, _; repeat split.
  - eexists _, _; repeat split.
Qed.

Lemma summarize_rows_no_fault (sessionId : string)
    (rows : list Message.t) :
  ∀ (summaries : list SummaryItem.pushed) (w : World),
    faults w = [] →
    ∃ sums w',
      summarize_rows this sessionId rows summaries w
      = (Ok (summaries ++ zip_with summary_item rows sums), w')
      ∧ length sums = length rows
      ∧ db w'
        = add_processing (db w)
            (zip_with (record_of this sessionId (db w) (clock w)) rows sums)
      ∧ faults w' = [] ∧ clock w' = clock w ∧ clients w' = clients w.
Proof.
  induction rows as [|message rest IH]; intros summaries w Hf.
  - exists [], w. simpl. rewrite app_nil_r, add_processing_nil.
    repeat split; assumption.
  - simpl. unfold bind at 1.
    rewrite client_select_no_fault by assumption.
    set (context := buildMessageContext message _).
    destruct (generateMessageSummary_returns context message w)
      as (summary & w1 & Hgen & Hdb1 & Hf1 & Hc1 & Hcl1 & _).
    unfold bind at 1. rewrite Hgen.
    unfold bind at 1.
    rewrite client_insert_no_fault by congruence.
    set (w2 := set_db _ w1).
    destruct (IH (summaries ++ [summary_item message summary]) w2)
      as (sums & w' & Hrun & Hlen & Hdb & Hf' & Hc' & Hcl');
      [subst w2; simpl; congruence|].
    exists (summary :: sums), w'. split; [|split; [|split]].
    + etransitivity; [exact Hrun|].
      simpl. now rewrite <- app_assoc.
    + simpl. now rewrite Hlen.
    + rewrite Hdb. subst w2. simpl.
      unfold insert_sandbox_ai_processing, add_processing. simpl.
      rewrite Hdb1, Hc1, <- app_assoc. reflexivity.
    + subst w2. simpl in *. repeat split; congruence.
Qed.

Lemma processSummarizeMessages_no_fault (sessionId : string)
    (accountId : Z) (w : World) :
  faults w = [] →
  ∃ sums w',
    processSummarizeMessages this sessionId accountId w
    = (Ok (zip_with summary_item (messagesQuery sessionId (db w)) sums),
       w')
    ∧ length sums = length (messagesQuery sessionId (db w))
    ∧ db w'
      = add_processing (db w)
          (zip_with (record_of this sessionId (db w) (clock w))
                    (messagesQuery sessionId (db w)) sums)
    ∧ faults w' = [] ∧ clock w' = clock w ∧ clients w' = clients w.
Proof.
  intros Hf. unfold processSummarizeMessages, bind, try_finally.
  rewrite pool_connect_no_fault by assumption.
  rewrite client_select_no_fault by assumption.
  destruct (summarize_rows_no_fault sessionId
              (messagesQuery sessionId (db w)) []
              (set_clients (S (clients w)) w) Hf)
    as (sums & w' & Hrun & Hlen & Hdb & Hf' & Hc' & Hcl').
  simpl in Hrun, Hdb, Hc', Hcl'. cbn [db set_clients]. rewrite Hrun.
  exists sums, (client_release w'). repeat split; try assumption.
  simpl. now rewrite Hcl'.
Qed.
End SummarizationRun.

(** ** C2 *)

Lemma existsb_count_if {A} (p : A → bool) (l : list A) :
  existsb p l = negb (Nat.eqb (count_if p l) 0).
Proof.
  unfold count_if. induction l as [|x l IH]; simpl; [reflexivity|].
  destruct (p x); simpl; [reflexivity | exact IH].
Qed.

Lemma count_if_false {A} (p : A → bool) (l : list A) :
  (∀ x, p x = false) → count_if p l = 0%nat.
Proof.
  intros Hp. unfold count_if. induction l as [|x l IH]; simpl;
    [reflexivity|]. now rewrite Hp.
Qed.

Lemma count_if_records (this : SandboxAIService) (sessionId uuid : string)
    (s : Store) (now : Z) (rows : list Message.t) :
  ∀ sums, length sums = length rows →
    count_if (is_completed_summarization sessionId uuid)
             (zip_with (record_of this sessionId s now) rows sums)
    = count_if (λ m, Message.message_uuid m === uuid) rows.
Proof.
  unfold count_if.
  induction rows as [|m rows IH]; intros [|x sums] Hlen;
    try discriminate; [reflexivity|].
  simpl. unfold is_completed_summarization at 1. simpl.
  rewrite String.eqb_refl. simpl.
  injection Hlen as Hlen.
  destruct (Message.message_uuid m === uuid); simpl; now rewrite IH.
Qed.

Lemma count_if_summary_items (uuid : string) (rows : list Message.t) :
  ∀ sums, length sums = length rows →
    emitted_for uuid (zip_with summary_item rows sums)
    = count_if (λ m, Message.message_uuid m === uuid) rows.
Proof.
  unfold emitted_for, count_if.
  induction rows as [|m rows IH]; intros [|x sums] Hlen;
    try discriminate; [reflexivity|].
  simpl. injection Hlen as Hlen.
  destruct (Message.message_uuid m === uuid); simpl; now rewrite IH.
Qed.

Lemma messagesQuery_join_ml (s : Store) (sessionId : string)
    (ml : message_log.row) :
  is_Some (sandbox_sessions_table s !! sessionId) →
  ∃ m, messagesQuery_join s sessionId ml = Some m ∧ Message.ml m = ml.
Proof.
  intros [ss Hss]. unfold messagesQuery_join. rewrite Hss.
  eexists; split; reflexivity.
Qed.

Lemma count_if_joined (s : Store) (sessionId uuid : string)
    (l : list message_log.row) :
  is_Some (sandbox_sessions_table s !! sessionId) →
  count_if (λ m, Message.message_uuid m === uuid)
           (omap (messagesQuery_join s sessionId) l)
  = count_if (λ ml, message_log.message_uuid ml === uuid) l.
Proof.
  intros Hss. unfold count_if.
  induction l as [|ml l IH]; [reflexivity|].
  destruct (messagesQuery_join_ml s sessionId ml Hss) as (m & Hj & Hm).
  cbn [omap list_omap List.filter]. rewrite Hj.
  cbn [List.filter]. unfold Message.message_uuid at 1. rewrite Hm.
  destruct (message_log.message_uuid ml === uuid); simpl; now rewrite IH.
Qed.

(** How many rows of the work set carry a message identity. *)
Lemma count_if_messagesQuery (s : Store) (sessionId uuid : string) :
  is_Some (sandbox_sessions_table s !! sessionId) →
  count_if (λ m, Message.message_uuid m === uuid)
           (messagesQuery sessionId s)
  = if summarization_completed s sessionId uuid then 0%nat
    else count_if (is_inbound_message sessionId uuid) (message_log_table s).
Proof.
  intros Hss. unfold messagesQuery.
  rewrite (count_if_Permutation _ _ _ (merge_sort_Permutation _ _)).
  rewrite count_if_joined by assumption.
  rewrite count_if_filter.
  destruct (summarization_completed s sessionId uuid) eqn:Hdone.
  - apply count_if_false. intros ml. unfold messagesQuery_where.
    destruct (message_log.message_uuid ml === uuid) eqn:Hu;
      [|apply andb_false_r].
    apply String.eqb_eq in Hu. rewrite Hu, Hdone. simpl.
    now rewrite andb_false_r.
  - apply count_if_ext. intros ml.
    unfold messagesQuery_where, is_inbound_message.
    destruct (message_log.message_uuid ml === uuid) eqn:Hu;
      [|now rewrite !andb_false_r].
    apply String.eqb_eq in Hu. rewrite Hu, Hdone. simpl.
    now rewrite andb_true_r.
Qed.

Lemma completed_summarizations_add (s : Store) (sessionId uuid : string)
    (records : list sandbox_ai_processing.row) :
  completed_summarizations (add_processing s records) sessionId uuid
  = (completed_summarizations s sessionId uuid
     + count_if (is_completed_summarization sessionId uuid) records)%nat.
Proof. unfold completed_summarizations. simpl. apply count_if_app. Qed.

(** C2: a message identity carried by exactly one inbound sandbox message
    of an existing session, with at most one completed summarization record
    so far. Two runs of [processSummarizeMessages] in sequence, no store
    operation failing, both return; afterwards there is exactly one
    completed summarization record for the message, at most one summary was
    emitted for it over both runs (exactly one, in the first run, when it
    had no record), the work set of the second run does not hold it, and
    the second run emits no summary and inserts no record for it. *)
Theorem C2_summarize_twice_one_record :
  ∀ (E : Engine) (this : SandboxAIService) (sessionId : string)
    (accountId : Z) (w : World) (uuid : string),
    faults w = [] →
    is_Some (sandbox_sessions_table (db w) !! sessionId) →
    count_if (is_inbound_message sessionId uuid) (message_log_table (db w))
    = 1%nat →
    (completed_summarizations (db w) sessionId uuid ≤ 1)%nat →
    ∃ summaries1 w1 summaries2 w2,
      processSummarizeMessages this sessionId accountId w
      = (Ok summaries1, w1)
      ∧ processSummarizeMessages this sessionId accountId w1
        = (Ok summaries2, w2)
      ∧ completed_summarizations (db w2) sessionId uuid = 1%nat
      ∧ (emitted_for uuid summaries1 + emitted_for uuid summaries2 ≤ 1)%nat
      ∧ (completed_summarizations (db w) sessionId uuid = 0%nat →
         emitted_for uuid summaries1 = 1%nat)
      ∧ count_if (λ m, Message.message_uuid m === uuid)
                 (messagesQuery sessionId (db w1)) = 0%nat
      ∧ emitted_for uuid summaries2 = 0%nat
      ∧ completed_summarizations (db w2) sessionId uuid
        = completed_summarizations (db w1) sessionId uuid.
Proof.
  intros E this sessionId accountId w uuid Hf Hsession Hunique Hledger.
  destruct (processSummarizeMessages_no_fault this sessionId accountId w Hf)
    as (sums1 & w1 & Hrun1 & Hlen1 & Hdb1 & Hf1 & _).
  destruct (processSummarizeMessages_no_fault this sessionId accountId w1 Hf1)
    as (sums2 & w2 & Hrun2 & Hlen2 & Hdb2 & _).
  assert (Hsession1 : is_Some (sandbox_sessions_table (db w1) !! sessionId))
    by now rewrite Hdb1.
  (* what the first run adds for the message *)
  pose proof (count_if_messagesQuery (db w) sessionId uuid Hsession) as Hwork1.
  unfold summarization_completed in Hwork1.
  rewrite existsb_count_if in Hwork1.
  fold (completed_summarizations (db w) sessionId uuid) in Hwork1.
  rewrite Hunique in Hwork1.
  assert (Hcount1 : completed_summarizations (db w1) sessionId uuid = 1%nat).
  { rewrite Hdb1, completed_summarizations_add, count_if_records, Hwork1
      by assumption.
    destruct (completed_summarizations (db w) sessionId uuid) as [|[|n]];
      simpl; lia. }
  (* the second run finds the record *)
  pose proof (count_if_messagesQuery (db w1) sessionId uuid Hsession1)
    as Hwork2.
  unfold summarization_completed in Hwork2.
  rewrite existsb_count_if in Hwork2.
  fold (completed_summarizations (db w1) sessionId uuid) in Hwork2.
  rewrite Hcount1 in Hwork2. simpl in Hwork2.
  assert (Hcount2 : completed_summarizations (db w2) sessionId uuid = 1%nat).
  { rewrite Hdb2, completed_summarizations_add, count_if_records, Hwork2
      by assumption. lia. }
  exists (zip_with summary_item (messagesQuery sessionId (db w)) sums1), w1,
    (zip_with summary_item (messagesQuery sessionId (db w1)) sums2), w2.
  rewrite !count_if_summary_items by assumption.
  rewrite Hwork1, Hwork2.
  repeat split; try assumption; try congruence.
  - destruct (completed_summarizations (db w) sessionId uuid) as [|[|n]];
      simpl; lia.
  - intros ->. reflexivity.
Qed.

(** Message M2 of the demo session, summarised twice. *)
Lemma C2_summarize_twice_one_record_witness :
  ∃ summaries1 w1 summaries2 w2,
    processSummarizeMessages fallback_service "S1" 1 demo_world
    = (Ok summaries1, w1)
    ∧ processSummarizeMessages fallback_service "S1" 1 w1
      = (Ok summaries2, w2)
    ∧ completed_summarizations (db w2) "S1" "M2" = 1%nat
    ∧ (emitted_for "M2" summaries1 + emitted_for "M2" summaries2 ≤ 1)%nat.
Proof.
  destruct (C2_summarize_twice_one_record ascii_engine fallback_service
              "S1" 1 demo_world "M2")
    as (s1 & w1 & s2 & w2 & H1 & H2 & Hone & Hmost & _).
  - reflexivity.
  - vm_compute. eauto.
  - vm_compute. reflexivity.
  - vm_compute. lia.
  - exists s1, w1, s2, w2. auto.
Defined.

(** ** C4 *)

#[local] Instance timestamp_asc_transitive : Transitive timestamp_asc.
Proof. unfold timestamp_asc. intros x y z. lia. Qed.
#[local] Instance timestamp_asc_total : Total timestamp_asc.
Proof. unfold timestamp_asc. intros x y. lia. Qed.
#[local] Instance timestamp_desc_transitive : Transitive timestamp_desc.
Proof. unfold timestamp_desc. intros x y z. lia. Qed.
#[local] Instance timestamp_desc_total : Total timestamp_desc.
Proof. unfold timestamp_desc. intros x y. lia. Qed.

(** The work set is in ascending order of time. *)
Lemma messagesQuery_sorted (sessionId : string) (s : Store) :
  StronglySorted timestamp_asc (messagesQuery sessionId s).
Proof. unfold messagesQuery. apply StronglySorted_merge_sort; apply _. Qed.

(** What the history query returns: at most ten rows, all strictly earlier,
    the most recent first, and every earlier message left out is at most as
    recent as every row returned. *)
Lemma historyQuery_spec (sessionId : string) (before : Z) (s : Store) :
  let history := historyQuery sessionId before s in
  (length history ≤ 10)%nat
  ∧ Forall (λ h, HistoryRow.timestamp h < before) history
  ∧ StronglySorted timestamp_desc history
  ∧ ∃ older,
      history ++ older
      ≡ₚ map historyQuery_select (earlier_messages sessionId before s)
      ∧ (∀ x y, In x history → In y older →
                HistoryRow.timestamp y <= HistoryRow.timestamp x)
      ∧ ((length (earlier_messages sessionId before s) ≤ 10)%nat →
         older = []).
Proof.
  unfold historyQuery. fold (earlier_messages sessionId before s).
  set (rows := map historyQuery_select (earlier_messages sessionId before s)).
  set (sorted := merge_sort timestamp_desc rows).
  assert (Hperm : sorted ≡ₚ rows) by apply merge_sort_Permutation.
  assert (Hsorted : StronglySorted timestamp_desc sorted)
    by (apply StronglySorted_merge_sort; apply _).
  rewrite <- (take_drop 10 sorted) in Hsorted.
  simpl. split; [|split; [|split]].
  - rewrite length_take. lia.
  - apply Forall_take. rewrite Hperm. subst rows.
    apply List.Forall_forall. intros h Hh.
    apply in_map_iff in Hh as (ml & <- & Hml).
    unfold earlier_messages in Hml. apply filter_In in Hml as [_ Hw].
    unfold historyQuery_where in Hw.
    apply andb_true_iff in Hw as [_ Hlt]. simpl. lia.
  - now apply StronglySorted_app_1_l in Hsorted.
  - exists (drop 10 sorted). split; [|split].
    + now rewrite take_drop.
    + intros x y Hx Hy.
      apply (StronglySorted_app_1_elem_of _ _ _ x y Hsorted);
        now apply list_elem_of_In.
    + intros Hle. apply drop_ge.
      rewrite (Permutation_length Hperm). subst rows.
      now rewrite length_map.
Qed.

(** C4 as stated fails: in the session with messages M1, M2, M3 at times
    100 < 200 < 300, the history recorded for M3 lists time 200 before time
    100; [buildMessageContext] maps over the rows as fetched and does not
    reverse them. *)
Lemma C4_history_is_not_chronological :
  map (λ r, (sandbox_ai_processing.message_uuid r, recorded_history r))
      (sandbox_ai_processing_table
         (db (snd (processSummarizeMessages fallback_service "S1" 1
                     demo_world))))
  = [("M1", []); ("M2", [100]); ("M3", [200; 100])]
  ∧ ¬ StronglySorted Z.le [200; 100].
Proof.
  split; [vm_compute; reflexivity|].
  intros Hs. apply StronglySorted_inv in Hs as [_ Hh].
  apply Forall_inv in Hh. lia.
Qed.

(** C4, amended: when no store operation fails, [processSummarizeMessages]
    returns one summary per row of the work set, and inserts one record per
    row, in the order of the work set, which is ascending in time. The
    context built for a message holds at most ten entries, all from
    messages of the session strictly earlier than the message, the most
    recent first (the order of the fetch, not reversed); every earlier
    message left out is at most as recent as every entry, and none is left
    out when there are at most ten. *)
Theorem C4_ascending_run_descending_history :
  ∀ (E : Engine) (this : SandboxAIService) (sessionId : string)
    (accountId : Z) (w : World),
    faults w = [] →
    let rows := messagesQuery sessionId (db w) in
    ∃ sums w',
      processSummarizeMessages this sessionId accountId w
      = (Ok (zip_with summary_item rows sums), w')
      ∧ length sums = length rows
      ∧ db w'
        = add_processing (db w)
            (zip_with (record_of this sessionId (db w) (clock w)) rows sums)
      ∧ StronglySorted timestamp_asc rows
      ∧ ∀ m, In m rows →
          let history :=
            Context.conversationHistory
              (buildMessageContext m
                 (historyQuery sessionId (Message.timestamp m) (db w))) in
          let earlier :=
            earlier_messages sessionId (Message.timestamp m) (db w) in
          (length history ≤ 10)%nat
          ∧ Forall (λ h, HistoryEntry.timestamp h < Message.timestamp m)
                   history
          ∧ StronglySorted entry_desc history
          ∧ ∃ older,
              history ++ older
              ≡ₚ map (λ ml, history_entry (historyQuery_select ml)) earlier
              ∧ (∀ x y, In x history → In y older →
                        HistoryEntry.timestamp y <= HistoryEntry.timestamp x)
              ∧ ((length earlier ≤ 10)%nat → older = []).
Proof.
  intros E this sessionId accountId w Hf rows.
  destruct (processSummarizeMessages_no_fault this sessionId accountId w Hf)
    as (sums & w' & Hrun & Hlen & Hdb & _).
  exists sums, w'. split; [exact Hrun|]. split; [exact Hlen|].
  split; [exact Hdb|]. split; [apply messagesQuery_sorted|].
  intros m _ history earlier. subst history earlier.
  destruct (historyQuery_spec sessionId (Message.timestamp m) (db w))
    as (Hten & Hbefore & Hdesc & older & Hperm & Hcut & Hall).
  cbn [buildMessageContext Context.conversationHistory].
  split; [|split; [|split]].
  - now rewrite length_map.
  - apply Forall_map. exact Hbefore.
  - apply (StronglySorted_fmap history_entry timestamp_desc entry_desc);
      [|exact Hdesc]. intros x y Hxy. exact Hxy.
  - exists (map history_entry older). split; [|split].
    + rewrite <- map_app, Hperm, map_map. reflexivity.
    + intros x y Hx Hy.
      apply in_map_iff in Hx as (x' & <- & Hx).
      apply in_map_iff in Hy as (y' & <- & Hy).
      exact (Hcut x' y' Hx Hy).
    + intros Hle. now rewrite (Hall Hle).
Qed.

(** The demo session stores M3, M1, M2; the run handles M1, M2, M3. *)
Lemma C4_ascending_run_descending_history_witness :
  ∃ summaries w',
    processSummarizeMessages fallback_service "S1" 1 demo_world
    = (Ok summaries, w')
    ∧ map SummaryItem.message_uuid summaries = ["M1"; "M2"; "M3"].
Proof.
  destruct (C4_ascending_run_descending_history ascii_engine fallback_service
              "S1" 1 demo_world eq_refl)
    as (sums & w' & Hrun & Hlen & _).
  eexists _, w'. split; [exact Hrun|].
  vm_compute in Hlen.
  destruct sums as [|s1 [|s2 [|s3 [|s4 sums]]]]; try discriminate Hlen.
  vm_compute. reflexivity.
Defined.

(** ** The responder *)



Lemma bind_read_object {A B} (a : A) (k : A → M B) (w : World) :
  bind (read (Parsed.object a)) k w = k a w.
Proof. reflexivity. Qed.

Lemma bind_read_null {A B} (k : A → M B) (w : World) :
  bind (read (@Parsed.null A)) k w = (Throw TypeError, w).
Proof. reflexivity. Qed.

Lemma client_insert_cases (q : Z → Store → Store) (w : World) :
  (∃ w', client_insert q w = (Throw DatabaseError, w') ∧ db w' = db w)
  ∨ (∃ w', client_insert q w = (Ok tt, w')
           ∧ db w' = q (clock w) (db w) ∧ clock w' = clock w).
Proof.
  unfold client_insert, bind, store_operation.
  destruct (faults w) as [|[] rest]; simpl; eauto.
Qed.

(** The tables that [getPropertyData] reads are not those the responder
    writes. *)
Lemma propertyQuery_add_replies (sessionId : string) (s : Store)
    (rows : list message_log.row)
    (records : list sandbox_ai_processing.row) :
  propertyQuery sessionId (add_replies s rows records)
  = propertyQuery sessionId s.
Proof. reflexivity. Qed.

Lemma propertyQuery_insert_message_log (sessionId : string)
    (r : Z → Store → message_log.row) (now : Z) (s : Store) :
  propertyQuery sessionId (insert_message_log r now s)
  = propertyQuery sessionId s.
Proof. reflexivity. Qed.

Lemma propertyQuery_insert_processing (sessionId : string)
    (r : Z → sandbox_ai_processing.row) (now : Z) (s : Store) :
  propertyQuery sessionId (insert_sandbox_ai_processing r now s)
  = propertyQuery sessionId s.
Proof. reflexivity. Qed.

Lemma add_replies_nil (s : Store) : add_replies s [] [] = s.
Proof. destruct s. unfold add_replies. simpl. now rewrite !app_nil_r. Qed.

Lemma add_tasks_nil (s : Store) : add_tasks s [] = s.
Proof. destruct s. unfold add_tasks. simpl. now rewrite !app_nil_r. Qed.

Section ResponderRun.
Context `{Engine}.
Variable this : SandboxAIService.

(** On a summary that is an object a reply is always produced: a
    completion failure falls back to the deterministic responder. Only the
    request counter may change. *)
Lemma generateAiResponse_value (item : SummaryItem.t)
    (propertyData : PropertyData.t) (w : World) :
  ∃ w',
    generateAiResponse this (SummaryItem.push item) propertyData w
    = (Ok (response_value this (completions w) item propertyData), w')
    ∧ db w' = db w ∧ faults w' = faults w ∧ clock w' = clock w
    ∧ clients w' = clients w ∧ draws w' = draws w
    ∧ completions w' = (completions w + requests this 1)%nat.
Proof.
  unfold generateAiResponse, response_value, requests.
  rewrite parsed_push.
  destruct (openai this) as [client|]; rewrite bind_read_object.
  - unfold bind, next_completion, ret.
    destruct (OpenAI.response_completion client _ _ _);
      eexists; repeat split; simpl; lia.
  - eexists; repeat split; simpl; lia.
Qed.

(** On a summary that is [null] it throws before any request. *)
Lemma generateAiResponse_null (uuid body : string)
    (propertyData : PropertyData.t) (w : World) :
  generateAiResponse this (null_item uuid body) propertyData w
  = (Throw TypeError, w).
Proof. unfold generateAiResponse. destruct (openai this); reflexivity. Qed.

Lemma response_value_n (n m : nat) (item : SummaryItem.t)
    (propertyData : PropertyData.t) :
  (requests this 1 = 1%nat → n = m) →
  response_value this n item propertyData
  = response_value this m item propertyData.
Proof.
  unfold response_value, requests. destruct (openai this); [|reflexivity].
  intros Hn. now rewrite Hn.
Qed.


(** Every row that the loop adds to [message_log] is sent by ["System"]
    to ["Guest"]. *)
Lemma respond_to_summaries_rows (sessionId : string)
    (summaries : list SummaryItem.pushed) :
  ∀ (responses : list ResponseItem.t) (w : World),
    ∃ new,
      message_log_table
        (db (snd (respond_to_summaries this sessionId summaries responses
                    w)))
      = message_log_table (db w) ++ new
      ∧ Forall (λ r, message_log.from_number r = "System"
                     ∧ message_log.to_number r = "Guest"
                     ∧ message_log.message_type r = "Outbound") new.
Proof.
  induction summaries as [|summary rest IH]; intros responses w.
  - exists []. simpl. now rewrite app_nil_r.
  - cbn [respond_to_summaries].
    destruct (parsed_cases summary) as [(item & -> & ->) | (-> & _)].
    2:{ rewrite bind_read_null. exists []. simpl. now rewrite app_nil_r. }
    rewrite bind_read_object.
    destruct (negb (Summary.actionRequired (SummaryItem.summary item)));
      [apply IH|].
    unfold bind at 1.
    pose proof (client_select_db (propertyQuery sessionId) w) as Hdb1.
    fold (getPropertyData sessionId) in Hdb1.
    destruct (getPropertyData sessionId w) as [[propertyData|e] w1];
      simpl in Hdb1;
      [|exists []; simpl; now rewrite Hdb1, app_nil_r].
    unfold bind at 1.
    destruct (generateAiResponse_value item propertyData w1)
      as (w2 & -> & Hdb2 & _ & Hc2 & _).
    unfold bind at 1. unfold Date_now at 1.
    unfold bind at 1. unfold Math_random_suffix at 1.
    destruct (response_value this (completions w1) item propertyData)
      as [response|].
    2:{ rewrite bind_read_null. exists []. simpl.
        now rewrite Hdb2, Hdb1, app_nil_r. }
    rewrite bind_read_object.
    unfold bind at 1.
    match goal with
    | |- context [client_insert ?q ?w0] =>
        destruct (client_insert_cases q w0)
          as [(w3 & -> & Hdb3) | (w3 & -> & Hdb3 & Hc3)]
    end; simpl in Hdb3.
    { exists []. simpl. now rewrite Hdb3, Hdb2, Hdb1, app_nil_r. }
    unfold bind at 1.
    match goal with
    | |- context [client_insert ?q ?w0] =>
        destruct (client_insert_cases q w0)
          as [(w4 & -> & Hdb4) | (w4 & -> & Hdb4 & Hc4)]
    end.
    { eexists [_]. simpl. rewrite Hdb4, Hdb3. simpl.
      rewrite Hdb2, Hdb1. split; [reflexivity|].
      repeat constructor. }
    match goal with
    | |- context [respond_to_summaries _ _ _ ?rs _] =>
        destruct (IH rs w4) as (new & -> & Hnew)
    end.
    rewrite Hdb4, Hdb3. simpl. rewrite Hdb2, Hdb1.
    eexists (_ :: new). rewrite <- app_assoc. split; [reflexivity|].
    constructor; [|exact Hnew]. repeat constructor.
Qed.

Lemma replies_to_insert (sessionId messageUuid : string)
    (item : SummaryItem.t) (response : Response.t) (now : Z) (s : Store) :
  replies_to
    (insert_message_log
       (response_message sessionId messageUuid item response) now s)
  = replies_to s ++ [SummaryItem.message_uuid item].
Proof. unfold replies_to. simpl. now rewrite omap_app. Qed.

Lemma replies_to_add_replies (sessionId : string) (s s0 : Store) (now : Z)
    (entries : list reply) (records : list sandbox_ai_processing.row) :
  replies_to
    (add_replies s (map (reply_row sessionId s0 now) entries) records)
  = replies_to s ++ map SummaryItem.message_uuid (map reply_summary entries).
Proof.
  unfold replies_to, add_replies. cbn [message_log_table].
  rewrite omap_app. f_equal.
  induction entries as [|e entries IH]; [reflexivity|].
  cbn [map omap list_omap]. cbn. f_equal. exact IH.
Qed.

(** When no store operation fails, every summary is an object and no
    completion parses to [null], every actionable summary gets its reply,
    whether the completion client answers or throws. *)
Lemma respond_to_summaries_no_fault (sessionId : string)
    (items : list SummaryItem.t) :
  answers_with_objects this →
  ∀ (responses : list ResponseItem.t) (w : World),
    faults w = [] →
    ∃ (entries : list reply) w',
      respond_to_summaries this sessionId (map SummaryItem.push items)
        responses w
      = (Ok (responses ++ map reply_item entries), w')
      ∧ faults w' = []
      ∧ map reply_summary entries = List.filter actionable items
      ∧ db w'
        = add_replies (db w)
            (map (reply_row sessionId (db w) (clock w)) entries)
            (map (reply_record this sessionId (clock w)) entries)
      ∧ clock w' = clock w
      ∧ ∀ i e,
          entries !! i = Some e →
          response_value this (completions w + i) (reply_summary e)
            (propertyQuery sessionId (db w))
          = Parsed.object (reply_response e).
Proof.
  intros Hobjects.
  induction items as [|item rest IH]; intros responses w Hf.
  - exists [], w. simpl. rewrite app_nil_r, add_replies_nil.
    repeat split; try assumption. intros i e [=].
  - cbn [map respond_to_summaries List.filter].
    rewrite parsed_push, bind_read_object.
    change (Summary.actionRequired (SummaryItem.summary item))
      with (actionable item).
    destruct (actionable item); cbn [negb]; [|now apply IH].
    unfold bind at 1. unfold getPropertyData.
    rewrite client_select_no_fault by assumption.
    destruct (generateAiResponse_value item
                (propertyQuery sessionId (db w)) w)
      as (w2 & Hgen & Hdb2 & Hf2 & Hc2 & Hcl2 & Hd2 & Hn2).
    unfold bind at 1. rewrite Hgen.
    unfold bind at 1. unfold Date_now at 1.
    unfold bind at 1. unfold Math_random_suffix at 1.
    destruct (response_value this (completions w) item
                (propertyQuery sessionId (db w)))
      as [response|] eqn:Hvalue.
    2:{ exfalso. unfold response_value in Hvalue.
        destruct (openai this) as [client|] eqn:Hclient; [|discriminate].
        destruct (OpenAI.response_completion client _ _ _) as [parsed|]
          eqn:Hparsed; [|discriminate].
        subst parsed. exact (Hobjects _ _ _ _ Hclient Hparsed). }
    rewrite bind_read_object.
    unfold bind at 1.
    rewrite client_insert_no_fault by (simpl; congruence).
    unfold bind at 1.
    rewrite client_insert_no_fault by (simpl; congruence).
    set (uuid := "RESP_" +:+ pretty (clock w2) +:+ "_"
                 +:+ random_suffix (draws w2)).
    set (e := (item, uuid, response) : reply).
    match goal with
    | |- context [respond_to_summaries _ _ _ ?rs ?w0] =>
        destruct (IH rs w0)
          as (entries & w' & Hrun & Hf' & Hall & Hdb & Hc & Hvalues);
          [simpl; congruence|]
    end.
    exists (e :: entries), w'. cbn [map].
    split; [|split; [assumption|split; [now rewrite Hall|split; [|split]]]].
    + etransitivity; [exact Hrun|]. now rewrite <- app_assoc.
    + rewrite Hdb. cbn [db set_db clock].
      unfold insert_sandbox_ai_processing, insert_message_log, add_replies,
        reply_row, reply_record, response_message. simpl.
      rewrite Hdb2, Hc2, <- !app_assoc. reflexivity.
    + rewrite Hc. simpl. exact Hc2.
    + intros [|i] e' He'.
      * injection He' as <-. rewrite Nat.add_0_r. exact Hvalue.
      * specialize (Hvalues i e' He'). cbn [db set_db completions] in Hvalues.
        rewrite propertyQuery_insert_processing,
          propertyQuery_insert_message_log, Hdb2 in Hvalues.
        rewrite <- Hvalues. apply response_value_n.
        intros Hone. rewrite Hn2, Hone. lia.
Qed.

End ResponderRun.

(** ** C5 *)

(** C5, on the code: [summary.original_message] is the body of the inbound
    message, a string, so [summary.original_message.from_number] is
    undefined and every reply goes to ["Guest"], whoever sent the inbound
    message. Every row a responder run adds to [message_log] is an outbound
    row from ["System"] to ["Guest"]; in the session whose messages come
    from ["+15550001"], the three replies and their completed
    [response_generation] records, keyed by the identities of the replies,
    are as listed. *)
Theorem C5_replies_go_to_Guest :
  (∀ (E : Engine) (this : SandboxAIService) (sessionId : string)
     (summaries : list SummaryItem.pushed) (w : World),
      ∃ new,
        message_log_table
          (db (snd (buildAiResponseFromSummaries this sessionId summaries w)))
        = message_log_table (db w) ++ new
        ∧ Forall (λ r, message_log.from_number r = "System"
                       ∧ message_log.to_number r = "Guest"
                       ∧ message_log.message_type r = "Outbound") new)
  ∧ map message_log.from_number (message_log_table demo_store)
    = ["+15550001"; "+15550001"; "+15550001"]
  ∧ (let s := db (snd (runFullAutomation fallback_service "S1" 1 demo_world))
     in
     map (λ r, (message_log.message_uuid r, message_log.from_number r,
                message_log.to_number r))
         (drop 3 (message_log_table s))
     = [("RESP_1000_0", "System", "Guest");
        ("RESP_1000_1", "System", "Guest");
        ("RESP_1000_2", "System", "Guest")]
     ∧ map (λ r, (sandbox_ai_processing.message_uuid r,
                  sandbox_ai_processing.processing_type r,
                  sandbox_ai_processing.processing_status r))
           (drop 3 (sandbox_ai_processing_table s))
       = [("RESP_1000_0", "response_generation", "completed");
          ("RESP_1000_1", "response_generation", "completed");
          ("RESP_1000_2", "response_generation", "completed")]).
Proof.
  split; [|split; [|split]]; try (vm_compute; reflexivity).
  intros E this sessionId summaries w.
  unfold buildAiResponseFromSummaries, bind, try_finally.
  pose proof (pool_connect_db w) as Hdb1.
  destruct (pool_connect w) as [[[]|e] w1]; simpl in Hdb1.
  - destruct (respond_to_summaries_rows this sessionId summaries [] w1)
      as (new & Hlog & Hnew).
    exists new. rewrite <- Hdb1.
    destruct (respond_to_summaries _ _ _ _ w1) as [r w2].
    split; [exact Hlog | exact Hnew].
  - exists []. simpl. rewrite Hdb1, app_nil_r. split; [reflexivity|constructor].
Qed.

(** ** The store operations that a call attempts *)

Lemma Forall_false_not_In (used : list bool) :
  Forall (eq false) used → ¬ In true used.
Proof.
  intros Hall Hin. apply (proj1 (List.Forall_forall _ _) Hall) in Hin.
  discriminate.
Qed.

Lemma first_failure_is_last (front f back : list bool) :
  Forall (eq false) front → front ++ [true] = f ++ true :: back → back = [].
Proof.
  intros Hfront. revert f.
  induction Hfront as [|x front Hx _ IH]; intros [|y f] Heq; cbn in Heq.
  - now injection Heq.
  - injection Heq as _ Heq. now destruct f.
  - subst x. discriminate.
  - injection Heq as _ Heq. exact (IH f Heq).
Qed.

(** A store operation that failed is the last one a call attempted, and
    the call then threw a [DatabaseError]; a call throws a [DatabaseError]
    only then. *)
Lemma stops_at_failure_spec {A} (r : Result A) (used : list bool) :
  stops_at_failure r used →
  (In true used ↔ r = Throw DatabaseError) ∧ fails_last used.
Proof.
  unfold stops_at_failure, fails_last.
  assert (Hnone : Forall (eq false) used →
                  ¬ In true used
                  ∧ ∀ front back, used = front ++ true :: back → back = []).
  { intros Hall. pose proof (Forall_false_not_In used Hall) as Hno.
    split; [exact Hno|]. intros front back ->. exfalso. apply Hno.
    apply in_or_app. right. now left. }
  destruct r as [a|[]].
  - intros Hall. destruct (Hnone Hall) as [Hno Hlast].
    split; [|exact Hlast]. split; [tauto | discriminate].
  - intros (front & -> & Hfront). split.
    + split; [reflexivity|]. intros _. apply in_or_app. right. now left.
    + intros f back Heq. exact (first_failure_is_last front f back Hfront Heq).
  - intros Hall. destruct (Hnone Hall) as [Hno Hlast].
    split; [|exact Hlast]. split; [tauto | discriminate].
Qed.

(** A call that attempts no store operation and throws no
    [DatabaseError]. *)
Lemma disciplined_quiet {A} (m : M A) :
  (∀ w r w', m w = (r, w') → faults w' = faults w ∧ r ≠ Throw DatabaseError) →
  disciplined m.
Proof.
  intros Hm w r w' Hrun. destruct (Hm w r w' Hrun) as [Hf Hr].
  exists []. split; [unfold consumed; now rewrite Hf|].
  destruct r as [a|[]]; cbn; [constructor | congruence | constructor].
Qed.

Lemma disciplined_ret {A} (a : A) : disciplined (ret a).
Proof.
  apply disciplined_quiet. intros w r w' [= <- <-]. split; [reflexivity|].
  discriminate.
Qed.

Lemma disciplined_read {A} (value : Parsed.t A) : disciplined (read value).
Proof.
  apply disciplined_quiet. intros w r w'.
  destruct value; intros [= <- <-]; (split; [reflexivity | discriminate]).
Qed.

Lemma disciplined_Date_now : disciplined Date_now.
Proof.
  apply disciplined_quiet. intros w r w' [= <- <-]. split; [reflexivity|].
  discriminate.
Qed.

Lemma disciplined_Math_random_suffix `{Engine} :
  disciplined Math_random_suffix.
Proof.
  apply disciplined_quiet. intros w r w' [= <- <-]. split; [reflexivity|].
  discriminate.
Qed.

Lemma disciplined_store_operation : disciplined store_operation.
Proof.
  intros w r w'. unfold store_operation, consumed.
  destruct (faults w) as [|[] rest] eqn:Hf; intros [= <- <-]; cbn.
  - exists []. split; [now rewrite Hf|]. constructor.
  - exists [true]. split; [reflexivity|]. exists []. split; [reflexivity|].
    constructor.
  - exists [false]. split; [reflexivity|]. repeat constructor.
Qed.

Lemma disciplined_bind {A B} (m : M A) (k : A → M B) :
  disciplined m → (∀ a, disciplined (k a)) → disciplined (bind m k).
Proof.
  intros Hm Hk w r w'. unfold bind.
  destruct (m w) as [[a|e] w1] eqn:Hrun.
  - intros Hrest.
    destruct (Hm w _ _ Hrun) as (used1 & Hc1 & Hs1).
    destruct (Hk a w1 r w' Hrest) as (used2 & Hc2 & Hs2).
    exists (used1 ++ used2). unfold consumed in *. split.
    + now rewrite Hc1, Hc2, app_assoc.
    + cbn in Hs1. destruct r as [b|[]]; cbn in *.
      * now apply Forall_app.
      * destruct Hs2 as (front & -> & Hfront).
        exists (used1 ++ front). split; [now rewrite app_assoc|].
        now apply Forall_app.
      * now apply Forall_app.
  - intros [= <- <-]. destruct (Hm w _ _ Hrun) as (used & Hc & Hs).
    exists used. split; assumption.
Qed.

Lemma disciplined_map_world {A} (m : M A) (f : World → World) :
  (∀ w, faults (f w) = faults w) →
  disciplined m → disciplined (λ w, let '(r, w') := m w in (r, f w')).
Proof.
  intros Hf Hm w r w'. destruct (m w) as [r1 w1] eqn:Hrun.
  intros [= <- <-]. destruct (Hm w _ _ Hrun) as (used & Hc & Hs).
  exists used. split; [|exact Hs]. unfold consumed in *. now rewrite Hf.
Qed.

Lemma disciplined_try_finally {A} (m : M A) :
  disciplined m → disciplined (try_finally m client_release).
Proof. intros Hm. now apply (disciplined_map_world m client_release). Qed.

Lemma disciplined_pool_connect : disciplined pool_connect.
Proof.
  apply disciplined_bind; [exact disciplined_store_operation|].
  intros []. apply disciplined_quiet. intros w r w' [= <- <-].
  split; [reflexivity | discriminate].
Qed.

Lemma disciplined_client_select {A} (q : Store → A) :
  disciplined (client_select q).
Proof.
  apply disciplined_bind; [exact disciplined_store_operation|].
  intros []. apply disciplined_quiet. intros w r w' [= <- <-].
  split; [reflexivity | discriminate].
Qed.

Lemma disciplined_client_insert (q : Z → Store → Store) :
  disciplined (client_insert q).
Proof.
  apply disciplined_bind; [exact disciplined_store_operation|].
  intros []. apply disciplined_quiet. intros w r w' [= <- <-].
  split; [reflexivity | discriminate].
Qed.

Section Disciplined.
Context `{Engine}.
Variable this : SandboxAIService.

Lemma disciplined_generateAiResponse (summary : SummaryItem.pushed)
    (propertyData : PropertyData.t) :
  disciplined (generateAiResponse this summary propertyData).
Proof.
  apply disciplined_quiet. intros w r w'.
  destruct (parsed_cases summary) as [(item & _ & ->) | (_ & Hnull)].
  - destruct (generateAiResponse_value this item propertyData w)
      as (w2 & -> & _ & Hf & _).
    intros [= <- <-]. split; [exact Hf | discriminate].
  - destruct summary as [uuid body parsed]. cbn in Hnull. subst parsed.
    change (SummaryItem.mk uuid body Parsed.null) with (null_item uuid body).
    rewrite generateAiResponse_null. intros [= <- <-].
    split; [reflexivity | discriminate].
Qed.

Lemma disciplined_respond_to_summaries (sessionId : string)
    (summaries : list SummaryItem.pushed) :
  ∀ responses,
    disciplined (respond_to_summaries this sessionId summaries responses).
Proof.
  induction summaries as [|summary rest IH]; intros responses;
    cbn [respond_to_summaries]; [apply disciplined_ret|].
  apply disciplined_bind; [apply disciplined_read|]. intros item.
  destruct (negb _); [apply IH|].
  apply disciplined_bind; [apply disciplined_client_select|]. intros pd.
  apply disciplined_bind; [apply disciplined_generateAiResponse|].
  intros response.
  apply disciplined_bind; [apply disciplined_Date_now|]. intros now.
  apply disciplined_bind; [apply disciplined_Math_random_suffix|].
  intros suffix. cbv zeta.
  apply disciplined_bind; [apply disciplined_read|]. intros fields.
  apply disciplined_bind; [apply disciplined_client_insert|]. intros _.
  apply disciplined_bind; [apply disciplined_client_insert|]. intros _.
  apply IH.
Qed.

Lemma disciplined_buildAiResponseFromSummaries (sessionId : string)
    (summaries : list SummaryItem.pushed) :
  disciplined (buildAiResponseFromSummaries this sessionId summaries).
Proof.
  apply disciplined_bind; [apply disciplined_pool_connect|]. intros _.
  apply disciplined_try_finally, disciplined_respond_to_summaries.
Qed.
End Disciplined.

(** ** C7 *)




(** * Further properties of the pipeline *)

(** ** Store operations under any fault list *)

Lemma same_but_faults_refl (w : World) : same_but_faults w w.
Proof. repeat split. Qed.

Lemma store_operation_cases (w : World) :
  ∃ w', same_but_faults w w'
        ∧ (store_operation w = (Ok tt, w')
           ∨ store_operation w = (Throw DatabaseError, w')).
Proof.
  unfold store_operation.
  destruct (faults w) as [|[] rest]; eexists; split;
    try (left; reflexivity); try (right; reflexivity); repeat split.
Qed.

Lemma client_select_cases {A} (q : Store → A) (w : World) :
  ∃ w', same_but_faults w w'
        ∧ (client_select q w = (Ok (q (db w)), w')
           ∨ client_select q w = (Throw DatabaseError, w')).
Proof.
  unfold client_select, bind.
  destruct (store_operation_cases w) as (w' & Hsame & [-> | ->]);
    exists w'; split; try assumption; [left | right; reflexivity].
  destruct Hsame as (-> & _). reflexivity.
Qed.

Lemma client_insert_outcomes (q : Z → Store → Store) (w : World) :
  (∃ w', client_insert q w = (Throw DatabaseError, w')
         ∧ same_but_faults w w')
  ∨ (∃ w', client_insert q w = (Ok tt, w')
           ∧ db w' = q (clock w) (db w) ∧ clock w' = clock w
           ∧ draws w' = draws w ∧ completions w' = completions w
           ∧ clients w' = clients w).
Proof.
  unfold client_insert, bind.
  destruct (store_operation_cases w)
    as (w' & (Hdb & Hc & Hd & Hn & Hcl) & [-> | ->]).
  - right. eexists. split; [reflexivity|]. simpl.
    rewrite Hdb, Hc. repeat split; assumption.
  - left. exists w'. split; [reflexivity|]. repeat split; assumption.
Qed.

Lemma pool_connect_cases (w : World) :
  (∃ w', pool_connect w = (Throw DatabaseError, w') ∧ same_but_faults w w')
  ∨ (∃ w', pool_connect w = (Ok tt, w')
           ∧ db w' = db w ∧ clock w' = clock w ∧ draws w' = draws w
           ∧ completions w' = completions w
           ∧ clients w' = S (clients w)).
Proof.
  unfold pool_connect, bind.
  destruct (store_operation_cases w)
    as (w' & (Hdb & Hc & Hd & Hn & Hcl) & [-> | ->]).
  - right. eexists. split; [reflexivity|]. simpl.
    rewrite Hcl. repeat split; assumption.
  - left. exists w'. split; [reflexivity|]. repeat split; assumption.
Qed.

Section SummarizationAnyFaults.
Context `{Engine}.
Variable this : SandboxAIService.

Lemma generateMessageSummary_counts (context : Context.t)
    (message : Message.t) (w : World) :
  ∃ summary w',
    generateMessageSummary this context message w = (Ok summary, w')
    ∧ db w' = db w ∧ faults w' = faults w ∧ clock w' = clock w
    ∧ clients w' = clients w ∧ draws w' = draws w
    ∧ completions w' = (completions w + requests this 1)%nat.
Proof.
  unfold generateMessageSummary, requests.
  destruct (openai this) as [client|].
  - unfold bind, next_completion, ret.
    destruct (OpenAI.summary_completion client _ _ _);
      eexists _, _; repeat split; simpl; lia.
  - eexists _, _; repeat split; simpl; lia.
Qed.

(** The loop of the summarizer under any fault list: it inserts one record
    per message it got through, in order, touches nothing else, and when it
    returns it got through all of them. *)
Lemma summarize_rows_any (sessionId : string) (rows : list Message.t) :
  ∀ (summaries : list SummaryItem.pushed) (w : World) r w',
    summarize_rows this sessionId rows summaries w = (r, w') →
    ∃ sums,
      (length sums ≤ length rows)%nat
      ∧ db w'
        = add_processing (db w)
            (zip_with (record_of this sessionId (db w) (clock w)) rows sums)
      ∧ clock w' = clock w
      ∧ clients w' = clients w
      ∧ ∀ result,
          r = Ok result →
          length sums = length rows
          ∧ result = summaries ++ zip_with summary_item rows sums
          ∧ completions w'
            = (completions w + requests this (length rows))%nat.
Proof.
  induction rows as [|message rest IH]; intros summaries w r w' Hrun.
  - injection Hrun as <- <-.
    exists []. simpl. rewrite add_processing_nil.
    do 4 (split; [reflexivity || lia|]).
    intros result [= <-]. rewrite app_nil_r.
    do 2 (split; [reflexivity|]).
    unfold requests. destruct (openai this); lia.
  - cbn [summarize_rows] in Hrun. unfold bind at 1 in Hrun.
    destruct (client_select_cases
                (historyQuery sessionId (Message.timestamp message)) w)
      as (w1 & (Hdb1 & Hc1 & Hd1 & Hn1 & Hcl1) & [Hsel | Hsel]);
      rewrite Hsel in Hrun.
    2:{ injection Hrun as <- <-.
        exists []. simpl. rewrite add_processing_nil.
        do 4 (split; [assumption || lia|]). intros result [=]. }
    set (context := buildMessageContext message _) in Hrun.
    destruct (generateMessageSummary_counts context message w1)
      as (summary & w2 & Hgen & Hdb2 & _ & Hc2 & Hcl2 & Hd2 & Hn2).
    unfold bind at 1 in Hrun. rewrite Hgen in Hrun.
    unfold bind at 1 in Hrun.
    match type of Hrun with
    | context [client_insert ?q w2] =>
        destruct (client_insert_outcomes q w2)
          as [(w3 & Hins & (Hdb3 & Hc3 & Hd3 & Hn3 & Hcl3))
             | (w3 & Hins & Hdb3 & Hc3 & Hd3 & Hn3 & Hcl3)];
          rewrite Hins in Hrun
    end.
    { injection Hrun as <- <-.
      exists []. simpl. rewrite add_processing_nil.
      do 4 (split; [congruence || lia|]). intros result [=]. }
    apply IH in Hrun as (sums & Hlen & Hdb & Hc & Hcl & Hok).
    exists (summary :: sums). simpl.
    split; [lia|]. split; [|split; [congruence|split; [congruence|]]].
    + rewrite Hdb, Hdb3, Hc3, Hc2, Hc1, Hdb2, Hdb1.
      unfold insert_sandbox_ai_processing, add_processing. simpl.
      rewrite <- app_assoc. reflexivity.
    + intros result Hresult.
      destruct (Hok result Hresult) as (Hlen' & -> & Hcompl).
      split; [lia|]. split; [now rewrite <- app_assoc|].
      rewrite Hcompl, Hn3, Hn2, Hn1. unfold requests.
      destruct (openai this); lia.
Qed.
End SummarizationAnyFaults.

Section ResponderAnyFaults.
Context `{Engine}.
Variable this : SandboxAIService.

(** The loop of the responder, however it ends: replies are written in
    the order of the actionable summaries that can be read, the outbound
    row first and its record second; at most the record of the last reply
    is missing, and none is when the loop returns, which it does only when
    every summary is an object. *)
Lemma respond_to_summaries_any (sessionId : string)
    (summaries : list SummaryItem.pushed) :
  ∀ (responses : list ResponseItem.t) (w : World) r w',
    respond_to_summaries this sessionId summaries responses w = (r, w') →
    ∃ (entries : list reply) (k : nat),
      db w'
      = add_replies (db w)
          (map (reply_row sessionId (db w) (clock w)) entries)
          (map (reply_record this sessionId (clock w)) (take k entries))
      ∧ (k = length entries ∨ S k = length entries)
      ∧ map reply_summary entries
        `prefix_of` List.filter actionable (readable summaries)
      ∧ clock w' = clock w
      ∧ clients w' = clients w
      ∧ ∀ result,
          r = Ok result →
          k = length entries
          ∧ all_objects summaries = true
          ∧ map reply_summary entries
            = List.filter actionable (readable summaries)
          ∧ result = responses ++ map reply_item entries
          ∧ completions w'
            = (completions w + requests this (length entries))%nat.
Proof.
  induction summaries as [|summary rest IH]; intros responses w r w' Hrun.
  - injection Hrun as <- <-. exists [], 0%nat. simpl.
    rewrite add_replies_nil.
    split; [reflexivity|]. split; [now left|]. split; [reflexivity|].
    do 2 (split; [reflexivity|]).
    intros result [= <-]. rewrite app_nil_r.
    do 4 (split; [reflexivity|]).
    unfold requests. destruct (openai this); lia.
  - cbn [respond_to_summaries readable] in *. rewrite all_objects_cons.
    destruct (parsed_cases summary) as [(item & Hp & ->) | (Hp & _)];
      rewrite Hp in *.
    2:{ rewrite bind_read_null in Hrun. injection Hrun as <- <-.
        exists [], 0%nat. simpl. rewrite add_replies_nil.
        split; [reflexivity|]. split; [now left|]. split; [reflexivity|].
        do 2 (split; [reflexivity|]). intros result [=]. }
    rewrite bind_read_object in Hrun. cbn [List.filter].
    change (Summary.actionRequired (SummaryItem.summary item))
      with (actionable item) in Hrun.
    destruct (actionable item); cbn [negb] in Hrun; [|now apply IH].
    unfold bind at 1 in Hrun. unfold getPropertyData in Hrun.
    destruct (client_select_cases (propertyQuery sessionId) w)
      as (w1 & (Hdb1 & Hc1 & Hd1 & Hn1 & Hcl1) & [Hsel | Hsel]);
      rewrite Hsel in Hrun.
    2:{ injection Hrun as <- <-. exists [], 0%nat. simpl.
        rewrite add_replies_nil.
        split; [assumption|]. split; [now left|].
        split; [apply prefix_nil|].
        do 2 (split; [assumption|]). intros result [=]. }
    destruct (generateAiResponse_value this item
                (propertyQuery sessionId (db w)) w1)
      as (w2 & Hgen & Hdb2 & _ & Hc2 & Hcl2 & Hd2 & Hn2).
    unfold bind at 1 in Hrun. rewrite Hgen in Hrun.
    unfold bind at 1 in Hrun. unfold Date_now at 1 in Hrun.
    unfold bind at 1 in Hrun. unfold Math_random_suffix at 1 in Hrun.
    destruct (response_value this (completions w1) item
                (propertyQuery sessionId (db w)))
      as [response|].
    2:{ rewrite bind_read_null in Hrun. injection Hrun as <- <-.
        exists [], 0%nat. simpl. rewrite add_replies_nil.
        split; [congruence|]. split; [now left|].
        split; [apply prefix_nil|].
        do 2 (split; [congruence|]). intros result [=]. }
    rewrite bind_read_object in Hrun.
    unfold bind at 1 in Hrun.
    set (uuid := "RESP_" +:+ pretty (clock w2) +:+ "_"
                 +:+ random_suffix (draws w2)) in Hrun.
    set (e := (item, uuid, response) : reply).
    match type of Hrun with
    | context [client_insert ?q ?w0] =>
        destruct (client_insert_outcomes q w0)
          as [(w3 & Hins & (Hdb3 & Hc3 & Hd3 & Hn3 & Hcl3))
             | (w3 & Hins & Hdb3 & Hc3 & Hd3 & Hn3 & Hcl3)];
          rewrite Hins in Hrun; simpl in Hdb3, Hc3, Hcl3, Hn3
    end.
    { injection Hrun as <- <-. exists [], 0%nat. simpl.
      rewrite add_replies_nil.
      split; [congruence|]. split; [now left|].
      split; [apply prefix_nil|].
      do 2 (split; [congruence|]). intros result [=]. }
    unfold bind at 1 in Hrun.
    match type of Hrun with
    | context [client_insert ?q w3] =>
        destruct (client_insert_outcomes q w3)
          as [(w4 & Hins4 & (Hdb4 & Hc4 & Hd4 & Hn4 & Hcl4))
             | (w4 & Hins4 & Hdb4 & Hc4 & Hd4 & Hn4 & Hcl4)];
          rewrite Hins4 in Hrun
    end.
    { injection Hrun as <- <-. exists [e], 0%nat. simpl.
      split; [|split; [now right|split;
               [apply prefix_cons, prefix_nil|
                split; [congruence|split; [congruence|intros ? [=]]]]]].
      rewrite Hdb4, Hdb3.
      unfold insert_message_log, add_replies, reply_row, response_message.
      simpl. rewrite Hdb2, Hdb1, Hc2, Hc1, app_nil_r. reflexivity. }
    apply IH in Hrun
      as (entries & k & Hdb & Hk & Hprefix & Hc & Hcl & Hok).
    exists (e :: entries), (S k). simpl.
    split; [|split; [lia|split;
             [now apply prefix_cons|
              split; [congruence|split; [congruence|]]]]].
    + rewrite Hdb, Hdb4, Hc4, Hdb3, Hc3.
      unfold insert_sandbox_ai_processing, insert_message_log, add_replies,
        reply_row, reply_record, response_message. simpl.
      rewrite Hdb2, Hdb1, Hc2, Hc1, <- !app_assoc. reflexivity.
    + intros result Hresult.
      destruct (Hok result Hresult) as (-> & Hobj & Hall & -> & Hcompl).
      split; [reflexivity|]. split; [exact Hobj|].
      split; [now rewrite Hall|].
      split; [now rewrite <- app_assoc|].
      rewrite Hcompl, Hn4, Hn3. simpl. rewrite Hn2, Hn1.
      unfold requests. destruct (openai this); lia.
Qed.
End ResponderAnyFaults.

Section TaskGeneratorAnyFaults.
Context `{Engine}.

(** The loop of the task generator, however it ends: one row per summary
    that passes [needsTask], in order, up to the first failed insert, the
    first [null] summary or the first [keyInformation] that is no array. *)
Lemma create_tasks_any (sessionId : string)
    (summaries : list SummaryItem.pushed) :
  ∀ (tasks : list Task.t) (w : World) r w',
    create_tasks sessionId summaries tasks w = (r, w') →
    ∃ entries : list new_task,
      db w'
      = add_tasks (db w) (map (new_task_row sessionId (clock w)) entries)
      ∧ map new_task_summary entries
        `prefix_of` List.filter needsTask (readable summaries)
      ∧ Forall details_determined entries
      ∧ clock w' = clock w
      ∧ clients w' = clients w
      ∧ completions w' = completions w
      ∧ ∀ result,
          r = Ok result →
          all_objects summaries = true
          ∧ map new_task_summary entries
            = List.filter needsTask (readable summaries)
          ∧ result = tasks ++ map new_task_item entries.
Proof.
  induction summaries as [|summary rest IH]; intros tasks w r w' Hrun.
  - injection Hrun as <- <-. exists []. simpl. rewrite add_tasks_nil.
    split; [reflexivity|]. split; [reflexivity|]. split; [constructor|].
    do 3 (split; [reflexivity|]).
    intros result [= <-]. now rewrite app_nil_r.
  - cbn [create_tasks readable] in *. rewrite all_objects_cons.
    destruct (parsed_cases summary) as [(item & Hp & ->) | (Hp & _)];
      rewrite Hp in *.
    2:{ rewrite bind_read_null in Hrun. injection Hrun as <- <-.
        exists []. simpl. rewrite add_tasks_nil.
        split; [reflexivity|]. split; [reflexivity|]. split; [constructor|].
        do 3 (split; [reflexivity|]). intros result [=]. }
    rewrite bind_read_object in Hrun. cbn [List.filter].
    destruct (needsTask item); cbn [negb] in Hrun; [|now apply IH].
    unfold bind at 1 in Hrun. unfold lift at 1 in Hrun.
    destruct (determineTaskDetails (SummaryItem.summary item))
      as [taskDetails|e0] eqn:Hdetails.
    2:{ injection Hrun as <- <-. exists []. simpl. rewrite add_tasks_nil.
        split; [reflexivity|]. split; [apply prefix_nil|].
        split; [constructor|].
        do 3 (split; [reflexivity|]). intros result [=]. }
    unfold bind at 1 in Hrun. unfold Date_now at 1 in Hrun.
    unfold bind at 1 in Hrun. unfold Math_random_suffix at 1 in Hrun.
    unfold bind at 1 in Hrun.
    set (uuid := "TASK_" +:+ pretty (clock w) +:+ "_"
                 +:+ random_suffix (draws w)) in Hrun.
    set (e := (item, uuid, taskDetails) : new_task).
    match type of Hrun with
    | context [client_insert ?q ?w0] =>
        destruct (client_insert_outcomes q w0)
          as [(w3 & Hins & (Hdb3 & Hc3 & Hd3 & Hn3 & Hcl3))
             | (w3 & Hins & Hdb3 & Hc3 & Hd3 & Hn3 & Hcl3)];
          rewrite Hins in Hrun; simpl in Hdb3, Hc3, Hcl3, Hn3
    end.
    { injection Hrun as <- <-. exists []. simpl. rewrite add_tasks_nil.
      split; [assumption|]. split; [apply prefix_nil|].
      split; [constructor|].
      do 3 (split; [assumption|]). intros result [=]. }
    apply IH in Hrun
      as (entries & Hdb & Hprefix & Hdet & Hc & Hcl & Hn & Hok).
    exists (e :: entries). simpl.
    split; [|split; [now apply prefix_cons|split; [now constructor|
             split; [congruence|split; [congruence|split; [congruence|]]]]]].
    + rewrite Hdb, Hdb3, Hc3.
      unfold insert_sandbox_tasks, add_tasks, new_task_row. simpl.
      rewrite <- app_assoc. reflexivity.
    + intros result Hresult.
      destruct (Hok result Hresult) as (Hobj & Hall & ->).
      split; [exact Hobj|].
      split; [now rewrite Hall | now rewrite <- app_assoc].
Qed.
End TaskGeneratorAnyFaults.

(** ** The four stages as a whole, however they end *)

Section StagesAnyFaults.
Context `{Engine}.
Variable this : SandboxAIService.

Lemma processSummarizeMessages_any (sessionId : string) (accountId : Z)
    (w : World) r w' :
  processSummarizeMessages this sessionId accountId w = (r, w') →
  ∃ sums,
    (length sums ≤ length (messagesQuery sessionId (db w)))%nat
    ∧ db w'
      = add_processing (db w)
          (zip_with (record_of this sessionId (db w) (clock w))
                    (messagesQuery sessionId (db w)) sums)
    ∧ clock w' = clock w
    ∧ clients w' = clients w
    ∧ ∀ result,
        r = Ok result →
        length sums = length (messagesQuery sessionId (db w))
        ∧ result
          = zip_with summary_item (messagesQuery sessionId (db w)) sums
        ∧ completions w'
          = (completions w
             + requests this (length (messagesQuery sessionId (db w))))%nat.
Proof.
  unfold processSummarizeMessages, bind, try_finally. intros Hrun.
  destruct (pool_connect_cases w)
    as [(w1 & Hcon & (Hdb1 & Hc1 & Hd1 & Hn1 & Hcl1))
       | (w1 & Hcon & Hdb1 & Hc1 & Hd1 & Hn1 & Hcl1)];
    rewrite Hcon in Hrun.
  { injection Hrun as <- <-. exists []. rewrite zip_with_nil_r.
    rewrite add_processing_nil.
    do 4 (split; [assumption || simpl; lia|]). intros result [=]. }
  destruct (client_select_cases (messagesQuery sessionId) w1)
    as (w2 & (Hdb2 & Hc2 & Hd2 & Hn2 & Hcl2) & [Hsel | Hsel]);
    rewrite Hsel in Hrun.
  2:{ injection Hrun as <- <-. exists []. rewrite zip_with_nil_r.
      rewrite add_processing_nil. simpl.
      split; [lia|]. split; [congruence|]. split; [congruence|].
      split; [rewrite Hcl2, Hcl1; reflexivity|]. intros result [=]. }
  destruct (summarize_rows this sessionId _ [] w2) as [r3 w3] eqn:Hrows.
  injection Hrun as <- <-.
  apply summarize_rows_any in Hrows as (sums & Hlen & Hdb & Hc & Hcl & Hok).
  rewrite Hdb1 in *. exists sums. simpl.
  split; [exact Hlen|]. split; [rewrite Hdb, Hdb2, Hc2, Hc1; reflexivity|].
  split; [congruence|]. split; [rewrite Hcl, Hcl2, Hcl1; reflexivity|].
  intros result ->. destruct (Hok result eq_refl) as (Hall & -> & Hn).
  split; [exact Hall|]. split; [reflexivity|]. rewrite Hn, Hn2, Hn1.
  reflexivity.
Qed.

Lemma buildAiResponseFromSummaries_any (sessionId : string)
    (summaries : list SummaryItem.pushed) (w : World) r w' :
  buildAiResponseFromSummaries this sessionId summaries w = (r, w') →
  ∃ (entries : list reply) (k : nat),
    db w'
    = add_replies (db w)
        (map (reply_row sessionId (db w) (clock w)) entries)
        (map (reply_record this sessionId (clock w)) (take k entries))
    ∧ (k = length entries ∨ S k = length entries)
    ∧ map reply_summary entries
      `prefix_of` List.filter actionable (readable summaries)
    ∧ clock w' = clock w
    ∧ clients w' = clients w
    ∧ ∀ result,
        r = Ok result →
        k = length entries
        ∧ all_objects summaries = true
        ∧ map reply_summary entries
          = List.filter actionable (readable summaries)
        ∧ result = map reply_item entries
        ∧ completions w'
          = (completions w + requests this (length entries))%nat.
Proof.
  unfold buildAiResponseFromSummaries, bind, try_finally. intros Hrun.
  destruct (pool_connect_cases w)
    as [(w1 & Hcon & (Hdb1 & Hc1 & Hd1 & Hn1 & Hcl1))
       | (w1 & Hcon & Hdb1 & Hc1 & Hd1 & Hn1 & Hcl1)];
    rewrite Hcon in Hrun.
  { injection Hrun as <- <-. exists [], 0%nat. simpl.
    rewrite add_replies_nil.
    split; [assumption|]. split; [now left|]. split; [apply prefix_nil|].
    do 2 (split; [assumption|]). intros result [=]. }
  destruct (respond_to_summaries this sessionId summaries [] w1)
    as [r3 w3] eqn:Hloop.
  injection Hrun as <- <-.
  apply respond_to_summaries_any in Hloop
    as (entries & k & Hdb & Hk & Hprefix & Hc & Hcl & Hok).
  exists entries, k. simpl.
  split; [rewrite Hdb, Hdb1, Hc1; reflexivity|]. split; [exact Hk|].
  split; [exact Hprefix|]. split; [congruence|].
  split; [rewrite Hcl, Hcl1; reflexivity|].
  intros result ->.
  destruct (Hok result eq_refl) as (-> & Hobj & Hall & -> & Hn).
  split; [reflexivity|]. split; [exact Hobj|]. split; [exact Hall|].
  split; [reflexivity|]. rewrite Hn, Hn1. reflexivity.
Qed.

Lemma createStaffTasks_any (sessionId : string)
    (summaries : list SummaryItem.pushed) (w : World) r w' :
  createStaffTasks sessionId summaries w = (r, w') →
  ∃ entries : list new_task,
    db w'
    = add_tasks (db w) (map (new_task_row sessionId (clock w)) entries)
    ∧ map new_task_summary entries
      `prefix_of` List.filter needsTask (readable summaries)
    ∧ Forall details_determined entries
    ∧ clock w' = clock w
    ∧ clients w' = clients w
    ∧ completions w' = completions w
    ∧ ∀ result,
        r = Ok result →
        all_objects summaries = true
        ∧ map new_task_summary entries
          = List.filter needsTask (readable summaries)
        ∧ result = map new_task_item entries.
Proof.
  unfold createStaffTasks, bind, try_finally. intros Hrun.
  destruct (pool_connect_cases w)
    as [(w1 & Hcon & (Hdb1 & Hc1 & Hd1 & Hn1 & Hcl1))
       | (w1 & Hcon & Hdb1 & Hc1 & Hd1 & Hn1 & Hcl1)];
    rewrite Hcon in Hrun.
  { injection Hrun as <- <-. exists []. simpl. rewrite add_tasks_nil.
    split; [assumption|]. split; [apply prefix_nil|]. split; [constructor|].
    do 3 (split; [assumption|]). intros result [=]. }
  destruct (create_tasks sessionId summaries [] w1) as [r3 w3] eqn:Hloop.
  injection Hrun as <- <-.
  apply create_tasks_any in Hloop
    as (entries & Hdb & Hprefix & Hdet & Hc & Hcl & Hn & Hok).
  exists entries. simpl.
  split; [rewrite Hdb, Hdb1, Hc1; reflexivity|].
  split; [exact Hprefix|]. split; [exact Hdet|]. split; [congruence|].
  split; [rewrite Hcl, Hcl1; reflexivity|]. split; [congruence|].
  intros result ->. destruct (Hok result eq_refl) as (Hobj & Hall & ->).
  split; [exact Hobj|]. split; [exact Hall | reflexivity].
Qed.

Lemma evaluateTaskStatus_any (sessionId : string) (w : World) r w' :
  evaluateTaskStatus sessionId w = (r, w') →
  db w' = db w ∧ clock w' = clock w ∧ clients w' = clients w
  ∧ completions w' = completions w.
Proof.
  unfold evaluateTaskStatus, bind, try_finally. intros Hrun.
  destruct (pool_connect_cases w)
    as [(w1 & Hcon & (Hdb1 & Hc1 & Hd1 & Hn1 & Hcl1))
       | (w1 & Hcon & Hdb1 & Hc1 & Hd1 & Hn1 & Hcl1)];
    rewrite Hcon in Hrun.
  { injection Hrun as <- <-. repeat split; assumption. }
  destruct (client_select_cases (tasksQuery sessionId) w1)
    as (w2 & (Hdb2 & Hc2 & Hd2 & Hn2 & Hcl2) & [Hsel | Hsel]);
    rewrite Hsel in Hrun.
  - rewrite follow_up_tasks_spec in Hrun. injection Hrun as <- <-. simpl.
    repeat split; try congruence. rewrite Hcl2, Hcl1. reflexivity.
  - injection Hrun as <- <-. simpl.
    repeat split; try congruence. rewrite Hcl2, Hcl1. reflexivity.
Qed.
End StagesAnyFaults.

(** ** The orchestrator as a sequence of stages *)

Section OrchestratorAnyFaults.
Context `{Engine}.
Variable this : SandboxAIService.

(** [runFullAutomation] runs the stages in order and stops at the first
    one that throws. *)
Lemma runFullAutomation_stages (sessionId : string) (accountId : Z)
    (w : World) :
  runFullAutomation this sessionId accountId w
  = match processSummarizeMessages this sessionId accountId w with
    | (Throw e, w1) => (Throw e, w1)
    | (Ok summaries, w1) =>
        match buildAiResponseFromSummaries this sessionId summaries w1 with
        | (Throw e, w2) => (Throw e, w2)
        | (Ok responses, w2) =>
            match createStaffTasks sessionId summaries w2 with
            | (Throw e, w3) => (Throw e, w3)
            | (Ok tasks, w3) =>
                match evaluateTaskStatus sessionId w3 with
                | (Throw e, w4) => (Throw e, w4)
                | (Ok followUps, w4) =>
                    if all_objects summaries
                    then
                      (Ok {| PipelineResult.summaries := summaries;
                             PipelineResult.responses := responses;
                             PipelineResult.tasks := tasks;
                             PipelineResult.followUps := followUps;
                             PipelineResult.escalations :=
                               map escalation
                                   (List.filter is_urgent
                                                (readable summaries));
                             PipelineResult.success := true |}, w4)
                    else (Throw TypeError, w4)
                end
            end
        end
    end.
Proof.
  unfold runFullAutomation, try_catch, bind, throw, processHostEscalations,
    ret.
  destruct (processSummarizeMessages _ _ _ w) as [[summaries|e] w1];
    [|reflexivity].
  destruct (buildAiResponseFromSummaries _ _ _ w1) as [[responses|e] w2];
    [|reflexivity].
  destruct (createStaffTasks _ _ w2) as [[tasks|e] w3]; [|reflexivity].
  destruct (evaluateTaskStatus _ w3) as [[followUps|e] w4]; [|reflexivity].
  rewrite escalate_summaries_spec.
  destruct (all_objects summaries); reflexivity.
Qed.

(** What one run of the pipeline does to the world, whether it returns or
    throws. *)
Lemma runFullAutomation_any (sessionId : string) (accountId : Z)
    (w : World) r w' :
  runFullAutomation this sessionId accountId w = (r, w') →
  ∃ (sums : list (Parsed.t Summary.t)) (entries : list reply) (k : nat)
    (created : list new_task),
    let rows := messagesQuery sessionId (db w) in
    let summaries := zip_with summary_item rows sums in
    db w'
    = after_run (db w)
        (zip_with (record_of this sessionId (db w) (clock w)) rows sums)
        (map (reply_row sessionId (db w) (clock w)) entries)
        (map (reply_record this sessionId (clock w)) (take k entries))
        (map (new_task_row sessionId (clock w)) created)
    ∧ clock w' = clock w
    ∧ clients w' = clients w
    ∧ (length sums ≤ length rows)%nat
    ∧ (k = length entries ∨ S k = length entries)
    ∧ map reply_summary entries
      `prefix_of` List.filter actionable (readable summaries)
    ∧ map new_task_summary created
      `prefix_of` List.filter needsTask (readable summaries)
    ∧ Forall details_determined created
    ∧ ∀ result,
        r = Ok result →
        length sums = length rows
        ∧ k = length entries
        ∧ all_objects summaries = true
        ∧ map reply_summary entries
          = List.filter actionable (readable summaries)
        ∧ map new_task_summary created
          = List.filter needsTask (readable summaries)
        ∧ PipelineResult.summaries result = summaries
        ∧ PipelineResult.responses result = map reply_item entries
        ∧ PipelineResult.tasks result = map new_task_item created
        ∧ PipelineResult.escalations result
          = map escalation (List.filter is_urgent (readable summaries))
        ∧ PipelineResult.success result = true
        ∧ completions w'
          = (completions w
             + requests this (length rows + length entries))%nat.
Proof.
  rewrite runFullAutomation_stages. intros Hrun.
  destruct (processSummarizeMessages this sessionId accountId w)
    as [r1 w1] eqn:H1.
  apply processSummarizeMessages_any in H1
    as (sums & Hlen & Hdb1 & Hc1 & Hcl1 & Hok1).
  destruct r1 as [summaries|e].
  2:{ injection Hrun as <- <-. exists sums, [], 0%nat, []. cbn zeta.
      unfold after_run. cbn [map take]. rewrite add_replies_nil, add_tasks_nil.
      split; [exact Hdb1|]. do 2 (split; [assumption|]).
      split; [exact Hlen|]. split; [now left|].
      do 2 (split; [apply prefix_nil|]). split; [constructor|].
      intros result [=]. }
  destruct (Hok1 summaries eq_refl) as (Hall & -> & Hn1).
  set (rows := messagesQuery sessionId (db w)) in *.
  set (summaries := zip_with summary_item rows sums) in *.
  destruct (buildAiResponseFromSummaries this sessionId summaries w1)
    as [r2 w2] eqn:H2.
  apply buildAiResponseFromSummaries_any in H2
    as (entries & k & Hdb2 & Hk & Hp2 & Hc2 & Hcl2 & Hok2).
  assert (Hdb2' : db w2
            = add_replies (db w1)
                (map (reply_row sessionId (db w) (clock w)) entries)
                (map (reply_record this sessionId (clock w)) (take k entries))).
  { rewrite Hdb2, Hc1, Hdb1. reflexivity. }
  clear Hdb2.
  destruct r2 as [responses|e].
  2:{ injection Hrun as <- <-. exists sums, entries, k, []. cbn zeta.
      unfold after_run. cbn [map]. rewrite add_tasks_nil.
      split; [now rewrite Hdb2', Hdb1|].
      split; [congruence|]. split; [congruence|].
      split; [exact Hlen|]. split; [exact Hk|]. split; [exact Hp2|].
      split; [apply prefix_nil|]. split; [constructor|].
      intros result [=]. }
  destruct (Hok2 responses eq_refl) as (-> & Hobj & Hall2 & -> & Hn2).
  destruct (createStaffTasks sessionId summaries w2) as [r3 w3] eqn:H3.
  apply createStaffTasks_any in H3
    as (created & Hdb3 & Hp3 & Hdet & Hc3 & Hcl3 & Hn3 & Hok3).
  assert (Hdb3' : db w3
            = after_run (db w)
                (zip_with (record_of this sessionId (db w) (clock w))
                          rows sums)
                (map (reply_row sessionId (db w) (clock w)) entries)
                (map (reply_record this sessionId (clock w))
                     (take (length entries) entries))
                (map (new_task_row sessionId (clock w)) created)).
  { rewrite Hdb3, Hc2, Hc1, Hdb2', Hdb1. reflexivity. }
  clear Hdb3.
  destruct r3 as [tasks|e].
  2:{ injection Hrun as <- <-. exists sums, entries, (length entries), created.
      cbn zeta. split; [exact Hdb3'|].
      split; [congruence|]. split; [congruence|].
      split; [exact Hlen|]. split; [now left|]. split; [exact Hp2|].
      split; [exact Hp3|]. split; [exact Hdet|]. intros result [=]. }
  destruct (Hok3 tasks eq_refl) as (_ & Hall3 & ->).
  destruct (evaluateTaskStatus sessionId w3) as [r4 w4] eqn:H4.
  apply evaluateTaskStatus_any in H4 as (Hdb4 & Hc4 & Hcl4 & Hn4).
  rewrite Hobj in Hrun.
  exists sums, entries, (length entries), created. cbn zeta.
  assert (Hw' : db w' = db w4 ∧ clock w' = clock w4 ∧ clients w' = clients w4
                ∧ completions w' = completions w4)
    by (destruct r4; injection Hrun as <- <-; auto).
  destruct Hw' as (-> & -> & -> & Hn').
  split; [now rewrite Hdb4|]. split; [congruence|]. split; [congruence|].
  split; [exact Hlen|]. split; [now left|]. split; [exact Hp2|].
  split; [exact Hp3|]. split; [exact Hdet|].
  intros result ->. destruct r4 as [followUps|e]; [|discriminate].
  injection Hrun as <- _. cbn.
  do 10 (split; [assumption || reflexivity|]).
  rewrite Hn', Hn4, Hn3, Hn2, Hn1. unfold requests.
  destruct (openai this); lia.
Qed.
End OrchestratorAnyFaults.
(** ** Extra properties: resources, writes and requests *)

Lemma Forall_zip_with_any {A B C} (P : C → Prop) (f : A → B → C)
    (l : list A) (k : list B) :
  (∀ x y, P (f x y)) → Forall P (zip_with f l k).
Proof.
  intros Hf. revert k.
  induction l as [|x l IH]; intros [|y k]; simpl; constructor; auto.
Qed.

Lemma Forall_map_any {A B} (P : B → Prop) (f : A → B) (l : list A) :
  (∀ x, P (f x)) → Forall P (map f l).
Proof. intros Hf. induction l; simpl; constructor; auto. Qed.

Lemma take_prefix_of {A} (k : nat) (l : list A) : take k l `prefix_of` l.
Proof. exists (drop k l). now rewrite take_drop. Qed.

(** X1: every method that checks a client out of the pool gives it back:
    after [processSummarizeMessages], [buildAiResponseFromSummaries],
    [createStaffTasks], [evaluateTaskStatus] and [runFullAutomation] the
    number of checked-out clients is what it was before the call, whether
    the call returns or throws, whichever store operation fails and
    whatever the completions parse to. *)
Theorem X1_clients_are_released :
  ∀ (E : Engine) (this : SandboxAIService) (sessionId : string)
    (accountId : Z) (summaries : list SummaryItem.pushed) (w : World),
    clients (processSummarizeMessages this sessionId accountId w).2
    = clients w
    ∧ clients (buildAiResponseFromSummaries this sessionId summaries w).2
      = clients w
    ∧ clients (createStaffTasks sessionId summaries w).2 = clients w
    ∧ clients (evaluateTaskStatus sessionId w).2 = clients w
    ∧ clients (runFullAutomation this sessionId accountId w).2 = clients w.
Proof.
  intros E this sessionId accountId summaries w.
  split; [|split; [|split; [|split]]].
  - destruct (processSummarizeMessages _ _ _ w) as [r w'] eqn:Hrun.
    apply processSummarizeMessages_any in Hrun as (? & _ & _ & _ & Hcl & _).
    exact Hcl.
  - destruct (buildAiResponseFromSummaries _ _ _ w) as [r w'] eqn:Hrun.
    apply buildAiResponseFromSummaries_any in Hrun
      as (? & ? & _ & _ & _ & _ & Hcl & _).
    exact Hcl.
  - destruct (createStaffTasks _ _ w) as [r w'] eqn:Hrun.
    apply createStaffTasks_any in Hrun as (? & _ & _ & _ & _ & Hcl & _).
    exact Hcl.
  - destruct (evaluateTaskStatus _ w) as [r w'] eqn:Hrun.
    apply evaluateTaskStatus_any in Hrun as (_ & _ & Hcl & _). exact Hcl.
  - destruct (runFullAutomation _ _ _ w) as [r w'] eqn:Hrun.
    apply runFullAutomation_any in Hrun
      as (? & ? & ? & ? & _ & _ & Hcl & _).
    exact Hcl.
Qed.

(** X2: one run of [runFullAutomation] for a session only appends: it
    leaves [sandbox_sessions], [properties] and [faqs] as they were, keeps
    every existing row of [message_log], [sandbox_ai_processing] and
    [sandbox_tasks] in place, and every row it adds carries the session of
    the run: outbound sandbox messages, completed records, pending tasks.
    This holds whether the run returns or throws. *)
Theorem X2_run_only_appends_rows_of_its_session :
  ∀ (E : Engine) (this : SandboxAIService) (sessionId : string)
    (accountId : Z) (w : World),
    let s := db w in
    let s' := db (runFullAutomation this sessionId accountId w).2 in
    sandbox_sessions_table s' = sandbox_sessions_table s
    ∧ properties_table s' = properties_table s
    ∧ faqs_table s' = faqs_table s
    ∧ ∃ messages records tasks,
        message_log_table s' = message_log_table s ++ messages
        ∧ sandbox_ai_processing_table s'
          = sandbox_ai_processing_table s ++ records
        ∧ sandbox_tasks_table s' = sandbox_tasks_table s ++ tasks
        ∧ Forall (λ r, message_log.sandbox_session_id r = Some sessionId
                       ∧ message_log.is_sandbox r = true
                       ∧ message_log.message_type r = "Outbound") messages
        ∧ Forall (λ r, sandbox_ai_processing.sandbox_session_id r = sessionId
                       ∧ sandbox_ai_processing.processing_status r
                         = "completed") records
        ∧ Forall (λ t, sandbox_tasks.sandbox_session_id t = sessionId
                       ∧ sandbox_tasks.status t = "pending") tasks.
Proof.
  intros E this sessionId accountId w s s'. subst s s'.
  destruct (runFullAutomation _ _ _ w) as [r w'] eqn:Hrun.
  apply runFullAutomation_any in Hrun
    as (sums & entries & k & created & Hdb & _).
  cbn zeta in Hdb. cbn [snd]. rewrite Hdb.
  unfold after_run, add_tasks, add_replies, add_processing.
  cbn [sandbox_sessions_table properties_table faqs_table message_log_table
       sandbox_ai_processing_table sandbox_tasks_table].
  do 3 (split; [reflexivity|]).
  eexists _, (_ ++ _), _.
  split; [reflexivity|]. split; [now rewrite app_assoc|].
  split; [reflexivity|]. split; [|split].
  - apply Forall_map_any. intros e. repeat split.
  - apply Forall_app. split.
    + apply Forall_zip_with_any. intros m x. split; reflexivity.
    + apply Forall_map_any. intros e. split; reflexivity.
  - apply Forall_map_any. intros e. split; reflexivity.
Qed.

(** X3: a run of [runFullAutomation] that returns has sent exactly one
    completion request per summary and one per reply when a completion
    client is configured, and none when [openai] is null. *)
Theorem X3_one_completion_request_per_summary_and_reply :
  ∀ (E : Engine) (this : SandboxAIService) (sessionId : string)
    (accountId : Z) (w : World) (result : PipelineResult.t) (w' : World),
    runFullAutomation this sessionId accountId w = (Ok result, w') →
    completions w'
    = (completions w
       + match openai this with
         | Some _ => length (PipelineResult.summaries result)
                     + length (PipelineResult.responses result)
         | None => 0
         end)%nat.
Proof.
  intros E this sessionId accountId w result w' Hrun.
  apply runFullAutomation_any in Hrun
    as (sums & entries & k & created & _ & _ & _ & _ & _ & _ & _ & _ & Hok).
  destruct (Hok result eq_refl)
    as (Hlen & _ & _ & _ & _ & -> & -> & _ & _ & _ & ->).
  unfold requests. rewrite length_zip_with_l_eq, length_map by congruence.
  reflexivity.
Qed.

(** The demo session with a client configured: three summaries and three
    replies cost six requests. *)
Lemma X3_one_completion_request_per_summary_and_reply_witness :
  ∃ result w',
    runFullAutomation failing_client_service "S1" 1 demo_world
    = (Ok result, w')
    ∧ completions w' = 6%nat.
Proof.
  destruct (runFullAutomation failing_client_service "S1" 1 demo_world)
    as [[result|e] w'] eqn:Hrun; [|vm_compute in Hrun; discriminate].
  exists result, w'. split; [reflexivity|].
  rewrite (X3_one_completion_request_per_summary_and_reply ascii_engine
             failing_client_service "S1" 1 demo_world result w' Hrun).
  vm_compute in Hrun. injection Hrun as <- _. reflexivity.
Defined.

(** X4: replies and their ledger records stay paired. However the call
    ends, [buildAiResponseFromSummaries] adds outbound rows to
    [message_log] and [response_generation] records to
    [sandbox_ai_processing] such that the records carry, in order, the
    identities of the first rows; at most the last row has no record, and
    none lacks one when the method returns, in which case the identities
    returned are those of the rows and every actionable summary has its
    row. The rows answer, in order, the actionable summaries that come
    before the first [null] summary. *)
Theorem X4_replies_and_records_are_paired :
  ∀ (E : Engine) (this : SandboxAIService) (sessionId : string)
    (summaries : list SummaryItem.pushed) (w : World),
    let run := buildAiResponseFromSummaries this sessionId summaries w in
    ∃ rows records,
      message_log_table (db run.2) = message_log_table (db w) ++ rows
      ∧ sandbox_ai_processing_table (db run.2)
        = sandbox_ai_processing_table (db w) ++ records
      ∧ map sandbox_ai_processing.message_uuid records
        `prefix_of` map message_log.message_uuid rows
      ∧ (length rows ≤ S (length records))%nat
      ∧ Forall (λ r, sandbox_ai_processing.processing_type r
                     = "response_generation"
                     ∧ sandbox_ai_processing.processing_status r
                       = "completed") records
      ∧ omap (λ r, fst <$> message_log.sandbox_metadata r) rows
        `prefix_of` map SummaryItem.message_uuid
                        (List.filter actionable (readable summaries))
      ∧ ∀ result,
          run.1 = Ok result →
          length records = length rows
          ∧ all_objects summaries = true
          ∧ map ResponseItem.message_uuid result
            = map message_log.message_uuid rows
          ∧ omap (λ r, fst <$> message_log.sandbox_metadata r) rows
            = map SummaryItem.message_uuid
                  (List.filter actionable (readable summaries)).
Proof.
  intros E this sessionId summaries w run. subst run.
  destruct (buildAiResponseFromSummaries _ _ _ w) as [r w'] eqn:Hrun.
  apply buildAiResponseFromSummaries_any in Hrun
    as (entries & k & Hdb & Hk & Hprefix & _ & _ & Hok).
  cbn [fst snd]. rewrite Hdb. unfold add_replies.
  cbn [message_log_table sandbox_ai_processing_table].
  eexists _, _. do 2 (split; [reflexivity|]).
  assert (Hgen : ∀ l : list reply,
             omap (λ r, fst <$> message_log.sandbox_metadata r)
                  (map (reply_row sessionId (db w) (clock w)) l)
             = map SummaryItem.message_uuid (map reply_summary l)).
  { induction l as [|e l IH]; [reflexivity|].
    cbn [map omap list_omap]. cbn. f_equal. exact IH. }
  assert (Hrec : ∀ l : list reply,
             map sandbox_ai_processing.message_uuid
                 (map (reply_record this sessionId (clock w)) l)
             = map reply_uuid l).
  { intros l. rewrite map_map. reflexivity. }
  assert (Hrow : ∀ l : list reply,
             map message_log.message_uuid
                 (map (reply_row sessionId (db w) (clock w)) l)
             = map reply_uuid l).
  { intros l. rewrite map_map. reflexivity. }
  rewrite Hrec, Hrow, Hgen, !length_map.
  split; [|split; [|split; [|split]]].
  - change (map reply_uuid (take k entries))
      with (reply_uuid <$> take k entries).
    rewrite fmap_take. apply take_prefix_of.
  - rewrite length_take. lia.
  - apply Forall_map_any. intros e. split; reflexivity.
  - destruct Hprefix as [rest Hrest]. rewrite Hrest, map_app.
    now exists (map SummaryItem.message_uuid rest).
  - intros result ->.
    destruct (Hok result eq_refl) as (-> & Hobj & Hall & -> & _).
    rewrite firstn_all, Hall, map_map. repeat split. exact Hobj.
Qed.

(** X5: [createStaffTasks] adds to [sandbox_tasks] one row per summary
    that passes [needsTask], in order, up to the first failed insert, the
    first [null] summary or the first such summary whose [keyInformation]
    is no array, and nothing else. Every row it adds is pending, has no
    property, records the message it comes from, takes its type and
    assignee from what [determineTaskDetails] returns, and has one of the
    priorities [maintenance], [cleaning], [urgent]: the only ones
    [needsTask] lets through. When the method returns, every such summary
    has its row and the tasks returned carry the identities of the
    rows. *)
Theorem X5_task_rows :
  ∀ (E : Engine) (sessionId : string) (summaries : list SummaryItem.pushed)
    (w : World),
    let run := createStaffTasks sessionId summaries w in
    message_log_table (db run.2) = message_log_table (db w)
    ∧ sandbox_ai_processing_table (db run.2)
      = sandbox_ai_processing_table (db w)
    ∧ ∃ rows,
        sandbox_tasks_table (db run.2) = sandbox_tasks_table (db w) ++ rows
        ∧ map sandbox_tasks.created_from_message_uuid rows
          `prefix_of` map SummaryItem.message_uuid
                          (List.filter needsTask (readable summaries))
        ∧ Forall (λ t,
                    sandbox_tasks.status t = "pending"
                    ∧ sandbox_tasks.property_id t = None
                    ∧ sandbox_tasks.sandbox_session_id t = sessionId
                    ∧ sandbox_tasks.created_at t = clock w
                    ∧ In (sandbox_tasks.priority t)
                         ["maintenance"; "cleaning"; "urgent"]
                    ∧ ∃ details,
                        determineTaskDetails (sandbox_tasks.metadata t)
                        = Ok details
                        ∧ sandbox_tasks.task_type t
                          = TaskDetails.type details
                        ∧ sandbox_tasks.assignee_name t
                          = TaskDetails.assignee_name details)
                 rows
        ∧ ∀ result,
            run.1 = Ok result →
            all_objects summaries = true
            ∧ map sandbox_tasks.created_from_message_uuid rows
              = map SummaryItem.message_uuid
                    (List.filter needsTask (readable summaries))
            ∧ map Task.task_uuid result = map sandbox_tasks.task_uuid rows
            ∧ map (λ task, Ok (Task.details task)) result
              = map (λ t, determineTaskDetails (sandbox_tasks.metadata t))
                    rows.
Proof.
  intros E sessionId summaries w run. subst run.
  destruct (createStaffTasks _ _ w) as [r w'] eqn:Hrun.
  apply createStaffTasks_any in Hrun
    as (created & Hdb & Hprefix & Hdet & _ & _ & _ & Hok).
  cbn [fst snd]. rewrite Hdb. unfold add_tasks.
  cbn [message_log_table sandbox_ai_processing_table sandbox_tasks_table].
  do 2 (split; [reflexivity|]).
  eexists. split; [reflexivity|].
  assert (Hneeds : Forall (λ e : new_task,
                             needsTask (new_task_summary e) = true) created).
  { assert (Hall : Forall (λ item, needsTask item = true)
                          (map new_task_summary created)).
    { destruct Hprefix as [rest Hrest].
      assert (Hf : Forall (λ item, needsTask item = true)
                          (List.filter needsTask (readable summaries))).
      { apply List.Forall_forall. intros x Hx.
        now apply filter_In in Hx as [_ Hx]. }
      rewrite Hrest in Hf. now apply Forall_app in Hf as [Hf _]. }
    clear -Hall. induction created as [|e l IH]; [constructor|].
    inversion Hall; subst. constructor; auto. }
  rewrite !map_map. cbn [new_task_row task_row
    sandbox_tasks.created_from_message_uuid].
  split; [|split].
  - destruct Hprefix as [rest Hrest]. rewrite Hrest, map_app.
    rewrite map_map. now exists (map SummaryItem.message_uuid rest).
  - clear -Hneeds Hdet.
    induction Hneeds as [|e l He _ IH]; [constructor|].
    inversion Hdet as [|? ? Hd Hdl]; subst.
    cbn [map]. constructor; [|exact (IH Hdl)].
    cbn. do 4 (split; [reflexivity|]). split.
    + unfold needsTask in He. apply andb_true_iff in He as [_ He].
      unfold Array_includes in He.
      apply existsb_exists in He as (p & Hp & He).
      apply String.eqb_eq in He. now subst.
    + exists (new_task_details e). split; [exact Hd|]. split; reflexivity.
  - intros result ->. destruct (Hok result eq_refl) as (Hobj & Hall & ->).
    rewrite <- Hall, !map_map. split; [exact Hobj|].
    do 2 (split; [reflexivity|]).
    clear -Hdet. induction Hdet as [|e l Hd _ IH]; [reflexivity|].
    cbn [map]. rewrite IH. f_equal. cbn. symmetry. exact Hd.
Qed.

(** ** Extra properties: running the pipeline again *)

Lemma nothing_to_summarize_nil (sessionId : string) (s : Store) :
  nothing_to_summarize sessionId s → messagesQuery sessionId s = [].
Proof.
  intros [Hnone | Hall]; unfold messagesQuery.
  - assert (Hjoin : ∀ l, omap (messagesQuery_join s sessionId) l = []).
    { induction l as [|ml l IH]; [reflexivity|].
      cbn [omap list_omap]. unfold messagesQuery_join at 1.
      now rewrite Hnone. }
    now rewrite Hjoin.
  - assert (Hfilter : List.filter (messagesQuery_where s sessionId)
                                  (message_log_table s) = []).
    { induction Hall as [|ml l Hml _ IH]; [reflexivity|].
      simpl. now rewrite Hml. }
    now rewrite Hfilter.
Qed.

Lemma in_zip_with_l {A B C} (f : A → B → C) (x : A) (l : list A) :
  ∀ k : list B, In x l → length k = length l →
                ∃ y, In (f x y) (zip_with f l k).
Proof.
  induction l as [|a l IH]; intros [|b k] Hin Hlen; try discriminate;
    [destruct Hin|].
  simpl in *. destruct Hin as [-> | Hin].
  - exists b. now left.
  - injection Hlen as Hlen. destruct (IH k Hin Hlen) as [y Hy].
    exists y. now right.
Qed.

(** Once every message of the work set has its record, the work set of the
    next run is empty. *)
Lemma summarized_nothing_left (this : SandboxAIService) (sessionId : string)
    (s : Store) (now : Z) (sums : list (Parsed.t Summary.t)) :
  length sums = length (messagesQuery sessionId s) →
  nothing_to_summarize sessionId
    (add_processing s
       (zip_with (record_of this sessionId s now)
                 (messagesQuery sessionId s) sums)).
Proof.
  intros Hlen. unfold nothing_to_summarize.
  cbn [add_processing sandbox_sessions_table message_log_table].
  destruct (sandbox_sessions_table s !! sessionId) as [ss|] eqn:Hss;
    [right | now left].
  apply List.Forall_forall. intros ml Hml.
  unfold messagesQuery_where, summarization_completed.
  cbn [add_processing sandbox_ai_processing_table].
  destruct (is_inbound sessionId ml) eqn:Hin; [|reflexivity].
  rewrite existsb_app.
  destruct (existsb _ (sandbox_ai_processing_table s)) eqn:Hdone;
    [reflexivity|].
  assert (Hwhere : messagesQuery_where s sessionId ml = true).
  { unfold messagesQuery_where, summarization_completed.
    now rewrite Hin, Hdone. }
  destruct (messagesQuery_join_ml s sessionId ml) as (m & Hj & Hm);
    [now rewrite Hss|].
  assert (Hrow : In m (messagesQuery sessionId s)).
  { unfold messagesQuery.
    apply (Permutation_in _ (Permutation_sym (merge_sort_Permutation _ _))).
    apply list_elem_of_In, list_elem_of_omap. exists ml.
    split; [|exact Hj]. apply list_elem_of_In, filter_In. now split. }
  destruct (in_zip_with_l (record_of this sessionId s now) m _ sums Hrow Hlen)
    as [x Hx].
  assert (Hex : existsb
                  (is_completed_summarization sessionId
                     (message_log.message_uuid ml))
                  (zip_with (record_of this sessionId s now)
                            (messagesQuery sessionId s) sums) = true).
  { apply existsb_exists. eexists. split; [exact Hx|].
    unfold is_completed_summarization, record_of, summarization_record.
    cbn. unfold Message.message_uuid. rewrite Hm, !String.eqb_refl.
    reflexivity. }
  rewrite Hex. reflexivity.
Qed.

(** Outbound rows, further records and tasks leave the work set empty. *)
Lemma nothing_to_summarize_preserved (sessionId : string) (s : Store)
    (rows : list message_log.row)
    (records : list sandbox_ai_processing.row)
    (tasks : list sandbox_tasks.row) :
  nothing_to_summarize sessionId s →
  Forall (λ r, message_log.message_type r = "Outbound") rows →
  nothing_to_summarize sessionId (add_tasks (add_replies s rows records) tasks).
Proof.
  intros [Hnone | Hall] Hout; [now left | right].
  cbn [add_tasks add_replies message_log_table].
  apply Forall_app. split.
  - eapply Forall_impl; [exact Hall|]. intros ml Hml. cbn beta in *.
    unfold messagesQuery_where, summarization_completed in *.
    cbn [add_tasks add_replies sandbox_ai_processing_table].
    rewrite existsb_app.
    destruct (is_inbound sessionId ml); [|reflexivity].
    simpl in Hml. apply negb_false_iff in Hml. rewrite Hml. reflexivity.
  - eapply Forall_impl; [exact Hout|]. intros r Hr. cbn beta in *.
    unfold messagesQuery_where, is_inbound. rewrite Hr.
    now rewrite andb_false_r.
Qed.

(** The whole pipeline attempts no store operation after one that
    failed. *)
Lemma disciplined_try_catch_rethrow {A} (m : M A) :
  disciplined m → disciplined (try_catch m (λ error, throw error)).
Proof.
  intros Hm w r w'. unfold try_catch, throw.
  destruct (m w) as [[a|e] w1] eqn:Hrun; intros [= <- <-];
    exact (Hm w _ _ Hrun).
Qed.

Section DisciplinedRun.
Context `{Engine}.
Variable this : SandboxAIService.

Lemma disciplined_generateMessageSummary (context : Context.t)
    (message : Message.t) :
  disciplined (generateMessageSummary this context message).
Proof.
  apply disciplined_quiet. intros w r w' Hrun.
  destruct (generateMessageSummary_counts this context message w)
    as (summary & w2 & Hgen & _ & Hf & _).
  rewrite Hgen in Hrun. injection Hrun as <- <-.
  split; [exact Hf | discriminate].
Qed.

Lemma disciplined_summarize_rows (sessionId : string)
    (rows : list Message.t) :
  ∀ summaries, disciplined (summarize_rows this sessionId rows summaries).
Proof.
  induction rows as [|message rest IH]; intros summaries;
    cbn [summarize_rows]; [apply disciplined_ret|].
  apply disciplined_bind; [apply disciplined_client_select|]. intros history.
  cbv zeta.
  apply disciplined_bind; [apply disciplined_generateMessageSummary|].
  intros summary.
  apply disciplined_bind; [apply disciplined_client_insert|]. intros _.
  apply IH.
Qed.

Lemma disciplined_processSummarizeMessages (sessionId : string)
    (accountId : Z) :
  disciplined (processSummarizeMessages this sessionId accountId).
Proof.
  apply disciplined_bind; [apply disciplined_pool_connect|]. intros _.
  apply disciplined_try_finally.
  apply disciplined_bind; [apply disciplined_client_select|]. intros rows.
  apply disciplined_summarize_rows.
Qed.

Lemma disciplined_create_tasks (sessionId : string)
    (summaries : list SummaryItem.pushed) :
  ∀ tasks, disciplined (create_tasks sessionId summaries tasks).
Proof.
  induction summaries as [|summary rest IH]; intros tasks;
    cbn [create_tasks]; [apply disciplined_ret|].
  apply disciplined_bind; [apply disciplined_read|]. intros item.
  destruct (negb _); [apply IH|].
  apply disciplined_bind.
  { apply disciplined_quiet. intros w r w'. unfold lift, determineTaskDetails.
    destruct (Summary.keyInformation _); intros [= <- <-];
      (split; [reflexivity | discriminate]). }
  intros taskDetails.
  apply disciplined_bind; [apply disciplined_Date_now|]. intros now.
  apply disciplined_bind; [apply disciplined_Math_random_suffix|].
  intros suffix. cbv zeta.
  apply disciplined_bind; [apply disciplined_client_insert|]. intros _.
  apply IH.
Qed.

Lemma disciplined_createStaffTasks (sessionId : string)
    (summaries : list SummaryItem.pushed) :
  disciplined (createStaffTasks sessionId summaries).
Proof.
  apply disciplined_bind; [apply disciplined_pool_connect|]. intros _.
  apply disciplined_try_finally, disciplined_create_tasks.
Qed.

Lemma disciplined_evaluateTaskStatus (sessionId : string) :
  disciplined (evaluateTaskStatus sessionId).
Proof.
  apply disciplined_bind; [apply disciplined_pool_connect|]. intros _.
  apply disciplined_try_finally.
  apply disciplined_bind; [apply disciplined_client_select|]. intros rows.
  apply disciplined_quiet. intros w r w'. rewrite follow_up_tasks_spec.
  intros [= <- <-]. split; [reflexivity | discriminate].
Qed.

Lemma disciplined_processHostEscalations (sessionId : string)
    (summaries : list SummaryItem.pushed) :
  disciplined (processHostEscalations sessionId summaries).
Proof.
  apply disciplined_quiet. intros w r w'. unfold processHostEscalations.
  rewrite escalate_summaries_spec. intros [= <- <-].
  split; [reflexivity|]. destruct (all_objects summaries); discriminate.
Qed.

Lemma disciplined_runFullAutomation (sessionId : string) (accountId : Z) :
  disciplined (runFullAutomation this sessionId accountId).
Proof.
  apply disciplined_try_catch_rethrow.
  apply disciplined_bind; [apply disciplined_processSummarizeMessages|].
  intros summaries.
  apply disciplined_bind;
    [apply disciplined_buildAiResponseFromSummaries|]. intros responses.
  apply disciplined_bind; [apply disciplined_createStaffTasks|].
  intros tasks.
  apply disciplined_bind; [apply disciplined_evaluateTaskStatus|].
  intros followUps.
  apply disciplined_bind; [apply disciplined_processHostEscalations|].
  intros escalations. apply disciplined_ret.
Qed.

(** On a world without pending faults no call leaves one pending. *)
Lemma runFullAutomation_faults (sessionId : string) (accountId : Z)
    (w : World) r w' :
  faults w = [] →
  runFullAutomation this sessionId accountId w = (r, w') →
  faults w' = [].
Proof.
  intros Hf Hrun.
  destruct (disciplined_runFullAutomation sessionId accountId w r w' Hrun)
    as (used & Hc & _).
  unfold consumed in Hc. rewrite Hf in Hc. symmetry in Hc.
  now apply app_eq_nil in Hc as [_ Hc].
Qed.
End DisciplinedRun.

Section Rerun.
Context `{Engine}.
Variable this : SandboxAIService.

(** The fallback summary is an object whose [keyInformation] is an
    array. *)
Lemma getMockSummary_well_shaped (messageText : string) :
  well_shaped_summary (Parsed.object (getMockSummary messageText)).
Proof.
  exists (getMockSummary messageText),
    [Summary.actionTitle (getMockSummary messageText)].
  split; [reflexivity|]. unfold getMockSummary.
  case_conditions; reflexivity.
Qed.

Lemma generateMessageSummary_well_shaped (context : Context.t)
    (message : Message.t) (w : World) summary w' :
  summarizes_with_objects this →
  generateMessageSummary this context message w = (Ok summary, w') →
  well_shaped_summary summary.
Proof.
  intros Hobjects. unfold generateMessageSummary.
  destruct (openai this) as [client|] eqn:Hclient.
  - unfold bind, next_completion, ret.
    destruct (OpenAI.summary_completion client _ _ _) as [parsed|] eqn:Hp;
      intros [= <- <-].
    + exact (Hobjects _ _ _ _ _ Hclient Hp).
    + apply getMockSummary_well_shaped.
  - intros [= <- <-]. apply getMockSummary_well_shaped.
Qed.

(** The summaries that the loop emits are objects whose [keyInformation]
    is an array when those of the client are. *)
Lemma summarize_rows_well_shaped (sessionId : string)
    (rows : list Message.t) :
  summarizes_with_objects this →
  ∀ (summaries : list SummaryItem.pushed) (w : World) result w',
    summarize_rows this sessionId rows summaries w = (Ok result, w') →
    ∃ new,
      result = summaries ++ new
      ∧ Forall (λ summary, well_shaped_summary (SummaryItem.summary summary))
               new.
Proof.
  intros Hobjects.
  induction rows as [|message rest IH]; intros summaries w result w' Hrun.
  - injection Hrun as <- <-. exists []. now rewrite app_nil_r.
  - cbn [summarize_rows] in Hrun. unfold bind at 1 in Hrun.
    destruct (client_select _ w) as [[history|e] w1]; [|discriminate].
    unfold bind at 1 in Hrun.
    destruct (generateMessageSummary this _ message w1)
      as [[summary|e] w2] eqn:Hgen; [|discriminate].
    apply (generateMessageSummary_well_shaped _ _ _ _ _ Hobjects) in Hgen.
    unfold bind at 1 in Hrun.
    destruct (client_insert _ w2) as [[[]|e] w3]; [|discriminate].
    apply IH in Hrun as (new & -> & Hnew).
    eexists (_ :: new). split.
    + now rewrite <- app_assoc.
    + constructor; [exact Hgen | assumption].
Qed.

Lemma processSummarizeMessages_well_shaped (sessionId : string)
    (accountId : Z) (w : World) result w' :
  summarizes_with_objects this →
  processSummarizeMessages this sessionId accountId w = (Ok result, w') →
  Forall (λ summary, well_shaped_summary (SummaryItem.summary summary))
         result.
Proof.
  intros Hobjects.
  unfold processSummarizeMessages, bind, try_finally. intros Hrun.
  destruct (pool_connect w) as [[[]|e] w1]; [|discriminate].
  destruct (client_select _ w1) as [[messages|e] w2]; [|discriminate].
  destruct (summarize_rows _ _ _ _ w2) as [[r|e] w3] eqn:Hrows;
    [|discriminate].
  injection Hrun as <- <-.
  apply (summarize_rows_well_shaped _ _ Hobjects) in Hrows
    as (new & -> & Hnew).
  exact Hnew.
Qed.

(** Pushed objects whose summaries are objects are the pushed form of what
    the stages read. *)
Lemma well_shaped_readable (summaries : list SummaryItem.pushed) :
  Forall (λ summary, well_shaped_summary (SummaryItem.summary summary))
         summaries →
  summaries = map SummaryItem.push (readable summaries)
  ∧ Forall (λ item,
              ∃ items,
                Summary.keyInformation (SummaryItem.summary item)
                = KeyInformation.array items)
           (readable summaries).
Proof.
  induction 1 as [|summary rest (fields & items & Hs & Hk) _ [IHp IHf]].
  - split; [reflexivity | constructor].
  - destruct summary as [uuid body parsed]. cbn in Hs. subst parsed.
    cbn [readable SummaryItem.parsed SummaryItem.summary
         SummaryItem.message_uuid SummaryItem.original_message map].
    split.
    + rewrite <- IHp. reflexivity.
    + constructor; [|exact IHf]. exists items. exact Hk.
Qed.

Lemma create_tasks_no_fault (sessionId : string)
    (items : list SummaryItem.t) :
  Forall (λ item,
            ∃ keys,
              Summary.keyInformation (SummaryItem.summary item)
              = KeyInformation.array keys) items →
  ∀ (tasks : list Task.t) (w : World),
    faults w = [] →
    ∃ result w',
      create_tasks sessionId (map SummaryItem.push items) tasks w
      = (Ok result, w')
      ∧ faults w' = [].
Proof.
  induction 1 as [|item rest (keys & Hk) _ IH]; intros tasks w Hf.
  - eexists _, _. split; [reflexivity | assumption].
  - cbn [map create_tasks]. rewrite parsed_push, bind_read_object.
    destruct (needsTask item); cbn [negb]; [|now apply IH].
    unfold bind at 1. unfold lift at 1, determineTaskDetails at 1.
    rewrite Hk.
    unfold bind at 1. unfold Date_now at 1.
    unfold bind at 1. unfold Math_random_suffix at 1.
    unfold bind at 1. rewrite client_insert_no_fault by assumption.
    apply IH. assumption.
Qed.

(** Without store faults, and with completions that are objects with an
    array of key information, the pipeline returns. *)
Lemma runFullAutomation_no_fault (sessionId : string) (accountId : Z)
    (w : World) :
  faults w = [] →
  summarizes_with_objects this →
  answers_with_objects this →
  ∃ result w', runFullAutomation this sessionId accountId w = (Ok result, w').
Proof.
  intros Hf Hsummaries Hanswers. rewrite runFullAutomation_stages.
  destruct (processSummarizeMessages_no_fault this sessionId accountId w Hf)
    as (sums & w1 & Hrun1 & _ & _ & Hf1 & _).
  pose proof (processSummarizeMessages_well_shaped _ _ _ _ _ Hsummaries Hrun1)
    as Hshape.
  rewrite Hrun1.
  set (summaries := zip_with summary_item _ sums) in *.
  destruct (well_shaped_readable summaries Hshape) as [Hpush Hkeys].
  rewrite Hpush.
  unfold buildAiResponseFromSummaries, bind, try_finally.
  rewrite pool_connect_no_fault by assumption.
  destruct (respond_to_summaries_no_fault this sessionId
              (readable summaries) Hanswers []
              (set_clients (S (clients w1)) w1) Hf1)
    as (entries & w2 & -> & Hf2 & _).
  unfold createStaffTasks, bind, try_finally.
  rewrite pool_connect_no_fault by assumption.
  destruct (create_tasks_no_fault sessionId (readable summaries) Hkeys []
              (set_clients (S (clients (client_release w2)))
                           (client_release w2)) Hf2)
    as (tasks & w3 & -> & Hf3).
  unfold evaluateTaskStatus, bind, try_finally.
  rewrite pool_connect_no_fault by assumption.
  rewrite client_select_no_fault by assumption.
  rewrite follow_up_tasks_spec, all_objects_push.
  eexists _, _. reflexivity.
Qed.

(** On a session with nothing to summarise a returning run is empty and
    leaves the store as it was. *)
Lemma runFullAutomation_nothing_to_do (sessionId : string) (accountId : Z)
    (w : World) result w' :
  nothing_to_summarize sessionId (db w) →
  runFullAutomation this sessionId accountId w = (Ok result, w') →
  PipelineResult.summaries result = []
  ∧ PipelineResult.responses result = []
  ∧ PipelineResult.tasks result = []
  ∧ PipelineResult.escalations result = []
  ∧ db w' = db w
  ∧ completions w' = completions w.
Proof.
  intros Hnothing Hrun.
  apply nothing_to_summarize_nil in Hnothing.
  apply runFullAutomation_any in Hrun
    as (sums & entries & k & created & Hdb & _ & _ & _ & _ & _ & _ & _ & Hok).
  cbn zeta in *. rewrite Hnothing in *.
  cbn [zip_with readable List.filter] in *.
  destruct (Hok result eq_refl)
    as (_ & -> & _ & He & Hc & -> & -> & -> & -> & _ & ->).
  apply map_eq_nil in He, Hc. subst entries created.
  cbn in Hdb. unfold after_run in Hdb.
  rewrite add_processing_nil, add_replies_nil, add_tasks_nil in Hdb.
  repeat split; try assumption.
  unfold requests. destruct (openai this); simpl; lia.
Qed.

(** On a session with nothing to summarise a run without store faults
    returns: it reads no summary and sends no completion request. *)
Lemma runFullAutomation_idle (sessionId : string) (accountId : Z)
    (w : World) :
  nothing_to_summarize sessionId (db w) →
  faults w = [] →
  ∃ result w', runFullAutomation this sessionId accountId w = (Ok result, w').
Proof.
  intros Hnothing Hf. apply nothing_to_summarize_nil in Hnothing.
  rewrite runFullAutomation_stages.
  destruct (processSummarizeMessages_no_fault this sessionId accountId w Hf)
    as (sums & w1 & -> & _ & _ & Hf1 & _).
  rewrite Hnothing. cbn [zip_with].
  unfold buildAiResponseFromSummaries, bind, try_finally.
  rewrite pool_connect_no_fault by assumption.
  cbn [respond_to_summaries]. unfold ret.
  unfold createStaffTasks, bind, try_finally.
  rewrite pool_connect_no_fault by assumption.
  cbn [create_tasks]. unfold ret.
  unfold evaluateTaskStatus, bind, try_finally.
  rewrite pool_connect_no_fault by assumption.
  rewrite client_select_no_fault by assumption.
  rewrite follow_up_tasks_spec.
  eexists _, _. reflexivity.
Qed.
End Rerun.

Lemma reply_rows_outbound (sessionId : string) (s : Store) (now : Z)
    (entries : list reply) :
  Forall (λ r, message_log.message_type r = "Outbound")
         (map (reply_row sessionId s now) entries).
Proof. apply Forall_map_any. reflexivity. Qed.

(** After a run that returned, the session has nothing left to
    summarise. *)
Lemma nothing_to_summarize_after_run `{Engine} (this : SandboxAIService)
    (sessionId : string) (accountId : Z) (w : World) result w' :
  runFullAutomation this sessionId accountId w = (Ok result, w') →
  nothing_to_summarize sessionId (db w').
Proof.
  intros Hrun.
  apply runFullAutomation_any in Hrun
    as (sums & entries & k & created & Hdb & _ & _ & _ & _ & _ & _ & _ & Hok).
  cbn zeta in *. destruct (Hok result eq_refl) as (Hlen & _).
  rewrite Hdb. unfold after_run.
  apply nothing_to_summarize_preserved.
  - now apply summarized_nothing_left.
  - apply reply_rows_outbound.
Qed.

(** X6: running the pipeline twice in a row, no store operation failing.
    When the first run of [runFullAutomation] returns, so does the second,
    and it finds nothing to do: it returns no summary, no reply, no task
    and no escalation, sends no completion request and leaves the store
    exactly as the first run left it. The first run returns when there is
    no completion client, or when every completion for a summary parses to
    an object whose [keyInformation] is an array and no completion for a
    reply parses to [null]. *)
Theorem X6_second_run_finds_nothing_to_do :
  ∀ (E : Engine) (this : SandboxAIService) (sessionId : string)
    (accountId : Z) (w : World),
    faults w = [] →
    (∀ first w1,
        runFullAutomation this sessionId accountId w = (Ok first, w1) →
        ∃ second w2,
          runFullAutomation this sessionId accountId w1 = (Ok second, w2)
          ∧ PipelineResult.summaries second = []
          ∧ PipelineResult.responses second = []
          ∧ PipelineResult.tasks second = []
          ∧ PipelineResult.escalations second = []
          ∧ db w2 = db w1
          ∧ completions w2 = completions w1)
    ∧ (summarizes_with_objects this →
       answers_with_objects this →
       ∃ first w1,
         runFullAutomation this sessionId accountId w = (Ok first, w1))
    ∧ (openai this = None →
       ∃ first w1,
         runFullAutomation this sessionId accountId w = (Ok first, w1)).
Proof.
  intros E this sessionId accountId w Hf.
  assert (Hshaped : summarizes_with_objects this →
                    answers_with_objects this →
                    ∃ first w1,
                      runFullAutomation this sessionId accountId w
                      = (Ok first, w1)).
  { intros Hs Ha.
    exact (runFullAutomation_no_fault this sessionId accountId w Hf Hs Ha). }
  split; [|split; [exact Hshaped|]].
  - intros first w1 Hrun1.
    pose proof (runFullAutomation_faults this sessionId accountId w _ _
                  Hf Hrun1) as Hf1.
    pose proof (nothing_to_summarize_after_run this sessionId accountId w
                  first w1 Hrun1) as Hnothing.
    destruct (runFullAutomation_idle this sessionId accountId w1 Hnothing Hf1)
      as (second & w2 & Hrun2).
    exists second, w2. split; [exact Hrun2|].
    exact (runFullAutomation_nothing_to_do this sessionId accountId w1
             second w2 Hnothing Hrun2).
  - intros Hnone. apply Hshaped.
    + intros client n context message summary Hclient. congruence.
    + intros client n item pd Hclient. congruence.
Qed.

(** The demo session: the first run answers three messages, the second
    none. *)
Lemma X6_second_run_finds_nothing_to_do_witness :
  ∃ first w1 second w2,
    runFullAutomation fallback_service "S1" 1 demo_world = (Ok first, w1)
    ∧ runFullAutomation fallback_service "S1" 1 w1 = (Ok second, w2)
    ∧ length (PipelineResult.responses first) = 3%nat
    ∧ PipelineResult.responses second = [].
Proof.
  destruct (X6_second_run_finds_nothing_to_do ascii_engine fallback_service
              "S1" 1 demo_world eq_refl)
    as (Hsecond & _ & Hfirst).
  destruct (Hfirst eq_refl) as (first & w1 & H1).
  destruct (Hsecond first w1 H1) as (second & w2 & H2 & _ & Hnone & _).
  exists first, w1, second, w2. do 2 (split; [assumption|]).
  split; [|exact Hnone].
  vm_compute in H1. injection H1 as <- _. reflexivity.
Defined.

(** X7: summaries are committed before their replies. When the
    summarization stage returned and the responder then throws,
    [runFullAutomation] throws the same exception in the same world, with
    the summarization records kept; a later run without store faults then
    returns no summary and no reply and leaves the store as it found it, so
    the messages whose reply was not written stay unanswered. *)
Theorem X7_replies_lost_after_responder_failure :
  ∀ (E : Engine) (this : SandboxAIService) (sessionId : string)
    (accountId : Z) (w : World) (summaries : list SummaryItem.pushed)
    (w1 : World) (e : exn) (w2 : World),
    processSummarizeMessages this sessionId accountId w = (Ok summaries, w1) →
    buildAiResponseFromSummaries this sessionId summaries w1 = (Throw e, w2) →
    faults w2 = [] →
    runFullAutomation this sessionId accountId w = (Throw e, w2)
    ∧ ∃ second w3,
        runFullAutomation this sessionId accountId w2 = (Ok second, w3)
        ∧ PipelineResult.summaries second = []
        ∧ PipelineResult.responses second = []
        ∧ PipelineResult.tasks second = []
        ∧ db w3 = db w2
        ∧ replies_to (db w3) = replies_to (db w2).
Proof.
  intros E this sessionId accountId w summaries w1 e w2 Hsum Hresp Hf.
  split.
  { rewrite runFullAutomation_stages, Hsum, Hresp. reflexivity. }
  assert (Hnothing : nothing_to_summarize sessionId (db w2)).
  { apply processSummarizeMessages_any in Hsum
      as (sums & _ & Hdb1 & _ & _ & Hok).
    destruct (Hok summaries eq_refl) as (Hlen & _).
    apply buildAiResponseFromSummaries_any in Hresp
      as (entries & k & Hdb2 & _).
    rewrite Hdb2, Hdb1, <- (add_tasks_nil (add_replies _ _ _)).
    apply nothing_to_summarize_preserved.
    - now apply summarized_nothing_left.
    - apply Forall_map_any. reflexivity. }
  destruct (runFullAutomation_idle this sessionId accountId w2 Hnothing Hf)
    as (second & w3 & Hrun).
  exists second, w3. split; [exact Hrun|].
  destruct (runFullAutomation_nothing_to_do this sessionId accountId w2
              second w3 Hnothing Hrun) as (Hs & Hr & Ht & _ & Hdb & _).
  repeat split; try assumption. now rewrite Hdb.
Qed.

(** The demo session when the insert of the first reply fails: the three
    messages are summarised, none is ever answered. *)
Lemma X7_replies_lost_after_responder_failure_witness :
  ∃ w2 second w3,
    runFullAutomation fallback_service "S1" 1 late_failure_world
    = (Throw DatabaseError, w2)
    ∧ length (sandbox_ai_processing_table (db w2)) = 3%nat
    ∧ runFullAutomation fallback_service "S1" 1 w2 = (Ok second, w3)
    ∧ PipelineResult.responses second = []
    ∧ replies_to (db w3) = [].
Proof.
  destruct (processSummarizeMessages fallback_service "S1" 1
              late_failure_world) as [[summaries|e1] w1] eqn:Hsum;
    [|vm_compute in Hsum; discriminate].
  destruct (buildAiResponseFromSummaries fallback_service "S1" summaries w1)
    as [[responses|e] w2] eqn:Hresp.
  { vm_compute in Hsum. injection Hsum as <- <-.
    vm_compute in Hresp. discriminate. }
  assert (Hw2 : faults w2 = [] ∧ e = DatabaseError
                ∧ length (sandbox_ai_processing_table (db w2)) = 3%nat
                ∧ replies_to (db w2) = []).
  { vm_compute in Hsum. injection Hsum as <- <-.
    vm_compute in Hresp. injection Hresp as <- <-. repeat split. }
  destruct Hw2 as (Hf & -> & Hledger & Hreplies).
  destruct (X7_replies_lost_after_responder_failure ascii_engine
              fallback_service "S1" 1 late_failure_world summaries w1
              DatabaseError w2 Hsum Hresp Hf)
    as (Hthrow & second & w3 & Hrun & _ & Hnone & _ & _ & Hsame).
  exists w2, second, w3. repeat split; try assumption.
  now rewrite Hsame.
Defined.

(** Fallback summaries pass neither [needsTask] nor [is_urgent]. *)
Lemma fallback_summaries_need_no_task `{Engine}
    (summaries : list SummaryItem.pushed) :
  Forall is_fallback summaries →
  List.filter needsTask (readable summaries) = [].
Proof.
  intros Hfallback.
  destruct (fallback_summaries summaries Hfallback) as (_ & Hitems & _).
  induction Hitems as [|item l Hitem _ IH]; [reflexivity|].
  simpl. rewrite IH. rewrite needsTask_priority; [reflexivity|..];
    rewrite Hitem;
    destruct (getMockSummary_priority (SummaryItem.original_message item))
      as [-> | ->]; discriminate.
Qed.

(** X8: without a completion client the pipeline never creates a task.
    [getMockSummary] only gives the priorities medium and high, which
    [needsTask] does not let through: whatever the messages, and whether
    the run returns or throws, [runFullAutomation] leaves [sandbox_tasks]
    as it was, and a run that returns reports no task and no escalation. *)
Theorem X8_no_task_without_completion_client :
  ∀ (E : Engine) (model : string) (sessionId : string) (accountId : Z)
    (w : World),
    let run := runFullAutomation (mkService None model) sessionId accountId w
    in
    sandbox_tasks_table (db run.2) = sandbox_tasks_table (db w)
    ∧ ∀ result,
        run.1 = Ok result →
        PipelineResult.tasks result = []
        ∧ PipelineResult.escalations result = [].
Proof.
  intros E model sessionId accountId w run. subst run.
  set (this := mkService None model).
  rewrite runFullAutomation_stages.
  destruct (processSummarizeMessages this sessionId accountId w)
    as [[summaries|e] w1] eqn:H1.
  2:{ apply processSummarizeMessages_any in H1 as (? & _ & Hdb1 & _).
      cbn [fst snd]. rewrite Hdb1.
      split; [reflexivity | intros ? [=]]. }
  pose proof (processSummarizeMessages_fallback this eq_refl _ _ _ _ _ H1)
    as Hfallback.
  apply processSummarizeMessages_any in H1 as (? & _ & Hdb1 & _).
  pose proof (fallback_summaries_need_no_task summaries Hfallback) as Hnone.
  destruct (fallback_summaries summaries Hfallback) as (Hobj & _ & Hcalm).
  rewrite Hobj, Hcalm.
  destruct (buildAiResponseFromSummaries this sessionId summaries w1)
    as [[responses|e] w2] eqn:H2;
    apply buildAiResponseFromSummaries_any in H2 as (? & ? & Hdb2 & _).
  2:{ cbn [fst snd]. rewrite Hdb2, Hdb1.
      split; [reflexivity | intros ? [=]]. }
  destruct (createStaffTasks sessionId summaries w2)
    as [[tasks|e] w3] eqn:H3;
    apply createStaffTasks_any in H3
      as (created & Hdb3 & Hp & _ & _ & _ & _ & Hok).
  2:{ cbn [fst snd]. rewrite Hnone in Hp. apply prefix_nil_inv in Hp.
      apply map_eq_nil in Hp. subst created.
      rewrite Hdb3, Hdb2, Hdb1. cbn.
      split; [now rewrite app_nil_r | intros ? [=]]. }
  destruct (Hok tasks eq_refl) as (_ & Hall & ->).
  rewrite Hnone in Hall. apply map_eq_nil in Hall. subst created.
  destruct (evaluateTaskStatus sessionId w3) as [[followUps|e] w4] eqn:H4;
    apply evaluateTaskStatus_any in H4 as (Hdb4 & _); cbn [fst snd];
    rewrite Hdb4, Hdb3, Hdb2, Hdb1; cbn;
    (split; [now rewrite app_nil_r|]).
  - intros result [= <-]. cbn. split; reflexivity.
  - intros ? [=].
Qed.

(** X23: what a [null] summary does to a run. When the summarization stage
    returned, one of the summaries it pushed is [null] and no store
    operation fails afterwards, [runFullAutomation] throws a [TypeError]:
    the responder answers at most the actionable summaries that come before
    the first [null] one, no task is created, and the summaries keep their
    completed records, so the session has nothing left to summarise and a
    later run does not come back to the messages left unanswered. *)
Theorem X23_null_summary_aborts_the_run :
  ∀ (E : Engine) (this : SandboxAIService) (sessionId : string)
    (accountId : Z) (w : World) (summaries : list SummaryItem.pushed)
    (w1 : World),
    processSummarizeMessages this sessionId accountId w = (Ok summaries, w1) →
    all_objects summaries = false →
    faults w1 = [] →
    ∃ w2,
      runFullAutomation this sessionId accountId w = (Throw TypeError, w2)
      ∧ sandbox_tasks_table (db w2) = sandbox_tasks_table (db w)
      ∧ (∃ answered,
            replies_to (db w2)
            = replies_to (db w) ++ map SummaryItem.message_uuid answered
            ∧ answered `prefix_of` List.filter actionable (readable summaries))
      ∧ nothing_to_summarize sessionId (db w2).
Proof.
  intros E this sessionId accountId w summaries w1 Hsum Hnull Hf.
  destruct (buildAiResponseFromSummaries this sessionId summaries w1)
    as [r w2] eqn:Hresp.
  destruct (disciplined_buildAiResponseFromSummaries this sessionId
              summaries w1 r w2 Hresp) as (used & Hc & Hs).
  unfold consumed in Hc. rewrite Hf in Hc. symmetry in Hc.
  apply app_eq_nil in Hc as [-> _].
  pose proof Hsum as Hsum'. pose proof Hresp as Hresp'.
  apply processSummarizeMessages_any in Hsum'
    as (sums & _ & Hdb1 & _ & _ & Hok1).
  destruct (Hok1 summaries eq_refl) as (Hlen & _).
  apply buildAiResponseFromSummaries_any in Hresp'
    as (entries & k & Hdb2 & _ & Hprefix & _ & _ & Hok2).
  assert (Hr : r = Throw TypeError).
  { destruct r as [responses|[]].
    - destruct (Hok2 responses eq_refl) as (_ & Hobj & _). congruence.
    - cbn in Hs. destruct Hs as (front & Hfront & _).
      now destruct front.
    - reflexivity. }
  subst r. exists w2.
  split; [rewrite runFullAutomation_stages, Hsum, Hresp; reflexivity|].
  split; [rewrite Hdb2, Hdb1; reflexivity|].
  split.
  - exists (map reply_summary entries). split; [|exact Hprefix].
    rewrite Hdb2, replies_to_add_replies, Hdb1. reflexivity.
  - rewrite Hdb2, Hdb1, <- (add_tasks_nil (add_replies _ _ _)).
    apply nothing_to_summarize_preserved.
    + now apply summarized_nothing_left.
    + apply Forall_map_any. reflexivity.
Qed.

(** The demo session with a client whose completions for a summary parse
    to [null]: the three messages get their record, none is answered. *)
Lemma X23_null_summary_aborts_the_run_witness :
  ∃ w2,
    runFullAutomation null_summary_service "S1" 1 demo_world
    = (Throw TypeError, w2)
    ∧ length (sandbox_ai_processing_table (db w2)) = 3%nat
    ∧ replies_to (db w2) = [].
Proof.
  destruct (processSummarizeMessages null_summary_service "S1" 1 demo_world)
    as [[summaries|e1] w1] eqn:Hsum; [|vm_compute in Hsum; discriminate].
  assert (Hw1 : all_objects summaries = false ∧ faults w1 = []).
  { vm_compute in Hsum. injection Hsum as <- <-. split; reflexivity. }
  destruct Hw1 as (Hnull & Hf).
  destruct (X23_null_summary_aborts_the_run ascii_engine null_summary_service
              "S1" 1 demo_world summaries w1 Hsum Hnull Hf)
    as (w2 & Hrun & _).
  exists w2. split; [exact Hrun|].
  vm_compute in Hrun. injection Hrun as <-. split; reflexivity.
Defined.

(** X24: no method goes on after a store operation that failed. For each
    of the five methods, whatever the store does: the store operations
    that the call attempts end with the first one that fails, and the call
    throws a [DatabaseError] exactly when one failed. *)
Theorem X24_no_store_operation_after_a_failure :
  ∀ (E : Engine) (this : SandboxAIService) (sessionId : string)
    (accountId : Z) (summaries : list SummaryItem.pushed) (w : World),
    let stops {A} (run : Result A * World) :=
      ∃ used,
        consumed w run.2 used
        ∧ (In true used ↔ run.1 = Throw DatabaseError)
        ∧ fails_last used in
    stops (processSummarizeMessages this sessionId accountId w)
    ∧ stops (buildAiResponseFromSummaries this sessionId summaries w)
    ∧ stops (createStaffTasks sessionId summaries w)
    ∧ stops (evaluateTaskStatus sessionId w)
    ∧ stops (runFullAutomation this sessionId accountId w).
Proof.
  intros E this sessionId accountId summaries w stops. subst stops.
  assert (Hstops : ∀ A (m : M A),
             disciplined m →
             ∃ used,
               consumed w (m w).2 used
               ∧ (In true used ↔ (m w).1 = Throw DatabaseError)
               ∧ fails_last used).
  { intros A m Hm. destruct (m w) as [r w'] eqn:Hrun.
    destruct (Hm w r w' Hrun) as (used & Hc & Hs).
    exists used. split; [exact Hc|]. exact (stops_at_failure_spec r used Hs). }
  split; [|split; [|split; [|split]]]; apply Hstops.
  - apply disciplined_processSummarizeMessages.
  - apply disciplined_buildAiResponseFromSummaries.
  - apply disciplined_createStaffTasks.
  - apply disciplined_evaluateTaskStatus.
  - apply disciplined_runFullAutomation.
Qed.

(** ** Extra properties: follow-ups and the fallback replies *)

#[local] Instance created_at_asc_transitive : Transitive created_at_asc.
Proof. unfold created_at_asc. intros x y z. lia. Qed.
#[local] Instance created_at_asc_total : Total created_at_asc.
Proof. unfold created_at_asc. intros x y. lia. Qed.

Lemma StronglySorted_filter {A} (R : A → A → Prop) (p : A → bool)
    (l : list A) :
  StronglySorted R l → StronglySorted R (List.filter p l).
Proof.
  induction 1 as [|x l Hl IH Hx]; simpl; [constructor|].
  destruct (p x); [|exact IH].
  constructor; [exact IH|].
  apply List.Forall_forall. intros y Hy. apply filter_In in Hy as [Hy _].
  revert y Hy. now apply List.Forall_forall.
Qed.

Lemma Math_round_more_than_2 (h : Q) : Q_gt h 2 = true → 2 <= Math_round h.
Proof.
  unfold Q_gt, Math_round. intros Hgt. apply negb_true_iff in Hgt.
  assert (Hlt : (2 < h)%Q).
  { destruct (Qlt_le_dec 2 h) as [Hlt | Hle]; [exact Hlt|].
    apply Qle_bool_iff in Hle. congruence. }
  rewrite <- (Qfloor_Z 2). apply Qfloor_resp_le.
  change (inject_Z 2) with 2%Q. lra.
Qed.

Lemma evaluateTaskStatus_result (sessionId : string) (w : World)
    followUps w' :
  evaluateTaskStatus sessionId w = (Ok followUps, w') →
  followUps
  = map (λ t, reminder t (hoursSinceCreated (clock w) t))
        (List.filter (needs_follow_up (clock w))
                     (tasksQuery sessionId (db w))).
Proof.
  unfold evaluateTaskStatus, bind, try_finally. intros Hrun.
  destruct (pool_connect_cases w)
    as [(w1 & Hcon & _) | (w1 & Hcon & Hdb1 & Hc1 & _)];
    rewrite Hcon in Hrun; [discriminate|].
  destruct (client_select_cases (tasksQuery sessionId) w1)
    as (w2 & (Hdb2 & Hc2 & _) & [Hsel | Hsel]);
    rewrite Hsel in Hrun; [|discriminate].
  rewrite follow_up_tasks_spec in Hrun. injection Hrun as <- _.
  now rewrite Hc2, Hc1, Hdb1.
Qed.

(** X9: the follow-ups that [evaluateTaskStatus] returns are the reminders
    of tasks of the session, the oldest task first; each of these tasks is
    a row of [sandbox_tasks] of that session, pending, created more than
    7,200,000 ms before the run, and the number of hours its reminder reports
    ([Math.round] of the age in hours) is at least 2. Tasks of other
    sessions and tasks that are not pending are never reminded. *)
Theorem X9_reminders_oldest_first :
  ∀ (sessionId : string) (w : World) (followUps : list FollowUp.t)
    (w' : World),
    evaluateTaskStatus sessionId w = (Ok followUps, w') →
    ∃ tasks,
      followUps
      = map (λ t,
               {| FollowUp.task_uuid := sandbox_tasks.task_uuid t;
                  FollowUp.message :=
                    "Following up on " +:+ sandbox_tasks.title t
                    +:+ " - this task has been pending for "
                    +:+ pretty (Math_round (hoursSinceCreated (clock w) t))
                    +:+ " hours.";
                  FollowUp.type := "reminder" |}) tasks
      ∧ StronglySorted created_at_asc tasks
      ∧ Forall (λ t,
                  In t (sandbox_tasks_table (db w))
                  ∧ sandbox_tasks.sandbox_session_id t = sessionId
                  ∧ sandbox_tasks.status t = "pending"
                  ∧ 2 * 3600000 < clock w - sandbox_tasks.created_at t
                  ∧ 2 <= Math_round (hoursSinceCreated (clock w) t))
               tasks.
Proof.
  intros sessionId w followUps w' Hrun.
  apply evaluateTaskStatus_result in Hrun. subst followUps.
  eexists. split; [reflexivity|]. split.
  - apply StronglySorted_filter. unfold tasksQuery.
    apply StronglySorted_merge_sort; apply _.
  - apply List.Forall_forall. intros t Ht.
    apply filter_In in Ht as [Ht Hneeds].
    unfold tasksQuery in Ht.
    apply (Permutation_in _ (merge_sort_Permutation _ _)) in Ht.
    apply filter_In in Ht as [Hin Hwhere].
    unfold tasksQuery_where in Hwhere.
    apply andb_true_iff in Hwhere as [Hsession _].
    apply String.eqb_eq in Hsession.
    unfold needs_follow_up in Hneeds.
    apply andb_true_iff in Hneeds as [Hage Hstatus].
    apply String.eqb_eq in Hstatus.
    pose proof (Math_round_more_than_2 _ Hage) as Hround.
    rewrite hoursSinceCreated_gt_2 in Hage. apply Z.ltb_lt in Hage.
    repeat split; try assumption; lia.
Qed.

(** Noon in the world of three tasks: the task pending since 9:00 is
    reminded with "3 hours". *)
Lemma X9_reminders_oldest_first_witness :
  ∃ tasks,
    map sandbox_tasks.task_uuid tasks = ["T1"]
    ∧ Forall (λ t, 2 <= Math_round (hoursSinceCreated (clock tasks_world) t))
             tasks.
Proof.
  assert (Hrun : evaluateTaskStatus "S1" tasks_world
                 = (Ok [ {| FollowUp.task_uuid := "T1";
                            FollowUp.message :=
                              "Following up on Maintenance request - this task has been pending for 3 hours.";
                            FollowUp.type := "reminder" |} ],
                    tasks_world))
    by (vm_compute; reflexivity).
  destruct (X9_reminders_oldest_first "S1" tasks_world _ _ Hrun)
    as (tasks & Heq & _ & Hall).
  exists tasks. split.
  - destruct tasks as [|t [|t2 tasks]]; try discriminate Heq.
    injection Heq as Hu _. simpl. congruence.
  - eapply Forall_impl; [exact Hall|]. intros t Ht. apply Ht.
Defined.

(** X10: what the deterministic reply announces agrees with what the task
    generator would assign. [determineTaskDetails] returns for every
    summary whose [keyInformation] is an array, and throws a [TypeError]
    for the others. When it returns: when [getMockResponse] announces a
    task type other than [none], [determineTaskDetails] gives that very
    type; it announces [none] exactly when the type is [inspection] or
    [general], and asks for escalation exactly when the type is
    [inspection] (a complaint). A category outside the table falls to
    [general], assigned to the Support Team, and the title is never
    empty. *)
Theorem X10_reply_and_task_type_agree :
  ∀ (summary : Summary.t),
    let reply := getMockResponse summary in
    (∀ items,
        Summary.keyInformation summary = KeyInformation.array items →
        ∃ details, determineTaskDetails summary = Ok details)
    ∧ (Summary.keyInformation summary = KeyInformation.not_an_array →
       determineTaskDetails summary = Throw TypeError)
    ∧ ∀ details,
        determineTaskDetails summary = Ok details →
        (Response.taskType reply ≠ "none" →
         TaskDetails.type details = Response.taskType reply)
        ∧ (Response.taskType reply = "none"
           ↔ TaskDetails.type details = "inspection"
             ∨ TaskDetails.type details = "general")
        ∧ (Response.escalationNeeded reply = true
           ↔ TaskDetails.type details = "inspection")
        ∧ (¬ In (Summary.category summary)
                ["maintenance"; "cleaning"; "complaint"] →
           TaskDetails.type details = "general"
           ∧ TaskDetails.assignee_name details = "Support Team"
           ∧ TaskDetails.assignee_role details = "Support Staff")
        ∧ TaskDetails.title details ≠ "".
Proof.
  intros summary reply. subst reply.
  split; [|split].
  - intros items Hk. unfold determineTaskDetails. rewrite Hk. eauto.
  - intros Hk. unfold determineTaskDetails. now rewrite Hk.
  - intros details. unfold determineTaskDetails.
    destruct (Summary.keyInformation summary) as [items|]; [|discriminate].
    intros [= <-].
    unfold getMockResponse, task_details.
    assert (Htitle : or_else (Summary.actionTitle summary) "Guest Request"
                     ≠ "").
    { unfold or_else. destruct (Summary.actionTitle summary); discriminate. }
    destruct (String.eqb_spec (Summary.category summary) "check-in")
      as [-> | N1];
      [|destruct (String.eqb_spec (Summary.category summary) "maintenance")
          as [-> | N2];
        [|destruct (String.eqb_spec (Summary.category summary) "cleaning")
            as [-> | N3];
          [|destruct (String.eqb_spec (Summary.category summary) "complaint")
              as [-> | N4]]]];
      cbn;
      (split; [|split; [|split; [|split; [|exact Htitle]]]]);
      try (intros; congruence);
      try (split; intros;
           (congruence || discriminate || intuition congruence));
      try (split; intros; auto; intuition discriminate);
      try (intros Hnot; exfalso; apply Hnot; simpl; now auto);
      try (intros _; repeat split).
Qed.

(** A maintenance summary: the reply announces [maintenance], and so does
    the task generator. *)
Lemma X10_reply_and_task_type_agree_witness :
  ∃ details,
    determineTaskDetails (getMockSummary "The wifi is broken") = Ok details
    ∧ TaskDetails.type details = "maintenance".
Proof.
  destruct (X10_reply_and_task_type_agree
              (getMockSummary "The wifi is broken")) as (Hreturns & _ & Hagree).
  destruct (Hreturns ["Maintenance request"] eq_refl) as [details Hdetails].
  exists details. split; [exact Hdetails|].
  destruct (Hagree details Hdetails) as (Htype & _).
  rewrite Htype; [reflexivity | vm_compute; discriminate].
Defined.


(** X11: the deterministic summary and reply of a message, for every body.
    No action is required exactly for the category general; the reply asks
    for a follow-up exactly for the categories check-in and complaint (the
    two of high priority) and for escalation exactly for a complaint, which
    is also the only category with negative sentiment and frustrated tone;
    the key information is the action title alone. *)
Theorem X11_fallback_summary_and_reply :
  ∀ (E : Engine) (messageText : string),
    let summary := getMockSummary messageText in
    let reply := getMockResponse summary in
    (Summary.actionRequired summary = false
     ↔ Summary.category summary = "general")
    ∧ (Response.requiresFollowUp reply = true
       ↔ Summary.category summary = "check-in"
         ∨ Summary.category summary = "complaint")
    ∧ (Response.escalationNeeded reply = true
       ↔ Summary.category summary = "complaint")
    ∧ (Summary.sentiment summary = "negative"
       ↔ Summary.category summary = "complaint")
    ∧ (Summary.tone summary = "frustrated"
       ↔ Summary.category summary = "complaint")
    ∧ Summary.keyInformation summary
      = KeyInformation.array [Summary.actionTitle summary]
    ∧ In (Summary.category summary)
         ["check-in"; "maintenance"; "complaint"; "cleaning"; "general"].
Proof.
  intros E messageText summary reply. subst summary reply.
  unfold getMockSummary.
  repeat match goal with
         | |- context [if ?b then _ else _] => destruct b; cbn
         end;
    repeat split; intros; try discriminate; try reflexivity;
    try (intuition discriminate); try (simpl; tauto); auto 10.
Qed.

(** ** Extra properties: the property information block *)

Lemma mapped_lines_spec (entries : JS.obj) :
  ∀ propertyLines,
    mapped_lines entries propertyLines
    = propertyLines
      ++ map (λ e, property_line e.1 e.2)
             (List.filter (λ e, has_text e.2) entries).
Proof.
  induction entries as [|[label value] rest IH]; intros propertyLines.
  - simpl. now rewrite app_nil_r.
  - cbn [mapped_lines List.filter snd]. destruct (has_text value);
      rewrite IH; [|reflexivity].
    now rewrite <- app_assoc.
Qed.

Lemma additional_lines_spec (propertyData : JS.obj) (keys : list string) :
  ∀ propertyLines,
    additional_lines propertyData keys propertyLines
    = propertyLines
      ++ map (λ key, property_line (label_of_key key)
                                  (JS.get propertyData key))
             (List.filter (is_additional propertyData) keys).
Proof.
  induction keys as [|key rest IH]; intros propertyLines.
  - simpl. now rewrite app_nil_r.
  - cbn [additional_lines List.filter]. unfold is_additional at 1.
    destruct (negb (Array_includes excludeKeys key)
              && negb (JS.includes _ _)); cbn [andb];
      [|apply IH].
    destruct (has_text (JS.get propertyData key)); rewrite IH;
      [|reflexivity].
    now rewrite <- app_assoc.
Qed.

(** The block as a list of lines. *)
Lemma buildComprehensivePropertyInfo_lines (propertyData : JS.obj) :
  JS.truthy (JS.get propertyData "id") = true →
  buildComprehensivePropertyInfo propertyData
  = join newline
      ("Property Information:"
       :: map (λ e, property_line e.1 e.2)
              (List.filter (λ e, has_text e.2) (fieldMappings propertyData))
       ++ map (λ key, property_line (label_of_key key)
                                   (JS.get propertyData key))
              (List.filter (is_additional propertyData)
                           (JS.keys propertyData))).
Proof.
  intros Hid. unfold buildComprehensivePropertyInfo. rewrite Hid.
  cbn [negb]. rewrite additional_lines_spec, mapped_lines_spec.
  rewrite <- app_assoc. f_equal.
Qed.

Lemma has_text_true (value : JS.value) :
  has_text value = true →
  JS.truthy value = true
  ∧ trim (JS.String value) ≠ ""
  ∧ trim (JS.String value) ≠ "null".
Proof.
  unfold has_text. intros Ht.
  apply andb_true_iff in Ht as [Ht Hnull].
  apply andb_true_iff in Ht as [Ht Hblank].
  split; [exact Ht|]. split.
  - intros Hempty. rewrite Hempty in Hblank. discriminate.
  - apply negb_true_iff in Hnull. now apply String.eqb_neq.
Qed.

Lemma join_header_not_unavailable (lines : list string) :
  join newline ("Property Information:" :: lines)
  ≠ "Property Information: Not available".
Proof.
  destruct lines as [|line rest]; [discriminate|].
  cbn [join]. intros Heq. cbn in Heq. discriminate Heq.
Qed.

(** X12: the text that [buildComprehensivePropertyInfo] returns. Without a
    truthy [id] it is "Property Information: Not available". Otherwise it
    is the header "Property Information:" followed by at most 33 lines plus
    one per column, joined by line feeds; every line is
    ["- " label ": " String(value)] for a value that is truthy, whose text
    is neither blank nor "null" once trimmed, and that is either the value
    of a label of [fieldMappings] or the value of a column outside
    [excludeKeys], labelled by the title-cased column name. The text is then
    never the "Not available" one. *)
Theorem X12_property_information_lines :
  ∀ (propertyData : JS.obj),
    (JS.truthy (JS.get propertyData "id") = false →
     buildComprehensivePropertyInfo propertyData
     = "Property Information: Not available")
    ∧ (JS.truthy (JS.get propertyData "id") = true →
       ∃ lines,
         buildComprehensivePropertyInfo propertyData
         = join newline ("Property Information:" :: lines)
         ∧ (length lines ≤ 33 + length propertyData)%nat
         ∧ Forall
             (λ line,
                ∃ label value,
                  line = "- " +:+ label +:+ ": " +:+ JS.String value
                  ∧ JS.truthy value = true
                  ∧ trim (JS.String value) ≠ ""
                  ∧ trim (JS.String value) ≠ "null"
                  ∧ (In (label, value) (fieldMappings propertyData)
                     ∨ ∃ key,
                         In key (JS.keys propertyData)
                         ∧ ¬ In key excludeKeys
                         ∧ label = label_of_key key
                         ∧ value = JS.get propertyData key))
             lines
         ∧ buildComprehensivePropertyInfo propertyData
           ≠ "Property Information: Not available").
Proof.
  intros propertyData. split.
  - intros Hid. unfold buildComprehensivePropertyInfo. now rewrite Hid.
  - intros Hid. rewrite (buildComprehensivePropertyInfo_lines _ Hid).
    eexists. split; [reflexivity|]. split; [|split].
    + rewrite length_app, !length_map.
      pose proof (List.filter_length_le (λ e, has_text e.2)
                    (fieldMappings propertyData)) as H1.
      pose proof (List.filter_length_le (is_additional propertyData)
                    (JS.keys propertyData)) as H2.
      unfold JS.keys in H2 at 2. rewrite length_map in H2.
      change (length (fieldMappings propertyData)) with 33%nat in H1. lia.
    + apply Forall_app. split; apply List.Forall_forall; intros line Hline;
        apply in_map_iff in Hline as (x & <- & Hx);
        apply filter_In in Hx as [Hx Htext].
      * destruct x as [label value]. cbn [fst snd] in *.
        destruct (has_text_true value Htext) as (Ht & Hb & Hn).
        exists label, value. repeat split; try assumption. now left.
      * unfold is_additional in Htext.
        apply andb_true_iff in Htext as [Hcond Htext].
        apply andb_true_iff in Hcond as [Hexcl _].
        destruct (has_text_true _ Htext) as (Ht & Hb & Hn).
        exists (label_of_key x), (JS.get propertyData x).
        repeat split; try assumption. right. exists x.
        repeat split; try assumption.
        intros Hin. apply negb_true_iff in Hexcl.
        unfold Array_includes in Hexcl.
        assert (Hex : existsb (λ y, y === x) excludeKeys = true);
          [|congruence].
        apply existsb_exists. exists x. split; [exact Hin|].
        apply String.eqb_refl.
    + apply join_header_not_unavailable.
Qed.

(** The demo row: four lines after the header. *)
Lemma X12_property_information_lines_witness :
  buildComprehensivePropertyInfo demo_property
  ≠ "Property Information: Not available"
  ∧ buildComprehensivePropertyInfo (JS.set demo_property "id" JS.null)
    = "Property Information: Not available".
Proof.
  split.
  - destruct (proj2 (X12_property_information_lines demo_property) eq_refl)
      as (lines & _ & _ & _ & Hne). exact Hne.
  - apply (proj1 (X12_property_information_lines
                    (JS.set demo_property "id" JS.null))). reflexivity.
Defined.

Lemma JS_get_set_ne (o : JS.obj) (key key' : string) (v : JS.value) :
  key ≠ key' → JS.get (JS.set o key v) key' = JS.get o key'.
Proof.
  intros Hne. induction o as [|[k x] rest IH]; [reflexivity|].
  cbn [JS.set]. destruct (String.eqb_spec k key) as [-> | Hk].
  - cbn [JS.get]. apply String.eqb_neq in Hne. now rewrite Hne.
  - cbn [JS.get]. destruct (k === key'); [reflexivity | exact IH].
Qed.

Lemma JS_keys_set (o : JS.obj) (key : string) (v : JS.value) :
  JS.keys (JS.set o key v) = JS.keys o.
Proof.
  unfold JS.keys. induction o as [|[k x] rest IH]; [reflexivity|].
  cbn [JS.set]. destruct (k === key); cbn [map fst]; [reflexivity|].
  now rewrite IH.
Qed.

Lemma fieldMappings_set_excluded (o : JS.obj) (key : string) (v : JS.value) :
  In key excludeKeys →
  fieldMappings (JS.set o key v) = fieldMappings o.
Proof.
  intros Hin. unfold fieldMappings.
  repeat (destruct Hin as [<- | Hin];
          [rewrite !JS_get_set_ne by discriminate; reflexivity|]).
  destruct Hin.
Qed.

Lemma additional_lines_set_excluded (o : JS.obj) (key : string)
    (v : JS.value) (keys : list string) :
  In key excludeKeys →
  ∀ propertyLines,
    additional_lines (JS.set o key v) keys propertyLines
    = additional_lines o keys propertyLines.
Proof.
  intros Hin. induction keys as [|k rest IH]; intros propertyLines;
    [reflexivity|].
  cbn [additional_lines]. rewrite fieldMappings_set_excluded by assumption.
  destruct (Array_includes excludeKeys k) eqn:Hexcl; cbn [negb andb];
    [apply IH|].
  assert (Hne : key ≠ k).
  { intros ->. unfold Array_includes in Hexcl.
    assert (Hex : existsb (λ y, y === k) excludeKeys = true);
      [|congruence].
    apply existsb_exists. exists k. split; [exact Hin|].
    apply String.eqb_refl. }
  rewrite !JS_get_set_ne by assumption.
  destruct (negb (JS.includes _ _)); [|apply IH].
  destruct (has_text (JS.get o k)); apply IH.
Qed.

(** X13: the columns of [excludeKeys] other than [id] never reach the
    text: writing any value to [account_id], [created_at], [updated_at],
    [is_active], [faqs] or [scenario_data] of the row leaves the result of
    [buildComprehensivePropertyInfo] unchanged. *)
Theorem X13_excluded_columns_do_not_show :
  ∀ (propertyData : JS.obj) (key : string) (value : JS.value),
    In key ["account_id"; "created_at"; "updated_at"; "is_active"; "faqs";
            "scenario_data"] →
    buildComprehensivePropertyInfo (JS.set propertyData key value)
    = buildComprehensivePropertyInfo propertyData.
Proof.
  intros propertyData key value Hin.
  assert (Hexcl : In key excludeKeys) by (right; exact Hin).
  assert (Hid : key ≠ "id").
  { intros ->. simpl in Hin. intuition discriminate. }
  unfold buildComprehensivePropertyInfo.
  rewrite JS_get_set_ne by assumption.
  rewrite fieldMappings_set_excluded, JS_keys_set by assumption.
  now rewrite additional_lines_set_excluded.
Qed.

(** The account of the demo row. *)
Lemma X13_excluded_columns_do_not_show_witness :
  buildComprehensivePropertyInfo
    (JS.set demo_property "account_id" (JS.number 99))
  = buildComprehensivePropertyInfo demo_property.
Proof.
  apply X13_excluded_columns_do_not_show. simpl. auto.
Defined.

Lemma same_value_zero_refl (v : JS.value) : JS.same_value_zero v v = true.
Proof.
  destruct v as [| |[]|n|s0|id text]; simpl; try reflexivity.
  - apply Z.eqb_refl.
  - apply String.eqb_refl.
  - apply Nat.eqb_refl.
Qed.

Lemma JS_includes_In (arr : list JS.value) (v : JS.value) :
  In v arr → JS.includes arr v = true.
Proof.
  intros Hin. unfold JS.includes. apply existsb_exists.
  exists v. split; [exact Hin | apply same_value_zero_refl].
Qed.

Lemma has_text_truthy (v : JS.value) :
  JS.truthy v = false → has_text v = false.
Proof. intros Hv. unfold has_text. now rewrite Hv. Qed.

Lemma mapped_column_value (propertyData : JS.obj) (key : string) :
  In key mapped_columns →
  JS.truthy (JS.get propertyData key) = false
  ∨ In (JS.get propertyData key) (JS.values (fieldMappings propertyData)).
Proof.
  intros Hin. unfold mapped_columns in Hin.
  destruct Hin as [<- | Hin].
  { destruct (JS.truthy (JS.get propertyData "property_title")) eqn:Ht;
      [right | now left].
    cbn. left. unfold JS.or. now rewrite Ht. }
  destruct Hin as [<- | Hin].
  { destruct (JS.truthy (JS.get propertyData "property_location")) eqn:Ht;
      [right | now left].
    cbn. right. left. unfold JS.or. now rewrite Ht. }
  right. unfold fieldMappings, JS.values. cbn [map snd].
  do 2 right.
  repeat (destruct Hin as [<- | Hin];
          [repeat (first [left; reflexivity | right])|]).
  destruct Hin.
Qed.

(** X14: the second loop of [buildComprehensivePropertyInfo] drops a
    column by its value. A column whose value is the value of some label of
    [fieldMappings] (compared as [Array.prototype.includes] does) adds no
    line, whatever its name; so no column that [fieldMappings] reads first
    for a label is listed a second time, and a further column that happens
    to hold the same value as a mapped one is left out. *)
Theorem X14_columns_are_dropped_by_value :
  ∀ (propertyData : JS.obj) (key : string),
    (In key mapped_columns → is_additional propertyData key = false)
    ∧ (∀ label value,
          In (label, value) (fieldMappings propertyData) →
          JS.same_value_zero value (JS.get propertyData key) = true →
          is_additional propertyData key = false)
    ∧ (is_additional propertyData key = false →
       ∀ propertyLines,
         additional_lines propertyData [key] propertyLines = propertyLines).
Proof.
  intros propertyData key. split; [|split].
  - intros Hin. unfold is_additional.
    destruct (mapped_column_value propertyData key Hin) as [Hfalsy | Hval].
    + rewrite (has_text_truthy _ Hfalsy). apply andb_false_r.
    + rewrite (JS_includes_In _ _ Hval). cbn [negb].
      now rewrite andb_false_r.
  - intros label value Hin Hsame. unfold is_additional.
    assert (Hinc : JS.includes (JS.values (fieldMappings propertyData))
                               (JS.get propertyData key) = true).
    { unfold JS.includes. apply existsb_exists. exists value.
      split; [|exact Hsame]. unfold JS.values.
      apply in_map_iff. now exists (label, value). }
    rewrite Hinc. cbn [negb]. now rewrite andb_false_r.
  - intros Hnot propertyLines. rewrite additional_lines_spec.
    cbn [List.filter]. rewrite Hnot. cbn [map]. apply app_nil_r.
Qed.

(** The demo row: [floors] holds 2 as [bedrooms] does and is left out;
    [wifi_password] is not listed twice. *)
Lemma X14_columns_are_dropped_by_value_witness :
  is_additional demo_property "floors" = false
  ∧ is_additional demo_property "wifi_password" = false
  ∧ is_additional demo_property "pool_rules" = true.
Proof.
  destruct (X14_columns_are_dropped_by_value demo_property "floors")
    as (_ & Hvalue & _).
  destruct (X14_columns_are_dropped_by_value demo_property "wifi_password")
    as (Hmapped & _ & _).
  split; [|split].
  - apply (Hvalue "Number of Bedrooms" (JS.number 2)); [|reflexivity].
    vm_compute. auto 10.
  - apply Hmapped. vm_compute. auto 10.
  - reflexivity.
Defined.

(** ** Extra properties: the authentication middleware *)

Lemma split_on_not_nil (sep : ascii) (s : string) : split_on sep s ≠ [].
Proof.
  destruct s as [|c s]; [discriminate|]. simpl.
  destruct (Ascii.eqb c sep); [discriminate|].
  destruct (split_on sep s); discriminate.
Qed.

(** A first part without space, a space, and the rest. *)
Lemma split_on_space_app (scheme rest : string) :
  no_space scheme = true →
  split_on " " (scheme +:+ String " " rest) = scheme :: split_on " " rest.
Proof.
  induction scheme as [|c scheme IH]; intros Hno; [reflexivity|].
  cbn [no_space] in Hno. apply andb_true_iff in Hno as [Hc Hno].
  apply negb_true_iff in Hc.
  change (String c scheme +:+ String " " rest)
    with (String c (scheme +:+ String " " rest)).
  cbn [split_on]. rewrite Hc, (IH Hno). reflexivity.
Qed.

Lemma bearer_token_scheme (scheme rest : string) :
  no_space scheme = true → scheme ≠ "" →
  bearer_token (Some (scheme +:+ String " " rest))
  = head (split_on " " rest).
Proof.
  intros Hno Hne. unfold bearer_token.
  assert (Ht : truthy (scheme +:+ String " " rest) = true)
    by (destruct scheme; [contradiction | reflexivity]).
  rewrite Ht, split_on_space_app by assumption.
  cbn [nth_error]. destruct (split_on " " rest); reflexivity.
Qed.

Lemma head_split_on_space (token rest : string) :
  no_space token = true →
  head (split_on " " (token +:+ String " " rest)) = Some token
  ∧ head (split_on " " token) = Some token.
Proof.
  intros Hno. split.
  - now rewrite split_on_space_app.
  - induction token as [|c token IH]; [reflexivity|].
    cbn [no_space] in Hno. apply andb_true_iff in Hno as [Hc Hno].
    apply negb_true_iff in Hc. cbn [split_on]. rewrite Hc.
    specialize (IH Hno). destruct (split_on " " token); [discriminate|].
    cbn in *. congruence.
Qed.

Lemma authenticateToken_next_iff (jwt_verify : string → Jwt.verification)
    (req req' : Express.request) :
  authenticateToken jwt_verify req = Express.next req'
  ↔ ∃ header token decoded,
      Express.authorization req = Some header
      ∧ nth_error (split_on " " header) 1 = Some token
      ∧ token ≠ ""
      ∧ jwt_verify token = Jwt.verified decoded
      ∧ req' = Express.set_user req (user_of_payload decoded).
Proof.
  unfold authenticateToken, bearer_token. split.
  - destruct (Express.authorization req) as [header|]; [|discriminate].
    destruct (truthy header) eqn:Hh.
    + destruct (nth_error (split_on " " header) 1) as [token|] eqn:Htok;
        [|discriminate].
      cbn [no_token default from_option id].
      destruct (truthy token) eqn:Ht; cbn [negb]; [|discriminate].
      destruct (jwt_verify token) as [decoded| |] eqn:Hv;
        try discriminate.
      intros Heq. injection Heq as <-. exists header, token, decoded.
      repeat split; try assumption.
      intros ->. discriminate.
    + cbn [no_token]. rewrite Hh. discriminate.
  - intros (header & token & decoded & -> & Htok & Hne & Hv & ->).
    assert (Hh : truthy header = true).
    { destruct header; [discriminate Htok | reflexivity]. }
    rewrite Hh, Htok. cbn [no_token default from_option id].
    assert (Ht : truthy token = true)
      by (destruct token; [contradiction | reflexivity]).
    rewrite Ht, Hv. reflexivity.
Qed.

(** X15: what [authenticateToken] takes for the token. It hands the
    request on exactly when the header has a second part between spaces
    that is not empty and that [jwt.verify] accepts, and then [req.user]
    holds the claims of that token. The first part is not looked at: any
    scheme word leads to the same response, or the same user, as "Bearer";
    and whatever follows a further space is ignored. *)
Theorem X15_authenticateToken_reads_the_second_part :
  ∀ (jwt_verify : string → Jwt.verification) (req : Express.request),
    (∀ req',
        authenticateToken jwt_verify req = Express.next req'
        ↔ ∃ header token decoded,
            Express.authorization req = Some header
            ∧ nth_error (split_on " " header) 1 = Some token
            ∧ token ≠ ""
            ∧ jwt_verify token = Jwt.verified decoded
            ∧ req' = Express.set_user req (user_of_payload decoded))
    ∧ (∀ scheme rest,
          no_space scheme = true → scheme ≠ "" →
          Express.decision
            (authenticateToken jwt_verify
               (Express.mk_request (Some (scheme +:+ String " " rest))
                                   (Express.req_user req)
                                   (Express.params_id req)))
          = Express.decision
              (authenticateToken jwt_verify
                 (Express.mk_request (Some ("Bearer" +:+ String " " rest))
                                     (Express.req_user req)
                                     (Express.params_id req))))
    ∧ (∀ token extra,
          no_space token = true →
          Express.decision
            (authenticateToken jwt_verify
               (Express.mk_request
                  (Some ("Bearer " +:+ token +:+ String " " extra))
                  (Express.req_user req) (Express.params_id req)))
          = Express.decision
              (authenticateToken jwt_verify
                 (Express.mk_request (Some ("Bearer " +:+ token))
                                     (Express.req_user req)
                                     (Express.params_id req)))).
Proof.
  intros jwt_verify req. split; [|split].
  - intros req'. apply authenticateToken_next_iff.
  - intros scheme rest Hno Hne. unfold authenticateToken.
    cbn [Express.authorization].
    rewrite (bearer_token_scheme scheme rest Hno Hne).
    rewrite (bearer_token_scheme "Bearer" rest eq_refl); [|discriminate].
    destruct (no_token _); [reflexivity|].
    destruct (jwt_verify _); reflexivity.
  - intros token extra Hno. unfold authenticateToken.
    cbn [Express.authorization].
    change ("Bearer " +:+ token +:+ String " " extra)
      with ("Bearer" +:+ String " " (token +:+ String " " extra)).
    change ("Bearer " +:+ token) with ("Bearer" +:+ String " " token).
    rewrite !(bearer_token_scheme "Bearer") by (reflexivity || discriminate).
    destruct (head_split_on_space token extra Hno) as [-> ->].
    destruct (no_token _); [reflexivity|].
    destruct (jwt_verify _); reflexivity.
Qed.

(** "Basic good" is treated as "Bearer good" is. *)
Lemma X15_authenticateToken_reads_the_second_part_witness :
  Express.decision
    (authenticateToken demo_verify (request_with "Basic good"))
  = Express.decision
      (authenticateToken demo_verify (request_with "Bearer good")).
Proof.
  apply (proj1 (proj2 (X15_authenticateToken_reads_the_second_part
                         demo_verify (request_with "x")))
           "Basic" "good"); [reflexivity | discriminate].
Defined.

Lemma strict_equal_str (v : JS.value) (text : string) :
  strict_equal v (JS.str text) = true ↔ v = JS.str text.
Proof.
  unfold strict_equal. destruct v; simpl; split; try discriminate.
  - intros Heq. apply String.eqb_eq in Heq. now subst.
  - intros [= ->]. apply String.eqb_refl.
Qed.

Lemma authenticateToken_responses (jwt_verify : string → Jwt.verification)
    (req : Express.request) (r : Express.response) :
  authenticateToken jwt_verify req = Express.responded r →
  r = Express.json 401 "Access token required"
  ∨ r = Express.json 401 "Token expired"
  ∨ r = Express.json 403 "Invalid token".
Proof.
  unfold authenticateToken. destruct (no_token _).
  - intros [= <-]. now left.
  - destruct (jwt_verify _); [discriminate| |]; intros [= <-]; auto.
Qed.

(** X16: the admin gate, [authenticateToken] followed by [requireAdmin]
    as in the routes that list and delete users. The request reaches the
    handler exactly when the header carries a token that [jwt.verify]
    accepts and whose [role] claim is the string "admin"; the role is taken
    from the token alone. Otherwise the answer is 401 or 403, and 403
    "Admin access required" for a valid token of another role.
    [requireAdmin] on its own refuses every request without [req.user]. *)
Theorem X16_admin_gate :
  ∀ (jwt_verify : string → Jwt.verification) (req : Express.request),
    let gate := Express.chain (authenticateToken jwt_verify) requireAdmin in
    (∀ req',
        gate req = Express.next req'
        ↔ ∃ header token decoded,
            Express.authorization req = Some header
            ∧ nth_error (split_on " " header) 1 = Some token
            ∧ token ≠ ""
            ∧ jwt_verify token = Jwt.verified decoded
            ∧ Jwt.role decoded = JS.str "admin"
            ∧ req' = Express.set_user req (user_of_payload decoded))
    ∧ (∀ r, gate req = Express.responded r →
            Express.status r = 401%nat ∨ Express.status r = 403%nat)
    ∧ (∀ req' decoded,
          authenticateToken jwt_verify req = Express.next req' →
          Express.req_user req' = Some (user_of_payload decoded) →
          Jwt.role decoded ≠ JS.str "admin" →
          gate req
          = Express.responded (Express.json 403 "Admin access required"))
    ∧ (Express.req_user req = None →
       requireAdmin req
       = Express.responded (Express.json 403 "Admin access required")).
Proof.
  intros jwt_verify req gate. subst gate. unfold Express.chain.
  split; [|split; [|split]].
  - intros req'. split.
    + destruct (authenticateToken jwt_verify req) as [r|req1] eqn:Hauth;
        [discriminate|].
      apply authenticateToken_next_iff in Hauth
        as (header & token & decoded & Hh & Htok & Hne & Hv & ->).
      unfold requireAdmin. cbn [Express.req_user Express.set_user].
      destruct (strict_equal _ _) eqn:Hrole; cbn [negb]; [|discriminate].
      intros [= <-]. apply strict_equal_str in Hrole.
      exists header, token, decoded. repeat split; assumption.
    + intros (header & token & decoded & Hh & Htok & Hne & Hv & Hrole & ->).
      assert (Hauth : authenticateToken jwt_verify req
                      = Express.next
                          (Express.set_user req (user_of_payload decoded))).
      { apply authenticateToken_next_iff.
        exists header, token, decoded. repeat split; assumption. }
      rewrite Hauth. unfold requireAdmin.
      cbn [Express.req_user Express.set_user user_of_payload Express.role].
      rewrite Hrole. reflexivity.
  - intros r.
    destruct (authenticateToken jwt_verify req) as [r1|req1] eqn:Hauth.
    + intros [= <-].
      destruct (authenticateToken_responses _ _ _ Hauth) as [-> | [-> | ->]];
        auto.
    + unfold requireAdmin. destruct (Express.req_user req1) as [u|].
      * destruct (negb _); [|discriminate]. intros [= <-]. now right.
      * intros [= <-]. now right.
  - intros req' decoded Hauth Huser Hrole. rewrite Hauth.
    unfold requireAdmin. rewrite Huser.
    cbn [user_of_payload Express.role].
    destruct (strict_equal _ _) eqn:Heq; [|reflexivity].
    apply strict_equal_str in Heq. contradiction.
  - intros Hnone. unfold requireAdmin. now rewrite Hnone.
Qed.

(** The token of a plain user is verified and then refused. *)
Lemma X16_admin_gate_witness :
  Express.chain (authenticateToken demo_verify) requireAdmin
    (request_with "Bearer user")
  = Express.responded (Express.json 403 "Admin access required").
Proof.
  eapply (proj1 (proj2 (proj2 (X16_admin_gate demo_verify
                                 (request_with "Bearer user"))))).
  - reflexivity.
  - reflexivity.
  - discriminate.
Defined.

(** X17: [optionalAuth] never answers: it always hands the request on.
    When [authenticateToken] would pass the request, [optionalAuth] hands on
    the very same request, with the user of the token; when
    [authenticateToken] would refuse it (no token, an expired or an invalid
    one), [optionalAuth] hands the request on as it came, [req.user]
    untouched. *)
Theorem X17_optionalAuth_never_refuses :
  ∀ (jwt_verify : string → Jwt.verification) (req : Express.request),
    (∃ req', optionalAuth jwt_verify req = Express.next req')
    ∧ (∀ req',
          authenticateToken jwt_verify req = Express.next req' →
          optionalAuth jwt_verify req = Express.next req')
    ∧ (∀ r,
          authenticateToken jwt_verify req = Express.responded r →
          optionalAuth jwt_verify req = Express.next req).
Proof.
  intros jwt_verify req. unfold optionalAuth, authenticateToken.
  destruct (no_token _).
  - split; [eauto|]. split; [discriminate | reflexivity].
  - destruct (jwt_verify _); (split; [eauto|]); split;
      try discriminate; try reflexivity; tauto.
Qed.

(** An expired token: refused by [authenticateToken], let through without
    a user by [optionalAuth]. *)
Lemma X17_optionalAuth_never_refuses_witness :
  optionalAuth demo_verify (request_with "Bearer old")
  = Express.next (request_with "Bearer old").
Proof.
  eapply (proj2 (proj2 (X17_optionalAuth_never_refuses demo_verify
                          (request_with "Bearer old")))).
  reflexivity.
Defined.

(** * The user routes *)

Lemma isAdmin_true (req : Route.request) :
  isAdmin req = true ↔ Express.role (Route.user req) = JS.str "admin".
Proof. apply strict_equal_str. Qed.

Lemma isSelf_true (req : Route.request) :
  isSelf req = true ↔ Express.id (Route.user req) = JS.str (Route.id req).
Proof. apply strict_equal_str. Qed.

Lemma denied_iff (req : Route.request) :
  negb (isAdmin req) && negb (isSelf req) = true
  ↔ Express.role (Route.user req) ≠ JS.str "admin"
    ∧ Express.id (Route.user req) ≠ JS.str (Route.id req).
Proof.
  rewrite <- isAdmin_true, <- isSelf_true.
  destruct (isAdmin req), (isSelf req); cbn; intuition congruence.
Qed.

(** The statements that [update_user] can build. *)
Lemma updates_and_values_cases (req : Route.request) :
  ∀ updates values,
    updates_and_values req = (updates, values) →
    let sql :=
      "UPDATE users SET "
      +:+ join ", " (updates ++ ["updated_at = CURRENT_TIMESTAMP"])
      +:+ " WHERE id = ?" in
    placeholders sql = length (values ++ [JS.str (Route.id req)])
    ∧ (isAdmin req = false →
       includes sql "role" = false ∧ includes sql "is_active" = false).
Proof.
  intros updates values. unfold updates_and_values.
  destruct (is_defined (Route.firstName (Route.fields_of req))),
    (is_defined (Route.lastName (Route.fields_of req))), (isAdmin req),
    (is_defined (Route.role (Route.fields_of req))),
    (is_defined (Route.isActive (Route.fields_of req)));
    intros [= <- <-]; (split; [vm_compute; reflexivity |]);
    try discriminate; intros _; split; vm_compute; reflexivity.
Qed.

(** X18: who may read or change a user. With valid input, each of the
    handlers of [GET /:id], [PUT /:id] and [PUT /:id/password] answers 403
    exactly when the role of the token is not the string "admin" and the
    id of the token is not the string of the path; it then answers "Access
    denied" before any call to the store or to bcrypt. The comparison is
    [===]: a token whose [userId] is a number is never the user of the
    path. *)
Theorem X18_access_denied :
  ∀ (o : Route.outside) (made : list Route.call) (req : Route.request)
    (handler : Route.request → Route.program),
    Route.errors req = [] →
    In handler [get_user; update_user; change_password] →
    let denied :=
      Express.role (Route.user req) ≠ JS.str "admin"
      ∧ Express.id (Route.user req) ≠ JS.str (Route.id req) in
    (fst (fst (Route.execute o (handler req) made)) = 403%nat ↔ denied)
    ∧ (denied →
       Route.execute o (handler req) made
       = ((403%nat, Route.error_body "Access denied"), made))
    ∧ (∀ n, Express.id (Route.user req) = JS.number n →
            Express.role (Route.user req) ≠ JS.str "admin" → denied).
Proof.
  intros o made req handler Herr Hin denied. subst denied.
  rewrite <- denied_iff.
  split; [|split].
  - destruct Hin as [<-|[<-|[<-|[]]]].
    + unfold get_user. destruct (negb (isAdmin req) && negb (isSelf req)).
      * cbn. tauto.
      * cbn. destruct (Route.get_returns _ _ _ _) as [[u|]|]; cbn;
          split; discriminate.
    + unfold update_user. rewrite Herr. cbn [length Nat.eqb negb].
      destruct (negb (isAdmin req) && negb (isSelf req)).
      * cbn. tauto.
      * destruct (updates_and_values req) as [updates values].
        destruct (Nat.eqb (length updates) 0); cbn;
          [split; discriminate|].
        destruct (Route.run_returns _ _ _ _) as [changes|]; cbn;
          [|split; discriminate].
        destruct (Route.get_returns _ _ _ _) as [[u|]|]; cbn;
          split; discriminate.
    + unfold change_password. rewrite Herr. cbn [length Nat.eqb negb].
      destruct (negb (isAdmin req) && negb (isSelf req)).
      * cbn. tauto.
      * cbn. destruct (Route.get_returns _ _ _ _) as [[u|]|]; cbn;
          try (split; discriminate).
        destruct (isSelf req); cbn.
        -- destruct (Route.compare_returns _ _ _ _) as [[|]|]; cbn;
             try (split; discriminate).
           destruct (Route.hash_returns _ _ _ _) as [h|]; cbn;
             [|split; discriminate].
           destruct (Route.run_returns _ _ _ _) as [changes|]; cbn;
             split; discriminate.
        -- destruct (Route.hash_returns _ _ _ _) as [h|]; cbn;
             [|split; discriminate].
           destruct (Route.run_returns _ _ _ _) as [changes|]; cbn;
             split; discriminate.
  - intros Hden.
    destruct Hin as [<-|[<-|[<-|[]]]];
      unfold get_user, update_user, change_password;
      rewrite ?Herr; cbn [length Nat.eqb negb]; rewrite Hden; reflexivity.
  - intros n Hid Hrole. split; [assumption|].
    rewrite Hid. discriminate.
Qed.

(** A plain user whose token carries the number 2 is refused their own
    record at the path id "2". *)
Lemma X18_access_denied_witness :
  Route.execute found_outside (get_user numeric_user_request) []
  = ((403%nat, Route.error_body "Access denied"), []).
Proof.
  apply (proj1 (proj2 (X18_access_denied found_outside []
                         numeric_user_request get_user eq_refl
                         (or_introl eq_refl)))).
  split; discriminate.
Defined.

(** X19: the statement that [PUT /:id] hands to the store. Whatever the
    body, the only statement run has as many [?] as parameters, and its
    last parameter is the id of the path. For a caller who is not an admin
    the statement names neither [role] nor [is_active], whatever the body
    asks for, and the caller is the user of the path. *)
Theorem X19_update_statement :
  ∀ (o : Route.outside) (req : Route.request) (sql : string)
    (params : list JS.value),
    In (Route.run sql params)
       (snd (Route.execute o (update_user req) [])) →
    placeholders sql = length params
    ∧ last params = Some (JS.str (Route.id req))
    ∧ (isAdmin req = false →
       includes sql "role" = false
       ∧ includes sql "is_active" = false
       ∧ Express.id (Route.user req) = JS.str (Route.id req)).
Proof.
  intros o req sql params. unfold update_user.
  destruct (negb (Nat.eqb (length (Route.errors req)) 0)); [intros []|].
  destruct (negb (isAdmin req) && negb (isSelf req)) eqn:Hden;
    [intros []|].
  destruct (updates_and_values req) as [updates values] eqn:Huv.
  destruct (Nat.eqb (length updates) 0); [intros []|].
  pose proof (updates_and_values_cases req updates values Huv) as [Hn Hna].
  assert (Hthe : Route.run sql params
                 = Route.run ("UPDATE users SET "
                              +:+ join ", "
                                    (updates
                                     ++ ["updated_at = CURRENT_TIMESTAMP"])
                              +:+ " WHERE id = ?")
                             (values ++ [JS.str (Route.id req)]) →
                 placeholders sql = length params
                 ∧ last params = Some (JS.str (Route.id req))
                 ∧ (isAdmin req = false →
                    includes sql "role" = false
                    ∧ includes sql "is_active" = false
                    ∧ Express.id (Route.user req) = JS.str (Route.id req))).
  { intros [= -> ->]. split; [exact Hn|]. split; [apply last_snoc|].
    intros Hadm. destruct (Hna Hadm) as [Hr Ha]. repeat split; try assumption.
    apply isSelf_true. rewrite Hadm in Hden. cbn in Hden.
    now destruct (isSelf req). }
  cbn [Route.execute app].
  destruct (Route.run_returns _ _ _ _) as [changes|]; cbn [snd].
  - destruct (Route.get_returns _ _ _ _) as [[u|]|]; cbn;
      intros [H|[H|H]]; try discriminate; try (now apply Hthe);
      try contradiction.
  - cbn. intros [H|[]]. now apply Hthe.
Qed.

(** An admin changing the first name, the role and the active flag of
    another user: one statement with four parameters. *)
Lemma X19_update_statement_witness :
  placeholders
    "UPDATE users SET first_name = ?, role = ?, is_active = ?, updated_at = CURRENT_TIMESTAMP WHERE id = ?"
  = 4%nat.
Proof.
  apply (proj1 (X19_update_statement found_outside admin_request
                  "UPDATE users SET first_name = ?, role = ?, is_active = ?, updated_at = CURRENT_TIMESTAMP WHERE id = ?"
                  [JS.str "Ana"; JS.str "admin"; JS.boolean false;
                   JS.str "2"]
                  (or_introl eq_refl))).
Defined.

(** X20: what [PUT /:id/password] stores, and when it asks for the current
    password. If the handler runs a statement at all, the user of the path
    was found, the statement carries the bcrypt hash of [newPassword]
    computed with 12 rounds and the id of the path, and: when the id of the
    token is the string of the path, [bcrypt.compare] accepted
    [currentPassword] against the stored hash; otherwise the caller is an
    admin and [bcrypt.compare] is never called, whatever [currentPassword]
    holds. *)
Theorem X20_password_change :
  ∀ (o : Route.outside) (req : Route.request) (sql : string)
    (params : list JS.value),
    let trace := snd (Route.execute o (change_password req) []) in
    let body := Route.fields_of req in
    let select :=
      Route.get "SELECT password_hash FROM users WHERE id = ?"
                [JS.str (Route.id req)] in
    In (Route.run sql params) trace →
    ∃ (u : JS.obj) (passwordHash : string) (made : list Route.call),
      Route.get_returns o [] "SELECT password_hash FROM users WHERE id = ?"
                        [JS.str (Route.id req)] = Some (Some u)
      ∧ Route.hash_returns o made (Route.newPassword body) 12
        = Some passwordHash
      ∧ params = [JS.str passwordHash; JS.str (Route.id req)]
      ∧ placeholders sql = length params
      ∧ (Express.id (Route.user req) = JS.str (Route.id req) →
         Route.compare_returns o [select] (Route.currentPassword body)
                               (JS.get u "password_hash") = Some true)
      ∧ (Express.id (Route.user req) ≠ JS.str (Route.id req) →
         Express.role (Route.user req) = JS.str "admin"
         ∧ ∀ data h, ¬ In (Route.compare data h) trace).
Proof.
  intros o req sql params trace body select. subst trace body select.
  unfold change_password.
  destruct (negb (Nat.eqb (length (Route.errors req)) 0)); [intros []|].
  destruct (negb (isAdmin req) && negb (isSelf req)) eqn:Hden;
    [intros []|].
  cbn [Route.execute app].
  destruct (Route.get_returns _ _ _ _) as [[u|]|];
    [| cbn; intros [H|[]]; discriminate
     | cbn; intros [H|[]]; discriminate].
  destruct (isSelf req) eqn:Hself.
  - cbn [Route.execute app].
    destruct (Route.compare_returns _ _ _ _) as [[|]|] eqn:Hcmp;
      cbn [negb];
      [| cbn; intros [H|[H|[]]]; discriminate
       | cbn; intros [H|[H|[]]]; discriminate].
    cbn [Route.execute app].
    destruct (Route.hash_returns _ _ _ _) as [h|] eqn:Hh;
      [| cbn; intros [H|[H|[H|[]]]]; discriminate].
    cbn [Route.execute app].
    assert (Hres : In (Route.run sql params)
                      [Route.get "SELECT password_hash FROM users WHERE id = ?"
                                 [JS.str (Route.id req)];
                       Route.compare
                         (Route.currentPassword (Route.fields_of req))
                         (JS.get u "password_hash");
                       Route.hash (Route.newPassword (Route.fields_of req))
                                  12;
                       Route.run
                         "UPDATE users SET password_hash = ?, updated_at = CURRENT_TIMESTAMP WHERE id = ?"
                         [JS.str h; JS.str (Route.id req)]] →
                   sql = "UPDATE users SET password_hash = ?, updated_at = CURRENT_TIMESTAMP WHERE id = ?"
                   ∧ params = [JS.str h; JS.str (Route.id req)]).
    { intros [H|[H|[H|[H|[]]]]]; try discriminate.
      injection H as <- <-. split; reflexivity. }
    intros Hin.
    assert (Hin' : sql = "UPDATE users SET password_hash = ?, updated_at = CURRENT_TIMESTAMP WHERE id = ?"
                   ∧ params = [JS.str h; JS.str (Route.id req)]).
    { apply Hres.
      destruct (Route.run_returns _ _ _ _); cbn in Hin; exact Hin. }
    destruct Hin' as [-> ->].
    eexists u, h, _. split; [reflexivity|]. split; [exact Hh|].
    split; [reflexivity|]. split; [reflexivity|]. split.
    + intros _. exact Hcmp.
    + intros Hne. apply isSelf_true in Hself. contradiction.
  - cbn [Route.execute app].
    destruct (Route.hash_returns _ _ _ _) as [h|] eqn:Hh;
      [| cbn; intros [H|[H|[]]]; discriminate].
    cbn [Route.execute app].
    destruct (Route.run_returns _ _ _ _); cbn;
      (intros [H|[H|[H|[]]]]; try discriminate;
       injection H as <- <-;
       eexists u, h, _; split; [reflexivity|]; split; [exact Hh|];
       split; [reflexivity|]; split; [reflexivity|]; split;
       [ intros Heq; apply isSelf_true in Heq; congruence
       | intros _; split;
         [ apply isAdmin_true; now destruct (isAdmin req)
         | intros data h' [H'|[H'|[H'|[]]]]; discriminate ] ]).
Qed.

(** A user changing their own password: the stored hash was compared with
    the current password before the statement ran. *)
Lemma X20_password_change_witness :
  ∃ (u : JS.obj),
    Route.compare_returns found_outside
      [Route.get "SELECT password_hash FROM users WHERE id = ?"
                 [JS.str "2"]]
      (JS.str "old") (JS.get u "password_hash") = Some true.
Proof.
  destruct (X20_password_change found_outside self_request
              "UPDATE users SET password_hash = ?, updated_at = CURRENT_TIMESTAMP WHERE id = ?"
              [JS.str "hash"; JS.str "2"])
    as (u & h & made & _ & _ & _ & _ & Hcmp & _).
  - cbn. right. right. right. left. reflexivity.
  - exists u. apply Hcmp. reflexivity.
Defined.

(** X21: the handler of [DELETE /:id]. It answers 400 and touches nothing
    exactly when the id of the token is the string of the path. Otherwise
    its first call deletes the sessions of the path id, and the user is
    deleted only after that call returned. The answer 404 means that no
    row of [users] changed, and comes after the sessions of that id were
    deleted all the same. *)
Theorem X21_delete_user :
  ∀ (o : Route.outside) (req : Route.request),
    let result := Route.execute o (delete_user req) [] in
    let sessions :=
      Route.run "DELETE FROM user_sessions WHERE user_id = ?"
                [JS.str (Route.id req)] in
    let users :=
      Route.run "DELETE FROM users WHERE id = ?" [JS.str (Route.id req)] in
    (fst (fst result) = 400%nat
     ↔ Express.id (Route.user req) = JS.str (Route.id req))
    ∧ (Express.id (Route.user req) = JS.str (Route.id req) →
       result
       = ((400%nat, Route.error_body "Cannot delete your own account"), []))
    ∧ (Express.id (Route.user req) ≠ JS.str (Route.id req) →
       snd result = [sessions] ∨ snd result = [sessions; users])
    ∧ (In users (snd result) →
       ∃ changes,
         Route.run_returns o []
           "DELETE FROM user_sessions WHERE user_id = ?"
           [JS.str (Route.id req)] = Some changes)
    ∧ (fst (fst result) = 404%nat →
       snd result = [sessions; users]
       ∧ Route.run_returns o [sessions] "DELETE FROM users WHERE id = ?"
                           [JS.str (Route.id req)] = Some 0%nat).
Proof.
  intros o req result sessions users. subst result sessions users.
  rewrite <- isSelf_true. unfold delete_user.
  destruct (isSelf req).
  - cbn. repeat split; try discriminate; try tauto.
  - cbn [Route.execute app].
    destruct (Route.run_returns o [] _ _) as [changes|] eqn:Hs; cbn.
    + destruct (Route.run_returns o [_] _ _) as [[|n]|] eqn:Hu; cbn;
        repeat split; try discriminate; eauto.
    + repeat split; try discriminate; eauto.
      intros [H|[]]. discriminate.
Qed.

(** X22: the route [DELETE /:id] as mounted. A call reaches the store only
    for a request whose header carries a token that [jwt.verify] accepts,
    whose [role] claim is the string "admin" and whose [userId] claim is
    not the string of the path; every such call is a [DELETE] on the path
    id. In particular an admin whose [userId] claim is a number passes the
    guard against deleting one's own account. *)
Theorem X22_delete_needs_an_admin_token :
  ∀ (jwt_verify : string → Jwt.verification) (o : Route.outside)
    (body : Route.fields) (req : Express.request) (c : Route.call),
    In c (snd (delete_route jwt_verify o body req)) →
    (∃ header token decoded,
        Express.authorization req = Some header
        ∧ nth_error (split_on " " header) 1 = Some token
        ∧ jwt_verify token = Jwt.verified decoded
        ∧ Jwt.role decoded = JS.str "admin"
        ∧ Jwt.userId decoded ≠ JS.str (Express.params_id req))
    ∧ (c = Route.run "DELETE FROM user_sessions WHERE user_id = ?"
                     [JS.str (Express.params_id req)]
       ∨ c = Route.run "DELETE FROM users WHERE id = ?"
                       [JS.str (Express.params_id req)]).
Proof.
  intros jwt_verify o body req c. unfold delete_route, Express.chain.
  destruct (authenticateToken jwt_verify req) as [r|req1] eqn:Hauth;
    [intros []|].
  apply authenticateToken_next_iff in Hauth
    as (header & token & decoded & Hh & Htok & Hne & Hv & ->).
  unfold requireAdmin. cbn [Express.req_user Express.set_user].
  destruct (strict_equal (Express.role (user_of_payload decoded))
                         (JS.str "admin")) eqn:Hrole;
    cbn [negb]; [|intros []].
  apply strict_equal_str in Hrole.
  cbn [Express.req_user Express.set_user Express.params_id].
  unfold delete_user.
  destruct (isSelf (Route.mk_request (user_of_payload decoded)
                      (Express.params_id req) [] body)) eqn:Hself;
    [cbn; intros []|].
  assert (Hid : Jwt.userId decoded ≠ JS.str (Express.params_id req)).
  { intros Heq.
    assert (Ht : isSelf
                   (Route.mk_request (user_of_payload decoded)
                      (Express.params_id req) [] body) = true).
    { apply isSelf_true. exact Heq. }
    congruence. }
  intros Hin. split.
  - exists header, token, decoded. repeat split; assumption.
  - revert Hin. cbn [Route.execute app Route.id].
    destruct (Route.run_returns o [] _ _) as [changes|]; cbn.
    + destruct (Route.run_returns o [_] _ _) as [[|n]|]; cbn;
        intros [H|[H|[]]]; auto.
    + intros [H|[]]; auto.
Qed.

(** The admin of the examples, whose [userId] claim is the number 1,
    deleting the user of the path id "2". *)
Lemma X22_delete_needs_an_admin_token_witness :
  ∃ decoded,
    demo_verify "good" = Jwt.verified decoded
    ∧ Jwt.role decoded = JS.str "admin".
Proof.
  destruct (X22_delete_needs_an_admin_token demo_verify found_outside
              (Route.fields_of admin_request) (request_with "Bearer good")
              (Route.run "DELETE FROM users WHERE id = ?" [JS.str "2"]))
    as [(header & token & decoded & Hh & Htok & Hv & Hrole & _) _].
  - cbn. right. left. reflexivity.
  - injection Hh as <-. injection Htok as <-. eauto.
Defined.
